(** * STGCN layer library: a shallow embedding and its verification

    The development follows [src/model/layers.py] (Align, CausalConv2d,
    TemporalConvLayer, ChebGraphConv, GraphConv, GraphConvLayer,
    MultiHeadSelfAttention, STConvBlock, OutputBlock) and the computation
    of [Ko] and [blocks] in [src/main.py] ([get_parameters]).

    Tensors are modelled the way PyTorch stores them: a shape (a list of
    extents) together with the row-major list of elements.  Scalars are
    abstract: every definition is parametric in a type [R] with the
    operations the code uses, so that the definitions can be run on
    integers and the theorems hold for any scalar type. *)

From Stdlib Require Import String.
From Stdlib Require Import List Arith ZArith Lia Bool.
Import ListNotations.

(** ** Exceptions and results *)

Inductive error : Type :=
| RuntimeError
| ValueError
| IndexError
| TypeError
| AttributeError
| NotImplementedError
| UnboundLocalError
| AssertionError.

Inductive result (A : Type) : Type :=
| Ok (a : A)
| Raise (e : error).

Arguments Ok {A} a.
Arguments Raise {A} e.

Definition bind {A B : Type} (m : result A) (k : A -> result B) : result B :=
  match m with
  | Ok a => k a
  | Raise e => Raise e
  end.

Notation "x <- m ;; k" := (bind m (fun x => k))
  (at level 61, m at next level, right associativity).

Definition raises {A : Type} (m : result A) : Prop :=
  exists e, m = Raise e.

Definition is_ok {A : Type} (m : result A) : bool :=
  match m with Ok _ => true | Raise _ => false end.

(** ** Scalars *)

Class Scalar (R : Type) : Type := {
  zero : R;
  one : R;
  add : R -> R -> R;
  sub : R -> R -> R;
  mul : R -> R -> R;
  div : R -> R -> R;
  sqrt : R -> R;
  of_nat : nat -> R;
  sigmoid : R -> R;
  tanh : R -> R;
  relu : R -> R;
  leaky_relu : R -> R;
  silu : R -> R
}.

(** The algebraic laws used by the theorems that compute with sums. *)
Class ScalarLaws (R : Type) {RS : Scalar R} : Prop := {
  add_zero_l : forall a : R, add zero a = a;
  add_zero_r : forall a : R, add a zero = a;
  mul_zero_l : forall a : R, mul zero a = zero
}.

(** Integers as scalars: used to run the definitions on concrete inputs.
    Small integers and their sums and products are exact in floating
    point, so an integer run is also a run of the floating-point code.
    The activation functions are not computable on integers; the integer
    instance keeps [relu] and uses stand-ins for the others. *)
#[export] Instance Z_Scalar : Scalar Z := {|
  zero := 0%Z;
  one := 1%Z;
  add := Z.add;
  sub := Z.sub;
  mul := Z.mul;
  div := Z.div;
  sqrt := Z.sqrt;
  of_nat := Z.of_nat;
  sigmoid := fun x => x;
  tanh := fun x => x;
  relu := fun x => Z.max 0 x;
  leaky_relu := fun x => x;
  silu := fun x => x
|}.

(** ** Tensors *)

Section Tensors.

Context {R : Type} {RS : Scalar R}.

Record Tensor : Type := mkTensor {
  shape : list nat;
  data : list R
}.

Fixpoint numel (s : list nat) : nat :=
  match s with
  | [] => 1
  | d :: s' => d * numel s'
  end.

(** Row-major offset of a multi-index. *)
Fixpoint offset (s idx : list nat) : nat :=
  match s, idx with
  | d :: s', i :: idx' => i * numel s' + offset s' idx'
  | _, _ => 0
  end.

(** All multi-indices of a shape, in row-major order. *)
Fixpoint indices (s : list nat) : list (list nat) :=
  match s with
  | [] => [[]]
  | d :: s' => flat_map (fun i => map (cons i) (indices s')) (seq 0 d)
  end.

Definition tab (s : list nat) (f : list nat -> R) : Tensor :=
  {| shape := s; data := map f (indices s) |}.

Definition get (x : Tensor) (idx : list nat) : R :=
  nth (offset (shape x) idx) (data x) zero.

Definition wf (x : Tensor) : Prop :=
  length (data x) = numel (shape x).

Fixpoint in_range (idx s : list nat) : Prop :=
  match idx, s with
  | [], [] => True
  | i :: idx', d :: s' => i < d /\ in_range idx' s'
  | _, _ => False
  end.

Definition dim (x : Tensor) (i : nat) : nat := nth i (shape x) 0.

Definition sumn (n : nat) (f : nat -> R) : R :=
  fold_left (fun acc i => add acc (f i)) (seq 0 n) zero.

End Tensors.

Arguments Tensor R : clear implicits.

(** ** The PyTorch operations the layers use

    Activations are rank-4 tensors [[batch; channel; time; vertex]]
    throughout the repository.  The operations take the ranks that the
    PyTorch operation, as the code writes it, takes: slices with four
    indices need at least four axes, [torch.cat] along the channel axis
    is given rank-4 tensors only, padding by four amounts needs two axes,
    and the convolutions take a batched or an unbatched input. *)

Section Ops.

Context {R : Type} {RS : Scalar R}.

Fixpoint shape_eqb (s1 s2 : list nat) : bool :=
  match s1, s2 with
  | [], [] => true
  | a :: s1', b :: s2' => (a =? b) && shape_eqb s1' s2'
  | _, _ => false
  end.

Definition zeros (s : list nat) : Tensor R := tab s (fun _ => zero).

Definition tmap (f : R -> R) (x : Tensor R) : Tensor R :=
  tab (shape x) (fun idx => f (get x idx)).

(** *** Broadcasting *)

Definition bdim (a b : nat) : option nat :=
  if a =? b then Some a
  else if a =? 1 then Some b
  else if b =? 1 then Some a
  else None.

Definition bidx (d i : nat) : nat := if d =? 1 then 0 else i.

(** Shapes are aligned at their last axis: both arguments are reversed. *)
Fixpoint bshape_rev (s1 s2 : list nat) : option (list nat) :=
  match s1, s2 with
  | [], _ => Some s2
  | _, [] => Some s1
  | a :: s1', b :: s2' =>
      match bdim a b, bshape_rev s1' s2' with
      | Some d, Some s => Some (d :: s)
      | _, _ => None
      end
  end.

Definition broadcast_shapes (s1 s2 : list nat) : option (list nat) :=
  option_map (@rev nat) (bshape_rev (rev s1) (rev s2)).

(** The index of an operand of shape [s] that feeds position [idx] of the
    broadcast result. *)
Definition bindex (s idx : list nat) : list nat :=
  map (fun p => bidx (fst p) (snd p))
      (combine s (skipn (length idx - length s) idx)).

(** Elementwise binary operation with broadcasting ([+], [torch.add],
    [torch.mul], [-]). *)
Definition tzip (f : R -> R -> R) (x y : Tensor R) : result (Tensor R) :=
  match broadcast_shapes (shape x) (shape y) with
  | Some s =>
      Ok (tab s (fun idx =>
            f (get x (bindex (shape x) idx)) (get y (bindex (shape y) idx))))
  | None => Raise RuntimeError
  end.

(** *** Python slices *)

(** A slice bound [i] on an axis of extent [n], as Python normalises it. *)
Definition py_norm (i : Z) (n : nat) : nat :=
  if (i <? 0)%Z then Z.to_nat (Z.max 0 (Z.of_nat n + i))
  else Nat.min (Z.to_nat i) n.

(** [x[:, lo:hi, :, :]] with normalised bounds: four indices, so at
    least four axes. *)
Definition slice_channel (lo hi : nat) (x : Tensor R) : result (Tensor R) :=
  match shape x with
  | B :: C :: T :: V :: rest =>
      Ok (tab (B :: hi - lo :: T :: V :: rest) (fun idx =>
            match idx with
            | b :: c :: r => get x (b :: lo + c :: r)
            | _ => zero
            end))
  | _ => Raise IndexError
  end.

(** [x[:, :, lo:hi, :]] with normalised bounds. *)
Definition slice_time (lo hi : nat) (x : Tensor R) : result (Tensor R) :=
  match shape x with
  | B :: C :: T :: V :: rest =>
      Ok (tab (B :: C :: hi - lo :: V :: rest) (fun idx =>
            match idx with
            | b :: c :: t :: r => get x (b :: c :: lo + t :: r)
            | _ => zero
            end))
  | _ => Raise IndexError
  end.

(** *** Concatenation, padding, stacking, permutation, reshape *)

(** [torch.cat([x, y], dim=1)]. *)
Definition cat1 (x y : Tensor R) : result (Tensor R) :=
  match shape x, shape y with
  | [B; C1; T; V], [B'; C2; T'; V'] =>
      if (B =? B') && (T =? T') && (V =? V') then
        Ok (tab [B; C1 + C2; T; V] (fun idx =>
              match idx with
              | [b; c; t; v] =>
                  if c <? C1 then get x [b; c; t; v]
                  else get y [b; c - C1; t; v]
              | _ => zero
              end))
      else Raise RuntimeError
  | _, _ => Raise RuntimeError
  end.

(** [torch.cat(xs, dim=1)] for a non-empty list. *)
Definition cat_channels (xs : list (Tensor R)) : result (Tensor R) :=
  match xs with
  | [] => Raise RuntimeError
  | x :: rest =>
      fold_left (fun acc y => a <- acc ;; cat1 a y) rest (Ok x)
  end.

(** [F.pad(x, (wl, wr, tl, tr), "constant", 0)]: the last axis is padded by
    [(wl, wr)], the one before it by [(tl, tr)]; the axes in front of them
    are kept.  An input of rank below 2 is rejected. *)
Definition pad (wl wr tl tr : nat) (x : Tensor R) : result (Tensor R) :=
  match rev (shape x) with
  | V :: T :: front =>
      let n := length front in
      Ok (tab (rev front ++ [tl + T + tr; wl + V + wr]) (fun idx =>
            match skipn n idx with
            | [t; v] =>
                if (tl <=? t) && (t <? tl + T) && (wl <=? v) && (v <? wl + V)
                then get x (firstn n idx ++ [t - tl; v - wl])
                else zero
            | _ => zero
            end))
  | _ => Raise RuntimeError
  end.

(** [x.unsqueeze(0)] and [x.squeeze(0)] on a leading axis of extent 1:
    the same elements under a shape with, or without, the leading axis. *)
Definition unsqueeze0 (x : Tensor R) : Tensor R :=
  {| shape := 1 :: shape x; data := data x |}.

Definition squeeze0 (x : Tensor R) : Tensor R :=
  {| shape := tl (shape x); data := data x |}.

(** [torch.stack(xs, dim=2)] of rank-4 tensors. *)
Definition stack2 (xs : list (Tensor R)) : result (Tensor R) :=
  match xs with
  | [] => Raise RuntimeError
  | x0 :: _ =>
      match shape x0 with
      | [B; T; H; F] =>
          if forallb (fun y => shape_eqb (shape y) (shape x0)) xs then
            Ok (tab [B; T; length xs; H; F] (fun idx =>
                  match idx with
                  | [b; t; k; h; i] => get (nth k xs x0) [b; t; h; i]
                  | _ => zero
                  end))
          else Raise RuntimeError
      | _ => Raise RuntimeError
      end
  end.

(** Position of [j] in the permutation [perm]. *)
Fixpoint pos_of (j : nat) (perm : list nat) : nat :=
  match perm with
  | [] => 0
  | p :: perm' => if p =? j then 0 else S (pos_of j perm')
  end.

(** [torch.permute(x, perm)]: axis [i] of the result is axis [perm[i]] of
    [x]. *)
Definition permute (perm : list nat) (x : Tensor R) : result (Tensor R) :=
  if length perm =? length (shape x) then
    Ok (tab (map (fun p => nth p (shape x) 0) perm)
          (fun idx =>
             get x (map (fun j => nth (pos_of j perm) idx 0)
                        (seq 0 (length perm)))))
  else Raise RuntimeError.

(** [x.reshape(s)] / [x.view(s)]: the same elements in row-major order
    under a new shape; the element counts must agree. *)
Definition reshape (s : list nat) (x : Tensor R) : result (Tensor R) :=
  if numel s =? numel (shape x)
  then Ok (tab s (fun idx => nth (offset s idx) (data x) zero))
  else Raise RuntimeError.

(** *** The three [torch.einsum] contractions of the layers

    A contracted or shared subscript may have extent 1 on one operand and
    is then broadcast, as [torch.einsum] does. *)

(** ['hi,btij->bthj'] *)
Definition einsum_hi_btij (g x : Tensor R) : result (Tensor R) :=
  match shape g, shape x with
  | [H; N], [B; T; N'; J] =>
      match bdim N N' with
      | Some n =>
          Ok (tab [B; T; H; J] (fun idx =>
                match idx with
                | [b; t; h; j] =>
                    sumn n (fun i =>
                      mul (get g [h; bidx N i]) (get x [b; t; bidx N' i; j]))
                | _ => zero
                end))
      | None => Raise RuntimeError
      end
  | _, _ => Raise RuntimeError
  end.

(** ['btkhi,kij->bthj'] *)
Definition einsum_btkhi_kij (x w : Tensor R) : result (Tensor R) :=
  match shape x, shape w with
  | [B; T; K; H; N], [K'; N'; J] =>
      match bdim K K', bdim N N' with
      | Some kk, Some n =>
          Ok (tab [B; T; H; J] (fun idx =>
                match idx with
                | [b; t; h; j] =>
                    sumn kk (fun k =>
                      sumn n (fun i =>
                        mul (get x [b; t; bidx K k; h; bidx N i])
                            (get w [bidx K' k; bidx N' i; j])))
                | _ => zero
                end))
      | _, _ => Raise RuntimeError
      end
  | _, _ => Raise RuntimeError
  end.

(** ['bthi,ij->bthj'] *)
Definition einsum_bthi_ij (x w : Tensor R) : result (Tensor R) :=
  match shape x, shape w with
  | [B; T; H; N], [N'; J] =>
      match bdim N N' with
      | Some n =>
          Ok (tab [B; T; H; J] (fun idx =>
                match idx with
                | [b; t; h; j] =>
                    sumn n (fun i =>
                      mul (get x [b; t; h; bidx N i]) (get w [bidx N' i; j]))
                | _ => zero
                end))
      | None => Raise RuntimeError
      end
  | _, _ => Raise RuntimeError
  end.

End Ops.

(** ** [torch.nn] modules

    Each module is a record of its hyper-parameters and parameters.  The
    constructors take the initial parameter values as a function [rnd] of
    the parameter's index (the random initialiser of the code); training
    may replace the values but never the shapes. *)

Module Conv2d.
Section Def.
Context {R : Type} {RS : Scalar R}.

(** [nn.Conv2d] with [padding=0] and [groups=1], the only way the
    repository builds it.  [weight] has shape
    [[out_channels; in_channels; kh; kw]]. *)
Record t : Type := mk {
  in_channels : nat;
  out_channels : nat;
  kernel_size : nat * nat;
  stride : nat * nat;
  dilation : nat * nat;
  weight : Tensor R;
  bias : option (Tensor R)
}.

Definition init (c_in c_out : nat) (k s d : nat * nat) (use_bias : bool)
    (rnd : list nat -> R) : t :=
  {| in_channels := c_in;
     out_channels := c_out;
     kernel_size := k;
     stride := s;
     dilation := d;
     weight := tab [c_out; c_in; fst k; snd k] rnd;
     bias := if use_bias then Some (tab [c_out] rnd) else None |}.

(** Extent of a convolved axis: input extent [n], kernel [k], stride [s],
    dilation [d], no padding. *)
Definition out_len (n k s d : nat) : nat := (n - (d * (k - 1) + 1)) / s + 1.

(** One element of the result: the sum over input channels and kernel
    positions, plus the bias of the output channel. *)
Definition elem (m : t) (x : Tensor R) (C b o i j : nat) : R :=
  let acc :=
    sumn C (fun c =>
      sumn (fst (kernel_size m)) (fun p =>
        sumn (snd (kernel_size m)) (fun q =>
          mul (get x [b; c; i * fst (stride m) + p * fst (dilation m);
                      j * snd (stride m) + q * snd (dilation m)])
              (get (weight m) [o; c; p; q])))) in
  match bias m with
  | Some bv => add acc (get bv [o])
  | None => acc
  end.

(** The convolution of a batched input [[B; C; H; W]].  It rejects an
    input whose channel count is not [in_channels] and a kernel that
    (dilated) is larger than the input; it cannot run with no output
    channel, an empty kernel, or a zero stride or dilation.  A layer built
    with [in_channels = 0] takes an input without channels and returns a
    result without channels. *)
Definition forward_batched (m : t) (x : Tensor R) : result (Tensor R) :=
  match shape x with
  | [B; C; H; W] =>
      let kh := fst (kernel_size m) in
      let kw := snd (kernel_size m) in
      let sh := fst (stride m) in
      let sw := snd (stride m) in
      let dh := fst (dilation m) in
      let dw := snd (dilation m) in
      if negb (C =? in_channels m) then Raise RuntimeError
      else if (out_channels m =? 0) || (kh =? 0) || (kw =? 0)
              || (sh =? 0) || (sw =? 0) || (dh =? 0) || (dw =? 0)
      then Raise RuntimeError
      else if (H <? dh * (kh - 1) + 1) || (W <? dw * (kw - 1) + 1)
      then Raise RuntimeError
      else
        Ok (tab [B; if C =? 0 then 0 else out_channels m;
                 out_len H kh sh dh; out_len W kw sw dw]
              (fun idx =>
                 match idx with
                 | [b; o; i; j] => elem m x C b o i j
                 | _ => zero
                 end))
  | _ => Raise RuntimeError
  end.

(** [nn.Conv2d.forward]: an unbatched input [[C; H; W]] is run as a batch
    of one; every other rank than 3 and 4 is rejected. *)
Definition forward (m : t) (x : Tensor R) : result (Tensor R) :=
  match shape x with
  | [_; _; _] =>
      y <- forward_batched m (unsqueeze0 x) ;;
      Ok (squeeze0 y)
  | _ => forward_batched m x
  end.

End Def.
Arguments t R : clear implicits.
End Conv2d.

Module Linear.
Section Def.
Context {R : Type} {RS : Scalar R}.

(** [nn.Linear]: [weight] has shape [[out_features; in_features]]. *)
Record t : Type := mk {
  in_features : nat;
  out_features : nat;
  weight : Tensor R;
  bias : option (Tensor R)
}.

Definition init (n_in n_out : nat) (use_bias : bool) (rnd : list nat -> R) : t :=
  {| in_features := n_in;
     out_features := n_out;
     weight := tab [n_out; n_in] rnd;
     bias := if use_bias then Some (tab [n_out] rnd) else None |}.

(** Acts on the last axis, which must have extent [in_features]. *)
Definition forward (m : t) (x : Tensor R) : result (Tensor R) :=
  match rev (shape x) with
  | n :: front =>
      if n =? in_features m then
        Ok (tab (rev front ++ [out_features m]) (fun idx =>
              let pre := removelast idx in
              let o := last idx 0 in
              let acc :=
                sumn n (fun i =>
                  mul (get x (pre ++ [i])) (get (weight m) [o; i])) in
              match bias m with
              | Some bv => add acc (get bv [o])
              | None => acc
              end))
      else Raise RuntimeError
  | [] => Raise RuntimeError
  end.

End Def.
Arguments t R : clear implicits.
End Linear.

Module LayerNorm.
Section Def.
Context {R : Type} {RS : Scalar R}.

(** [nn.LayerNorm(normalized_shape)] with its affine parameters. *)
Record t : Type := mk {
  normalized_shape : list nat;
  weight : Tensor R;
  bias : Tensor R;
  eps : R
}.

Definition init (ns : list nat) (eps0 : R) : t :=
  {| normalized_shape := ns;
     weight := tab ns (fun _ => one);
     bias := tab ns (fun _ => zero);
     eps := eps0 |}.

Definition sum_over (s : list nat) (f : list nat -> R) : R :=
  fold_left (fun acc j => add acc (f j)) (indices s) zero.

(** The trailing axes of the input must be [normalized_shape]; mean and
    variance are taken over them. *)
Definition forward (m : t) (x : Tensor R) : result (Tensor R) :=
  let ns := normalized_shape m in
  let k := length (shape x) - length ns in
  if (length ns <=? length (shape x)) && shape_eqb (skipn k (shape x)) ns then
    Ok (tab (shape x) (fun idx =>
          let pre := firstn k idx in
          let post := skipn k idx in
          let cnt := of_nat (numel ns) in
          let mean := div (sum_over ns (fun j => get x (pre ++ j))) cnt in
          let var :=
            div (sum_over ns (fun j =>
                   let dlt := sub (get x (pre ++ j)) mean in mul dlt dlt))
                cnt in
          add (mul (div (sub (get x idx) mean) (sqrt (add var (eps m))))
                   (get (weight m) post))
              (get (bias m) post)))
  else Raise RuntimeError.

End Def.
Arguments t R : clear implicits.
End LayerNorm.

Module Dropout.
Section Def.
Context {R : Type} {RS : Scalar R}.

(** [nn.Dropout]: in inference mode ([mask = None]) the identity; in
    training mode the input is multiplied by the mask drawn for this call
    (entries [0] or [1/(1-p)]). *)
Definition forward (mask : option (Tensor R)) (x : Tensor R) : result (Tensor R) :=
  match mask with
  | None => Ok x
  | Some m => tzip mul x m
  end.

End Def.
End Dropout.

(** ** The layers of [model/layers.py] *)

Module Align.
Section Def.
Context {R : Type} {RS : Scalar R}.

Record t : Type := mk {
  c_in : nat;
  c_out : nat;
  align_conv : Conv2d.t R
}.

Definition init (c_in0 c_out0 : nat) (rnd : list nat -> R) : t :=
  {| c_in := c_in0;
     c_out := c_out0;
     align_conv := Conv2d.init c_in0 c_out0 (1, 1) (1, 1) (1, 1) true rnd |}.

Definition forward (m : t) (x : Tensor R) : result (Tensor R) :=
  if c_out m <? c_in m then
    Conv2d.forward (align_conv m) x
  else if c_in m <? c_out m then
    match shape x with
    | [batch_size; _; timestep; n_vertex] =>
        cat_channels
          [x; zeros [batch_size; c_out m - c_in m; timestep; n_vertex]]
    | _ => Raise ValueError
    end
  else Ok x.

(** What the constructor establishes and training preserves: the
    projection is a 1x1 convolution from [c_in] to [c_out] channels. *)
Definition well_formed (m : t) : Prop :=
  Conv2d.in_channels (align_conv m) = c_in m /\
  Conv2d.out_channels (align_conv m) = c_out m /\
  Conv2d.kernel_size (align_conv m) = (1, 1) /\
  Conv2d.stride (align_conv m) = (1, 1) /\
  Conv2d.dilation (align_conv m) = (1, 1).

End Def.
Arguments t R : clear implicits.
End Align.

Module CausalConv2d.
Section Def.
Context {R : Type} {RS : Scalar R}.

(** [padding] is the private [__padding]: [None] stands for the integer
    [0] of the unpadded mode, [Some l] for the list of the padded mode. *)
Record t : Type := mk {
  conv : Conv2d.t R;
  padding : option (list nat);
  left_padding : nat * nat
}.

Definition init (in_channels out_channels : nat) (kernel_size stride : nat * nat)
    (enable_padding : bool) (dilation : nat * nat) (use_bias : bool)
    (rnd : list nat -> R) : t :=
  let padding0 :=
    if enable_padding
    then Some [(fst kernel_size - 1) * fst dilation;
               (snd kernel_size - 1) * snd dilation]
    else None in
  {| conv := Conv2d.init in_channels out_channels kernel_size stride dilation
               use_bias rnd;
     padding := padding0;
     left_padding :=
       match padding0 with
       | Some l => (nth 0 l 0, nth 1 l 0)
       | None => (0, 0)
       end |}.

Definition forward (m : t) (input : Tensor R) : result (Tensor R) :=
  input' <- match padding m with
            | Some _ =>
                pad (snd (left_padding m)) 0 (fst (left_padding m)) 0 input
            | None => Ok input
            end ;;
  Conv2d.forward (conv m) input'.

End Def.
Arguments t R : clear implicits.
End CausalConv2d.

Module Conv1d.
Section Def.
Context {R : Type} {RS : Scalar R}.

(** [nn.Conv1d] with zero padding on both sides and [groups=1]; [weight]
    has shape [[out_channels; in_channels; kernel_size]]. *)
Record t : Type := mk {
  in_channels : nat;
  out_channels : nat;
  kernel_size : nat;
  stride : nat;
  padding : nat;
  dilation : nat;
  weight : Tensor R;
  bias : option (Tensor R)
}.

Definition init (c_in c_out k s p d : nat) (use_bias : bool)
    (rnd : list nat -> R) : t :=
  {| in_channels := c_in;
     out_channels := c_out;
     kernel_size := k;
     stride := s;
     padding := p;
     dilation := d;
     weight := tab [c_out; c_in; k] rnd;
     bias := if use_bias then Some (tab [c_out] rnd) else None |}.

(** The input seen through the padding: position [i] of the padded axis
    of extent [p + L + p]. *)
Definition padded (m : t) (x : Tensor R) (L b c i : nat) : R :=
  if (padding m <=? i) && (i <? padding m + L)
  then get x [b; c; i - padding m]
  else zero.

Definition elem (m : t) (x : Tensor R) (C L b o i : nat) : R :=
  let acc :=
    sumn C (fun c =>
      sumn (kernel_size m) (fun j =>
        mul (padded m x L b c (i * stride m + j * dilation m))
            (get (weight m) [o; c; j]))) in
  match bias m with
  | Some bv => add acc (get bv [o])
  | None => acc
  end.

Definition out_len (m : t) (L : nat) : nat :=
  (L + 2 * padding m - (dilation m * (kernel_size m - 1) + 1)) / stride m + 1.

(** The convolution of a batched input [[B; C; L]], with the rejections
    of [Conv2d.forward_batched]; without input channels the result has no
    channel. *)
Definition forward_batched (m : t) (x : Tensor R) : result (Tensor R) :=
  match shape x with
  | [B; C; L] =>
      if negb (C =? in_channels m) then Raise RuntimeError
      else if (out_channels m =? 0) || (kernel_size m =? 0)
              || (stride m =? 0) || (dilation m =? 0)
      then Raise RuntimeError
      else if L + 2 * padding m <? dilation m * (kernel_size m - 1) + 1
      then Raise RuntimeError
      else
        Ok (tab [B; if C =? 0 then 0 else out_channels m; out_len m L]
              (fun idx =>
                 match idx with
                 | [b; o; i] => elem m x C L b o i
                 | _ => zero
                 end))
  | _ => Raise RuntimeError
  end.

(** [nn.Conv1d.forward]: an unbatched input [[C; L]] is run as a batch of
    one; every other rank than 2 and 3 is rejected. *)
Definition forward (m : t) (x : Tensor R) : result (Tensor R) :=
  match shape x with
  | [_; _] =>
      y <- forward_batched m (unsqueeze0 x) ;;
      Ok (squeeze0 y)
  | _ => forward_batched m x
  end.

End Def.
Arguments t R : clear implicits.
End Conv1d.

Module CausalConv1d.
Section Def.
Context {R : Type} {RS : Scalar R}.

(** [padding] is the private [__padding]; the convolution pads by it on
    both sides. *)
Record t : Type := mk {
  conv : Conv1d.t R;
  padding : nat
}.

Definition init (in_channels out_channels kernel_size stride : nat)
    (enable_padding : bool) (dilation : nat) (use_bias : bool)
    (rnd : list nat -> R) : t :=
  let padding0 :=
    if enable_padding then (kernel_size - 1) * dilation else 0 in
  {| conv := Conv1d.init in_channels out_channels kernel_size stride padding0
               dilation use_bias rnd;
     padding := padding0 |}.

(** [result[:, :, : -padding]] *)
Definition trim (p : nat) (x : Tensor R) : result (Tensor R) :=
  match shape x with
  | [B; C; L] =>
      Ok (tab [B; C; py_norm (- Z.of_nat p) L] (fun idx =>
            match idx with
            | [b; c; i] => get x [b; c; i]
            | _ => zero
            end))
  | _ => Raise IndexError
  end.

Definition forward (m : t) (input : Tensor R) : result (Tensor R) :=
  result <- Conv1d.forward (conv m) input ;;
  if negb (padding m =? 0) then trim (padding m) result
  else Ok result.

End Def.
Arguments t R : clear implicits.
End CausalConv1d.

Module TemporalConvLayer.
Section Def.
Context {R : Type} {RS : Scalar R}.

Record t : Type := mk {
  Kt : nat;
  c_in : nat;
  c_out : nat;
  n_vertex : nat;
  align : Align.t R;
  causal_conv : CausalConv2d.t R;
  act_func : string
}.

Definition gated (act : string) : bool :=
  String.eqb act "glu" || String.eqb act "gtu".

Definition init (Kt0 c_in0 c_out0 n_vertex0 : nat) (act : string)
    (rnd : list nat -> R) : result t :=
  Ok {| Kt := Kt0;
        c_in := c_in0;
        c_out := c_out0;
        n_vertex := n_vertex0;
        align := Align.init c_in0 c_out0 rnd;
        causal_conv :=
          if gated act
          then CausalConv2d.init c_in0 (2 * c_out0) (Kt0, 1) (1, 1) false (1, 1)
                 true rnd
          else CausalConv2d.init c_in0 c_out0 (Kt0, 1) (1, 1) false (1, 1)
                 true rnd;
        act_func := act |}.

Definition forward (m : t) (x : Tensor R) : result (Tensor R) :=
  a <- Align.forward (align m) x ;;
  x_in <- slice_time (py_norm (Z.of_nat (Kt m) - 1) (dim a 2)) (dim a 2) a ;;
  x_causal_conv <- CausalConv2d.forward (causal_conv m) x ;;
  if gated (act_func m) then
    let C := dim x_causal_conv 1 in
    x_p <- slice_channel 0 (py_norm (Z.of_nat (c_out m)) C) x_causal_conv ;;
    x_q <- slice_channel (py_norm (- Z.of_nat (c_out m)) C) C x_causal_conv ;;
    if String.eqb (act_func m) "glu" then
      s <- tzip add x_p x_in ;;
      tzip mul s (tmap sigmoid x_q)
    else
      s <- tzip add x_p x_in ;;
      tzip mul (tmap tanh s) (tmap sigmoid x_q)
  else if String.eqb (act_func m) "relu" then
    s <- tzip add x_causal_conv x_in ;;
    Ok (tmap relu s)
  else if String.eqb (act_func m) "leaky_relu" then
    s <- tzip add x_causal_conv x_in ;;
    Ok (tmap leaky_relu s)
  else if String.eqb (act_func m) "silu" then
    s <- tzip add x_causal_conv x_in ;;
    Ok (tmap silu s)
  else Raise NotImplementedError.

(** The activation that the plain (ungated) modes apply. *)
Definition plain_activation (act : string) : option (R -> R) :=
  if String.eqb act "relu" then Some relu
  else if String.eqb act "leaky_relu" then Some leaky_relu
  else if String.eqb act "silu" then Some silu
  else None.

(** What the constructor establishes and training preserves. *)
Definition well_formed (m : t) : Prop :=
  Align.well_formed (align m) /\
  Align.c_in (align m) = c_in m /\
  Align.c_out (align m) = c_out m /\
  CausalConv2d.padding (causal_conv m) = None /\
  Conv2d.in_channels (CausalConv2d.conv (causal_conv m)) = c_in m /\
  Conv2d.out_channels (CausalConv2d.conv (causal_conv m)) =
    (if gated (act_func m) then 2 * c_out m else c_out m) /\
  Conv2d.kernel_size (CausalConv2d.conv (causal_conv m)) = (Kt m, 1) /\
  Conv2d.stride (CausalConv2d.conv (causal_conv m)) = (1, 1) /\
  Conv2d.dilation (CausalConv2d.conv (causal_conv m)) = (1, 1).

(** The activation names for which [forward] has a branch. *)
Definition supported (act : string) : bool :=
  String.eqb act "glu" || String.eqb act "gtu" || String.eqb act "relu"
  || String.eqb act "leaky_relu" || String.eqb act "silu".

End Def.
Arguments t R : clear implicits.
End TemporalConvLayer.

Module ChebGraphConv.
Section Def.
Context {R : Type} {RS : Scalar R}.

(** [weight] has shape [[Ks; c_in; c_out]], [bias] shape [[c_out]]. *)
Record t : Type := mk {
  c_in : nat;
  c_out : nat;
  Ks : nat;
  gso : Tensor R;
  weight : Tensor R;
  bias : option (Tensor R)
}.

Definition init (c_in0 c_out0 Ks0 : nat) (gso0 : Tensor R) (use_bias : bool)
    (rnd : list nat -> R) : t :=
  {| c_in := c_in0;
     c_out := c_out0;
     Ks := Ks0;
     gso := gso0;
     weight := tab [Ks0; c_in0; c_out0] rnd;
     bias := if use_bias then Some (tab [c_out0] rnd) else None |}.

(** One turn of the loop [for k in range(2, Ks)]. *)
Definition cheb_step (g : Tensor R) (acc : result (list (Tensor R))) (k : nat)
    : result (list (Tensor R)) :=
  x_list <- acc ;;
  let dflt := zeros [] in
  e <- einsum_hi_btij (tmap (mul (of_nat 2)) g) (nth (k - 1) x_list dflt) ;;
  d <- tzip sub e (nth (k - 2) x_list dflt) ;;
  Ok (x_list ++ [d]).

(** The list [x_list] built by the branches on [Ks - 1]. *)
Definition x_list_of (m : t) (x : Tensor R) : result (list (Tensor R)) :=
  if (Z.of_nat (Ks m) - 1 <? 0)%Z then Raise ValueError
  else if (Z.of_nat (Ks m) - 1 =? 0)%Z then Ok [x]
  else if (Z.of_nat (Ks m) - 1 =? 1)%Z then
    x_1 <- einsum_hi_btij (gso m) x ;;
    Ok [x; x_1]
  else
    x_1 <- einsum_hi_btij (gso m) x ;;
    fold_left (cheb_step (gso m)) (seq 2 (Ks m - 2)) (Ok [x; x_1]).

Definition forward (m : t) (x : Tensor R) : result (Tensor R) :=
  x' <- permute [0; 2; 3; 1] x ;;
  x_list <- x_list_of m x' ;;
  xs <- stack2 x_list ;;
  cheb_graph_conv <- einsum_btkhi_kij xs (weight m) ;;
  match bias m with
  | Some b => tzip add cheb_graph_conv b
  | None => Ok cheb_graph_conv
  end.

(** What the constructor establishes and training preserves, for a graph
    of [V] vertices. *)
Definition well_formed (m : t) (V : nat) : Prop :=
  shape (gso m) = [V; V] /\
  shape (weight m) = [Ks m; c_in m; c_out m] /\
  match bias m with
  | Some b => shape b = [c_out m]
  | None => True
  end.

End Def.
Arguments t R : clear implicits.
End ChebGraphConv.

Module GraphConv.
Section Def.
Context {R : Type} {RS : Scalar R}.

(** [weight] has shape [[c_in; c_out]], [bias] shape [[c_out]]. *)
Record t : Type := mk {
  c_in : nat;
  c_out : nat;
  gso : Tensor R;
  weight : Tensor R;
  bias : option (Tensor R)
}.

Definition init (c_in0 c_out0 : nat) (gso0 : Tensor R) (use_bias : bool)
    (rnd : list nat -> R) : t :=
  {| c_in := c_in0;
     c_out := c_out0;
     gso := gso0;
     weight := tab [c_in0; c_out0] rnd;
     bias := if use_bias then Some (tab [c_out0] rnd) else None |}.

Definition forward (m : t) (x : Tensor R) : result (Tensor R) :=
  x' <- permute [0; 2; 3; 1] x ;;
  first_mul <- einsum_hi_btij (gso m) x' ;;
  second_mul <- einsum_bthi_ij first_mul (weight m) ;;
  match bias m with
  | Some b => tzip add second_mul b
  | None => Ok second_mul
  end.

(** What the constructor establishes and training preserves, for a graph
    of [V] vertices. *)
Definition well_formed (m : t) (V : nat) : Prop :=
  shape (gso m) = [V; V] /\
  shape (weight m) = [c_in m; c_out m] /\
  match bias m with
  | Some b => shape b = [c_out m]
  | None => True
  end.

End Def.
Arguments t R : clear implicits.
End GraphConv.

Module GraphConvLayer.
Section Def.
Context {R : Type} {RS : Scalar R}.

(** The attributes [cheb_graph_conv] and [graph_conv] exist only when the
    constructor took the matching branch. *)
Record t : Type := mk {
  graph_conv_type : string;
  c_in : nat;
  c_out : nat;
  align : Align.t R;
  Ks : nat;
  gso : Tensor R;
  cheb_graph_conv : option (ChebGraphConv.t R);
  graph_conv : option (GraphConv.t R)
}.

Definition init (type : string) (c_in0 c_out0 Ks0 : nat) (gso0 : Tensor R)
    (use_bias : bool) (rnd : list nat -> R) : result t :=
  Ok {| graph_conv_type := type;
        c_in := c_in0;
        c_out := c_out0;
        align := Align.init c_in0 c_out0 rnd;
        Ks := Ks0;
        gso := gso0;
        cheb_graph_conv :=
          if String.eqb type "cheb_graph_conv"
          then Some (ChebGraphConv.init c_out0 c_out0 Ks0 gso0 use_bias rnd)
          else None;
        graph_conv :=
          if String.eqb type "cheb_graph_conv" then None
          else if String.eqb type "graph_conv"
          then Some (GraphConv.init c_out0 c_out0 gso0 use_bias rnd)
          else None |}.

Definition forward (m : t) (x : Tensor R) : result (Tensor R) :=
  x_gc_in <- Align.forward (align m) x ;;
  x_gc <- (if String.eqb (graph_conv_type m) "cheb_graph_conv" then
             match cheb_graph_conv m with
             | Some g => ChebGraphConv.forward g x_gc_in
             | None => Raise AttributeError
             end
           else if String.eqb (graph_conv_type m) "graph_conv" then
             match graph_conv m with
             | Some g => GraphConv.forward g x_gc_in
             | None => Raise AttributeError
             end
           else Raise UnboundLocalError) ;;
  x_gc' <- permute [0; 3; 1; 2] x_gc ;;
  tzip add x_gc' x_gc_in.

(** The graph-convolution types for which [forward] has a branch. *)
Definition supported (type : string) : bool :=
  String.eqb type "cheb_graph_conv" || String.eqb type "graph_conv".

(** What the constructor establishes and training preserves, for a graph
    of [V] vertices: the convolution of the selected type exists, maps
    [c_out] channels to [c_out] channels and holds the layer's operator. *)
Definition well_formed (m : t) (V : nat) : Prop :=
  Align.well_formed (align m) /\
  Align.c_in (align m) = c_in m /\
  Align.c_out (align m) = c_out m /\
  (String.eqb (graph_conv_type m) "cheb_graph_conv" = true ->
     exists g, cheb_graph_conv m = Some g /\
       ChebGraphConv.well_formed g V /\
       ChebGraphConv.c_in g = c_out m /\
       ChebGraphConv.c_out g = c_out m /\
       ChebGraphConv.Ks g = Ks m /\
       ChebGraphConv.gso g = gso m) /\
  (String.eqb (graph_conv_type m) "cheb_graph_conv" = false ->
   String.eqb (graph_conv_type m) "graph_conv" = true ->
     exists g, graph_conv m = Some g /\
       GraphConv.well_formed g V /\
       GraphConv.c_in g = c_out m /\
       GraphConv.c_out g = c_out m /\
       GraphConv.gso g = gso m).

End Def.
Arguments t R : clear implicits.
End GraphConvLayer.

Module MultiHeadSelfAttention.
Section Def.
Context {R : Type} {RS : Scalar R}.

(** [nn.MultiheadAttention] is PyTorch's; the model keeps it as the
    function of [query], [key], [value], [key_padding_mask] and
    [attn_mask] that the wrapper calls.  It returns the attention output
    and the attention weights. *)
Definition attention_fn : Type :=
  Tensor R -> Tensor R -> Tensor R -> option (Tensor R) -> option (Tensor R) ->
  result (Tensor R * Tensor R).

Record t : Type := mk {
  hidden_dim : nat;
  num_heads : nat;
  attention_layer : attention_fn
}.

Definition init (hidden_dim0 num_heads0 : nat)
    (nn_MultiheadAttention : nat -> nat -> attention_fn) : t :=
  {| hidden_dim := hidden_dim0;
     num_heads := num_heads0;
     attention_layer := nn_MultiheadAttention hidden_dim0 num_heads0 |}.

Definition forward (m : t) (x : Tensor R)
    (key_padding_mask attention_mask : option (Tensor R))
    : result (Tensor R * Tensor R) :=
  attention_layer m x x x key_padding_mask attention_mask.

End Def.
Arguments t R : clear implicits.
Arguments attention_fn R : clear implicits.
End MultiHeadSelfAttention.

Module STConvBlock.
Section Def.
Context {R : Type} {RS : Scalar R}.

Record t : Type := mk {
  tmp_conv1 : TemporalConvLayer.t R;
  graph_conv : GraphConvLayer.t R;
  tmp_conv2 : TemporalConvLayer.t R;
  use_attn : option string;
  attn : option (MultiHeadSelfAttention.t R);
  fcn : option (Linear.t R);
  n_his : option Z;
  l : option Z;
  tc2_ln : LayerNorm.t R
}.

Definition channel (channels : list nat) (i : nat) : result nat :=
  match nth_error channels i with
  | Some c => Ok c
  | None => Raise IndexError
  end.

Definition is_STAGCN (u : option string) : bool :=
  match u with
  | Some s => String.eqb s "STAGCN"
  | None => false
  end.

(** The attention layer and the projection of the ["STAGCN"] variant:
    [hidden_dim = 144*(n_his - 2*(l+1))], projected to
    [64*(n_his - 2*(l+1) - 2)].  A non-positive embedding size and a
    negative feature count are rejected by PyTorch. *)
Definition init_attn (n_his0 l0 : option Z)
    (nn_MultiheadAttention : nat -> nat -> MultiHeadSelfAttention.attention_fn R)
    (rnd : list nat -> R)
    : result (MultiHeadSelfAttention.t R * Linear.t R) :=
  match n_his0, l0 with
  | Some n, Some l1 =>
      let h := (n - 2 * (l1 + 1))%Z in
      if (h <=? 0)%Z then Raise ValueError
      else if (h - 2 <? 0)%Z then Raise RuntimeError
      else
        Ok (MultiHeadSelfAttention.init (144 * Z.to_nat h) 1 nn_MultiheadAttention,
            Linear.init (144 * Z.to_nat h) (64 * Z.to_nat (h - 2)) true rnd)
  | _, _ => Raise TypeError
  end.

Definition init (Kt Ks n_vertex last_block_channel : nat) (channels : list nat)
    (act_func graph_conv_type : string) (gso : Tensor R) (use_bias : bool)
    (n_his0 l0 : option Z) (use_attn0 : option string)
    (nn_MultiheadAttention : nat -> nat -> MultiHeadSelfAttention.attention_fn R)
    (eps : R) (rnd : list nat -> R) : result t :=
  c0 <- channel channels 0 ;;
  t1 <- TemporalConvLayer.init Kt last_block_channel c0 n_vertex act_func rnd ;;
  c1 <- channel channels 1 ;;
  g <- GraphConvLayer.init graph_conv_type c0 c1 Ks gso use_bias rnd ;;
  c2 <- channel channels 2 ;;
  t2 <- TemporalConvLayer.init Kt c1 c2 n_vertex act_func rnd ;;
  af <- (if is_STAGCN use_attn0 then
           p <- init_attn n_his0 l0 nn_MultiheadAttention rnd ;;
           Ok (Some (fst p), Some (snd p))
         else Ok (None, None)) ;;
  Ok {| tmp_conv1 := t1;
        graph_conv := g;
        tmp_conv2 := t2;
        use_attn := use_attn0;
        attn := fst af;
        fcn := snd af;
        n_his := n_his0;
        l := l0;
        tc2_ln := LayerNorm.init [n_vertex; c2] eps |}.

(** [concat.reshape(batch_size, num_nodes, channels*embed_dim)]: the
    tokens handed to the attention layer. *)
Definition attn_tokens (concat : Tensor R) : result (Tensor R) :=
  match shape concat with
  | [batch_size; channels; embed_dim; num_nodes] =>
      reshape [batch_size; num_nodes; channels * embed_dim] concat
  | _ => Raise ValueError
  end.

(** [attn_out.permute(0, 2, 1).view(batch_size, -1, embed_dim-2, num_nodes)]:
    the extent written [-1] is inferred from the element count. *)
Definition attn_view (batch_size embed_dim num_nodes : nat) (attn_out : Tensor R)
    : result (Tensor R) :=
  p <- permute [0; 2; 1] attn_out ;;
  let d := batch_size * (embed_dim - 2) * num_nodes in
  if (embed_dim <? 2) || (d =? 0) || negb (numel (shape p) mod d =? 0)
  then Raise RuntimeError
  else reshape [batch_size; numel (shape p) / d; embed_dim - 2; num_nodes] p.

(** The branch [if self.use_attn == "STAGCN"] of [forward]. *)
Definition fuse (m : t) (tmp1 graph1 x : Tensor R) : result (Tensor R) :=
  tmp2 <- pad 0 0 1 1 x ;;
  concat <- cat_channels [tmp1; graph1; tmp2] ;;
  match shape concat with
  | [batch_size; channels; embed_dim; num_nodes] =>
      tokens <- attn_tokens concat ;;
      match attn m, fcn m with
      | Some a, Some f =>
          r <- MultiHeadSelfAttention.forward a tokens None None ;;
          attn_out <- Linear.forward f (fst r) ;;
          attn_view batch_size embed_dim num_nodes attn_out
      | _, _ => Raise AttributeError
      end
  | _ => Raise ValueError
  end.

(** [mask] is the dropout mask of this call ([None] in inference mode). *)
Definition forward (m : t) (mask : option (Tensor R)) (x : Tensor R)
    : result (Tensor R) :=
  tmp1 <- TemporalConvLayer.forward (tmp_conv1 m) x ;;
  graph1 <- GraphConvLayer.forward (graph_conv m) tmp1 ;;
  let graph1 := tmap relu graph1 in
  x <- TemporalConvLayer.forward (tmp_conv2 m) graph1 ;;
  x <- (if is_STAGCN (use_attn m) then fuse m tmp1 graph1 x else Ok x) ;;
  xp <- permute [0; 2; 3; 1] x ;;
  xn <- LayerNorm.forward (tc2_ln m) xp ;;
  x <- permute [0; 3; 1; 2] xn ;;
  Dropout.forward mask x.

(** A block without attention fusion on a graph of [V] vertices, as the
    constructor builds it: the three layers are chained on their channel
    counts and the normalisation is over [[V; c2]]. *)
Definition well_formed_plain (m : t) (V : nat) : Prop :=
  is_STAGCN (use_attn m) = false /\
  TemporalConvLayer.well_formed (tmp_conv1 m) /\
  GraphConvLayer.well_formed (graph_conv m) V /\
  TemporalConvLayer.well_formed (tmp_conv2 m) /\
  GraphConvLayer.c_in (graph_conv m) = TemporalConvLayer.c_out (tmp_conv1 m) /\
  TemporalConvLayer.c_in (tmp_conv2 m) = GraphConvLayer.c_out (graph_conv m) /\
  TemporalConvLayer.Kt (tmp_conv2 m) = TemporalConvLayer.Kt (tmp_conv1 m) /\
  LayerNorm.normalized_shape (tc2_ln m) =
    [V; TemporalConvLayer.c_out (tmp_conv2 m)].

(** The three layers of a block on a graph of [V] vertices, chained on
    their channel counts as the constructor builds them (with or without
    attention fusion, whatever the normalisation). *)
Definition well_formed_layers (m : t) (V : nat) : Prop :=
  TemporalConvLayer.well_formed (tmp_conv1 m) /\
  GraphConvLayer.well_formed (graph_conv m) V /\
  TemporalConvLayer.well_formed (tmp_conv2 m) /\
  GraphConvLayer.c_in (graph_conv m) = TemporalConvLayer.c_out (tmp_conv1 m) /\
  TemporalConvLayer.c_in (tmp_conv2 m) = GraphConvLayer.c_out (graph_conv m) /\
  TemporalConvLayer.Kt (tmp_conv2 m) = TemporalConvLayer.Kt (tmp_conv1 m).

End Def.
Arguments t R : clear implicits.
End STConvBlock.

Module OutputBlock.
Section Def.
Context {R : Type} {RS : Scalar R}.

Record t : Type := mk {
  tmp_conv1 : TemporalConvLayer.t R;
  fc1 : Linear.t R;
  fc2 : Linear.t R;
  tc1_ln : LayerNorm.t R
}.

(** The constructor runs [tmp_conv1] once on [torch.zeros(1, 64, 26, 4)]. *)
Definition init (Ko last_block_channel : nat) (channels : list nat)
    (end_channel n_vertex : nat) (act_func : string) (use_bias : bool)
    (eps : R) (rnd : list nat -> R) : result t :=
  c0 <- STConvBlock.channel channels 0 ;;
  t1 <- TemporalConvLayer.init Ko last_block_channel c0 n_vertex act_func rnd ;;
  let z := zeros [1; 64; 26; 4] in
  z <- TemporalConvLayer.forward t1 z ;;
  c1 <- STConvBlock.channel channels 1 ;;
  Ok {| tmp_conv1 := t1;
        fc1 := Linear.init c0 c1 use_bias rnd;
        fc2 := Linear.init c1 end_channel use_bias rnd;
        tc1_ln := LayerNorm.init [n_vertex; c0] eps |}.

Definition forward (m : t) (x : Tensor R) : result (Tensor R) :=
  x <- TemporalConvLayer.forward (tmp_conv1 m) x ;;
  xp <- permute [0; 2; 3; 1] x ;;
  x <- LayerNorm.forward (tc1_ln m) xp ;;
  x <- Linear.forward (fc1 m) x ;;
  let x := tmap relu x in
  x <- Linear.forward (fc2 m) x ;;
  permute [0; 3; 1; 2] x.

(** An output block on a graph of [V] vertices, as the constructor
    builds it. *)
Definition well_formed (m : t) (V : nat) : Prop :=
  TemporalConvLayer.well_formed (tmp_conv1 m) /\
  LayerNorm.normalized_shape (tc1_ln m) =
    [V; TemporalConvLayer.c_out (tmp_conv1 m)] /\
  Linear.in_features (fc1 m) = TemporalConvLayer.c_out (tmp_conv1 m) /\
  Linear.in_features (fc2 m) = Linear.out_features (fc1 m).

End Def.
Arguments t R : clear implicits.
End OutputBlock.

(** ** Specification-level notions *)

Section SpecNotions.

Context {R : Type} {RS : Scalar R}.

(** [l] is the Chebyshev basis [[T0; T1; ...]] of the channels-last
    input [x] (shape [[B; T; V; C]]) for the graph operator [L], as the
    specification states the recurrence: [T0 = x], [T1 = L.x] (the
    operator contracted over the vertex axis) and
    [Tk = 2.L.T(k-1) - T(k-2)] from [k = 2] on. *)
Definition cheb_basis (L x : Tensor R) (B T V C : nat) (l : list (Tensor R))
    : Prop :=
  (forall k, k < length l -> shape (nth k l (zeros [])) = [B; T; V; C]) /\
  (0 < length l -> nth 0 l (zeros []) = x) /\
  (1 < length l ->
     forall b t h i, b < B -> t < T -> h < V -> i < C ->
       get (nth 1 l (zeros [])) [b; t; h; i] =
         sumn V (fun n => mul (get L [h; n]) (get x [b; t; n; i]))) /\
  (forall k, 2 <= k -> k < length l ->
     forall b t h i, b < B -> t < T -> h < V -> i < C ->
       get (nth k l (zeros [])) [b; t; h; i] =
         sub (sumn V (fun n =>
                mul (mul (of_nat 2) (get L [h; n]))
                    (get (nth (k - 1) l (zeros [])) [b; t; n; i])))
             (get (nth (k - 2) l (zeros [])) [b; t; h; i])).

(** The attention tokens as the specification states them: for each
    vertex, the [channel, time] block of that vertex flattened into one
    feature axis, the vertex being the sequence axis. *)
Definition per_vertex_tokens (concat : Tensor R) : Tensor R :=
  let B := dim concat 0 in
  let C := dim concat 1 in
  let T := dim concat 2 in
  let V := dim concat 3 in
  tab [B; V; C * T] (fun idx =>
    match idx with
    | [b; v; f] => get concat [b; f / T; f mod T; v]
    | _ => zero
    end).

End SpecNotions.

(** ** [main.py]: the configuration computed by [get_parameters] *)

Module Main.

(** [Ko = args.n_his - (args.Kt - 1) * 2 * args.stblock_num] *)
Definition Ko (n_his Kt stblock_num : Z) : Z :=
  (n_his - (Kt - 1) * 2 * stblock_num)%Z.

(** The channel sizes [blocks]. *)
Definition blocks (n_his Kt stblock_num : Z) : list (list nat) :=
  [[1]]
  ++ repeat [64; 16; 64] (Z.to_nat stblock_num)
  ++ (if (Ko n_his Kt stblock_num =? 0)%Z then [[128]]
      else if (Ko n_his Kt stblock_num >? 0)%Z then [[128; 128]]
      else [])
  ++ [[1]].

End Main.

(** ** The model *)

Module Model.
Section Def.
Context {R : Type} {RS : Scalar R}.

(** The part of the command line that the model reads. *)
Record args : Type := mkArgs {
  Kt : Z;
  Ks : nat;
  n_his : Z;
  stblock_num : Z;
  act_func : string;
  graph_conv_type : string;
  gso : Tensor R;
  enable_bias : bool;
  framework : string
}.

Record t : Type := mk {
  st_blocks : list (STConvBlock.t R);
  output : OutputBlock.t R
}.

(** Python's [xs[-k]] on a list of lists, [[]] when out of range. *)
Definition from_end (xs : list (list nat)) (k : nat) : list nat :=
  nth (length xs - k) xs [].

Fixpoint init_blocks (a : args) (blocks : list (list nat)) (n_vertex : nat)
    (nn_MultiheadAttention : nat -> nat -> MultiHeadSelfAttention.attention_fn R)
    (eps : R) (rnd : list nat -> R) (l n : nat)
    : result (list (STConvBlock.t R)) :=
  match n with
  | 0 => Ok []
  | S n' =>
      b <- STConvBlock.init (Z.to_nat (Kt a)) (Ks a) n_vertex
             (last (nth l blocks []) 0) (nth (l + 1) blocks [])
             (act_func a) (graph_conv_type a) (gso a) (enable_bias a)
             (Some (n_his a)) (Some (Z.of_nat l)) (Some (framework a))
             nn_MultiheadAttention eps rnd ;;
      bs <- init_blocks a blocks n_vertex nn_MultiheadAttention eps rnd
              (l + 1) n' ;;
      Ok (b :: bs)
  end.

(** Modelled from the spec: the Model of sections 2 and 4.10
    ([model/models.py] is not among the sources).  It stacks
    [stblock_num] STConvBlocks and one OutputBlock whose temporal kernel
    is [Ko = n_his - (Kt-1)*2*stblock_num]; a kernel size below 1 and a
    non-positive [Ko] are construction-time errors (sections 4.9 and 7). *)
Definition init (a : args) (blocks : list (list nat)) (n_vertex : nat)
    (nn_MultiheadAttention : nat -> nat -> MultiHeadSelfAttention.attention_fn R)
    (eps : R) (rnd : list nat -> R) : result t :=
  if (Kt a <? 1)%Z then Raise ValueError
  else
    bs <- init_blocks a blocks n_vertex nn_MultiheadAttention eps rnd 0
            (Z.to_nat (stblock_num a)) ;;
    let Ko := Main.Ko (n_his a) (Kt a) (stblock_num a) in
    if (Ko <=? 0)%Z then Raise ValueError
    else
      o <- OutputBlock.init (Z.to_nat Ko) (last (from_end blocks 3) 0)
             (from_end blocks 2) (hd 0 (from_end blocks 1)) n_vertex
             (act_func a) (enable_bias a) eps rnd ;;
      Ok {| st_blocks := bs; output := o |}.

(** Modelled from the spec: the forward pass threads the input through
    the blocks in order and then through the OutputBlock (section 4.10).
    [mask] is the dropout mask ([None] in inference mode). *)
Definition forward (m : t) (mask : option (Tensor R)) (x : Tensor R)
    : result (Tensor R) :=
  x <- fold_left (fun acc b => y <- acc ;; STConvBlock.forward b mask y)
         (st_blocks m) (Ok x) ;;
  OutputBlock.forward (output m) x.

End Def.
Arguments t R : clear implicits.
Arguments args R : clear implicits.
End Model.

(** ** Concrete layers and inputs (integer scalars)

    Used to run the definitions and to instantiate the theorems. *)

Definition rnd1 : list nat -> Z := fun _ => 1%Z.

(** A [[1; 1; 4; 2]] input holding [0 .. 7]. *)
Definition ex_x : Tensor Z :=
  tab [1; 1; 4; 2] (fun idx => Z.of_nat (offset [1; 1; 4; 2] idx)).

Definition ex_align : Align.t Z := Align.init 1 2 rnd1.

(** A [[1; 2; 4; 2]] input holding [0 .. 15] and the projection of its
    two channels to one, with weights and bias 1. *)
Definition ex_x2 : Tensor Z :=
  tab [1; 2; 4; 2] (fun idx => Z.of_nat (offset [1; 2; 4; 2] idx)).

Definition ex_align_proj : Align.t Z := Align.init 2 1 rnd1.

Definition ex_tcl (act : string) : TemporalConvLayer.t Z :=
  {| TemporalConvLayer.Kt := 3;
     TemporalConvLayer.c_in := 1;
     TemporalConvLayer.c_out := 2;
     TemporalConvLayer.n_vertex := 2;
     TemporalConvLayer.align := Align.init 1 2 rnd1;
     TemporalConvLayer.causal_conv :=
       if TemporalConvLayer.gated act
       then CausalConv2d.init 1 (2 * 2) (3, 1) (1, 1) false (1, 1) true rnd1
       else CausalConv2d.init 1 2 (3, 1) (1, 1) false (1, 1) true rnd1;
     TemporalConvLayer.act_func := act |}.

(** A 2-vertex operator and a Chebyshev convolution of order 3 on it. *)
Definition ex_gso : Tensor Z :=
  tab [2; 2] (fun idx => Z.of_nat (offset [2; 2] idx)).

Definition ex_cheb : ChebGraphConv.t Z :=
  ChebGraphConv.init 1 1 3 ex_gso true rnd1.

(** A GraphConvLayer on 2 vertices as its constructor builds it, with an
    all-zero operator, one channel, and all parameters equal to 1. *)
Definition ex_gcl (type : string) : GraphConvLayer.t Z :=
  {| GraphConvLayer.graph_conv_type := type;
     GraphConvLayer.c_in := 1;
     GraphConvLayer.c_out := 1;
     GraphConvLayer.align := Align.init 1 1 rnd1;
     GraphConvLayer.Ks := 2;
     GraphConvLayer.gso := zeros [2; 2];
     GraphConvLayer.cheb_graph_conv :=
       if String.eqb type "cheb_graph_conv"
       then Some (ChebGraphConv.init 1 1 2 (zeros [2; 2]) true rnd1)
       else None;
     GraphConvLayer.graph_conv :=
       if String.eqb type "cheb_graph_conv" then None
       else if String.eqb type "graph_conv"
       then Some (GraphConv.init 1 1 (zeros [2; 2]) true rnd1)
       else None |}.

(** The concatenation of a block with channels [[64; 16; 64]], three time
    steps and two vertices; each element holds its own row-major
    position, so that a token shows which elements it received. *)
Definition ex_concat : Tensor Z :=
  tab [1; 144; 3; 2] (fun idx => Z.of_nat (offset [1; 144; 3; 2] idx)).

(** A temporal layer, a Chebyshev graph layer on [ex_gso] and a block, as
    the constructors build them from parameters that are all 1; the
    attention layer and the projection of the block are given. *)
Definition ex_temporal (Kt c_in c_out n_vertex : nat) (act : string)
    : TemporalConvLayer.t Z :=
  {| TemporalConvLayer.Kt := Kt;
     TemporalConvLayer.c_in := c_in;
     TemporalConvLayer.c_out := c_out;
     TemporalConvLayer.n_vertex := n_vertex;
     TemporalConvLayer.align := Align.init c_in c_out rnd1;
     TemporalConvLayer.causal_conv :=
       if TemporalConvLayer.gated act
       then CausalConv2d.init c_in (2 * c_out) (Kt, 1) (1, 1) false (1, 1)
              true rnd1
       else CausalConv2d.init c_in c_out (Kt, 1) (1, 1) false (1, 1) true
              rnd1;
     TemporalConvLayer.act_func := act |}.

Definition ex_graph_layer (c_in c_out Ks : nat) : GraphConvLayer.t Z :=
  {| GraphConvLayer.graph_conv_type := "cheb_graph_conv";
     GraphConvLayer.c_in := c_in;
     GraphConvLayer.c_out := c_out;
     GraphConvLayer.align := Align.init c_in c_out rnd1;
     GraphConvLayer.Ks := Ks;
     GraphConvLayer.gso := ex_gso;
     GraphConvLayer.cheb_graph_conv :=
       Some (ChebGraphConv.init c_out c_out Ks ex_gso true rnd1);
     GraphConvLayer.graph_conv := None |}.

Definition ex_block (Kt n_vertex last_block_channel c0 c1 c2 : nat)
    (use_attn : option string)
    (attn : option (MultiHeadSelfAttention.t Z)) (fcn : option (Linear.t Z))
    (n_his l : option Z) : STConvBlock.t Z :=
  {| STConvBlock.tmp_conv1 :=
       ex_temporal Kt last_block_channel c0 n_vertex "glu";
     STConvBlock.graph_conv := ex_graph_layer c0 c1 2;
     STConvBlock.tmp_conv2 := ex_temporal Kt c1 c2 n_vertex "glu";
     STConvBlock.use_attn := use_attn;
     STConvBlock.attn := attn;
     STConvBlock.fcn := fcn;
     STConvBlock.n_his := n_his;
     STConvBlock.l := l;
     STConvBlock.tc2_ln := LayerNorm.init [n_vertex; c2] 0%Z |}.

(** A stand-in for [nn.MultiheadAttention(embed_dim, num_heads,
    batch_first=True)] that checks, as the layer does, that the query is
    a batch of token sequences with [embed_dim] features, and returns the
    query itself with all-zero attention weights. *)
Definition ex_attention : nat -> nat -> MultiHeadSelfAttention.attention_fn Z :=
  fun embed_dim _ query _ _ _ _ =>
    match shape query with
    | [N; L; E] =>
        if E =? embed_dim then Ok (query, zeros [N; L; L])
        else Raise AssertionError
    | _ => Raise AssertionError
    end.

(** A stand-in for [nn.MultiheadAttention] that returns its query. *)
Definition ex_mha : nat -> nat -> MultiHeadSelfAttention.attention_fn Z :=
  fun _ _ query _ _ _ _ => Ok (query, query).

(** [ex_x] on the window of times 0 and 1 at vertex 0, and 0 elsewhere. *)
Definition ex_x_window : Tensor Z :=
  tab [1; 1; 4; 2] (fun idx =>
    match idx with
    | [_; _; t; v] => if (t <? 2) && (v =? 0) then get ex_x idx else 0%Z
    | _ => 0%Z
    end).

(** * Verification *)

(** The integers satisfy the scalar laws. *)
#[export] Instance Z_ScalarLaws : ScalarLaws Z.
Proof.
  split; intros; cbn; lia.
Qed.

(** ** Basic facts about [tab] and [get] *)

Section TensorFacts.

Context {R : Type} {RS : Scalar R}.

Lemma length_flat_map_uniform (A : Type) (g : nat -> list A) (m a n : nat) :
  (forall i, length (g i) = m) ->
  length (flat_map g (seq a n)) = n * m.
Proof.
  intros Hg. revert a. induction n as [|n IH]; intros a; simpl.
  - reflexivity.
  - rewrite length_app, Hg, IH. reflexivity.
Qed.

Lemma nth_flat_map_uniform (A : Type) (g : nat -> list A) (m : nat) (d : A) :
  (forall i, length (g i) = m) ->
  forall n a i j, i < n -> j < m ->
  nth (i * m + j) (flat_map g (seq a n)) d = nth j (g (a + i)) d.
Proof.
  intros Hg. induction n as [|n IH]; intros a i j Hi Hj.
  - lia.
  - simpl. destruct i as [|i].
    + simpl. rewrite app_nth1 by (rewrite Hg; exact Hj).
      rewrite Nat.add_0_r. reflexivity.
    + rewrite app_nth2 by (rewrite Hg; simpl; lia).
      rewrite Hg. replace (S i * m + j - m) with (i * m + j) by (simpl; lia).
      rewrite IH by lia. f_equal. f_equal. lia.
Qed.

Lemma length_indices (s : list nat) : length (indices s) = numel s.
Proof.
  induction s as [|d s IH]; simpl.
  - reflexivity.
  - rewrite length_flat_map_uniform with (m := numel s).
    + reflexivity.
    + intros i. rewrite length_map. exact IH.
Qed.

Lemma offset_lt (s idx : list nat) :
  in_range idx s -> offset s idx < numel s.
Proof.
  revert idx. induction s as [|d s IH]; intros [|i idx]; simpl; try tauto.
  - lia.
  - intros [Hi Hr]. specialize (IH _ Hr). nia.
Qed.

Lemma nth_indices (s idx : list nat) :
  in_range idx s -> nth (offset s idx) (indices s) [] = idx.
Proof.
  revert idx. induction s as [|d s IH]; intros [|i idx]; simpl; try tauto.
  intros [Hi Hr].
  rewrite nth_flat_map_uniform with (m := numel s).
  - simpl.
    rewrite nth_indep with (d' := i :: [])
      by (rewrite length_map, length_indices; apply offset_lt; exact Hr).
    rewrite map_nth. rewrite IH by exact Hr. reflexivity.
  - intros k. rewrite length_map. apply length_indices.
  - exact Hi.
  - apply offset_lt. exact Hr.
Qed.

Lemma shape_tab (s : list nat) (f : list nat -> R) : shape (tab s f) = s.
Proof. reflexivity. Qed.

Lemma wf_tab (s : list nat) (f : list nat -> R) : wf (tab s f).
Proof.
  unfold wf, tab. simpl. rewrite length_map. apply length_indices.
Qed.

Lemma get_tab (s : list nat) (f : list nat -> R) (idx : list nat) :
  in_range idx s -> get (tab s f) idx = f idx.
Proof.
  intros Hr. unfold get, tab. simpl.
  rewrite nth_indep with (d' := f [])
    by (rewrite length_map, length_indices; apply offset_lt; exact Hr).
  rewrite map_nth. rewrite nth_indices by exact Hr. reflexivity.
Qed.

End TensorFacts.


(** ** Sums *)

Section SumFacts.

Context {R : Type} {RS : Scalar R}.

Lemma fold_left_ext_in (A : Type) (f g : R -> A -> R) (l : list A) (a : R) :
  (forall acc i, In i l -> f acc i = g acc i) ->
  fold_left f l a = fold_left g l a.
Proof.
  revert a. induction l as [|i l IH]; intros a Hfg; simpl.
  - reflexivity.
  - rewrite Hfg by (left; reflexivity).
    apply IH. intros acc j Hj. apply Hfg. right. exact Hj.
Qed.

Lemma sumn_ext (n : nat) (f g : nat -> R) :
  (forall i, i < n -> f i = g i) -> sumn n f = sumn n g.
Proof.
  intros Hfg. unfold sumn. apply fold_left_ext_in.
  intros acc i Hi. apply in_seq in Hi. rewrite Hfg by lia. reflexivity.
Qed.

Lemma sumn_S (n : nat) (f : nat -> R) :
  sumn (S n) f = add (sumn n f) (f n).
Proof.
  unfold sumn. rewrite seq_S, fold_left_app. reflexivity.
Qed.

Lemma sumn_0 (f : nat -> R) : sumn 0 f = zero.
Proof. reflexivity. Qed.

Lemma sumn_zero {RL : ScalarLaws R} (n : nat) (f : nat -> R) :
  (forall i, i < n -> f i = zero) -> sumn n f = zero.
Proof.
  induction n as [|n IH]; intros Hf.
  - reflexivity.
  - rewrite sumn_S, IH by (intros; apply Hf; lia).
    rewrite Hf by lia. apply add_zero_l.
Qed.

Lemma sumn_1 {RL : ScalarLaws R} (f : nat -> R) : sumn 1 f = f 0.
Proof. rewrite sumn_S, sumn_0. apply add_zero_l. Qed.

End SumFacts.

(** ** Facts about the tensor operations *)

Ltac in_range_tac :=
  simpl; repeat split; try assumption; try lia.

Section OpFacts.

Context {R : Type} {RS : Scalar R}.

Lemma in_range_length (idx s : list nat) :
  in_range idx s -> length idx = length s.
Proof.
  revert s. induction idx as [|i idx IH]; intros [|d s]; simpl; try tauto.
  intros [_ H]. f_equal. apply IH. exact H.
Qed.

Lemma bidx_lt (d i : nat) : i < d -> bidx d i = i.
Proof.
  unfold bidx. intros Hi. destruct (Nat.eqb_spec d 1); [lia | reflexivity].
Qed.

Lemma bdim_refl (a : nat) : bdim a a = Some a.
Proof. unfold bdim. rewrite Nat.eqb_refl. reflexivity. Qed.

Lemma bshape_rev_refl (s : list nat) : bshape_rev s s = Some s.
Proof.
  induction s as [|a s IH]; simpl.
  - reflexivity.
  - rewrite bdim_refl, IH. reflexivity.
Qed.

Lemma broadcast_shapes_refl (s : list nat) : broadcast_shapes s s = Some s.
Proof.
  unfold broadcast_shapes. rewrite bshape_rev_refl. simpl.
  rewrite rev_involutive. reflexivity.
Qed.

Lemma bindex_same (s idx : list nat) :
  in_range idx s -> bindex s idx = idx.
Proof.
  intros Hr. unfold bindex.
  rewrite (in_range_length _ _ Hr), Nat.sub_diag. simpl.
  revert idx Hr. induction s as [|d s IH]; intros [|i idx]; simpl; try tauto.
  intros [Hi Hr]. rewrite bidx_lt by exact Hi. f_equal. apply IH. exact Hr.
Qed.

Lemma shape_tmap (f : R -> R) (x : Tensor R) : shape (tmap f x) = shape x.
Proof. reflexivity. Qed.

Lemma get_tmap (f : R -> R) (x : Tensor R) (idx : list nat) :
  in_range idx (shape x) -> get (tmap f x) idx = f (get x idx).
Proof. intros Hr. unfold tmap. rewrite get_tab by exact Hr. reflexivity. Qed.

(** Elementwise operation on two tensors of one shape. *)
Lemma tzip_same (f : R -> R -> R) (x y : Tensor R) :
  shape y = shape x ->
  exists z, tzip f x y = Ok z /\ shape z = shape x /\
    forall idx, in_range idx (shape x) ->
      get z idx = f (get x idx) (get y idx).
Proof.
  intros Hs. unfold tzip. rewrite Hs, broadcast_shapes_refl.
  eexists. split; [reflexivity|]. split; [reflexivity|].
  intros idx Hr. rewrite get_tab by exact Hr.
  rewrite bindex_same by exact Hr. reflexivity.
Qed.

(** Adding a vector along the last axis of a rank-4 tensor. *)
Lemma tzip_last (f : R -> R -> R) (x y : Tensor R) (B T V C : nat) :
  shape x = [B; T; V; C] -> shape y = [C] ->
  exists z, tzip f x y = Ok z /\ shape z = [B; T; V; C] /\
    forall b t v c, b < B -> t < T -> v < V -> c < C ->
      get z [b; t; v; c] = f (get x [b; t; v; c]) (get y [c]).
Proof.
  intros Hx Hy. unfold tzip, broadcast_shapes. rewrite Hx, Hy. simpl.
  rewrite bdim_refl. simpl.
  eexists. split; [reflexivity|]. split; [reflexivity|].
  intros b t v c Hb Ht Hv Hc. rewrite get_tab by in_range_tac.
  unfold bindex. simpl. rewrite !bidx_lt by assumption. reflexivity.
Qed.

Lemma slice_time_ok (lo hi : nat) (x : Tensor R) (B C T V : nat) :
  shape x = [B; C; T; V] ->
  exists y, slice_time lo hi x = Ok y /\ shape y = [B; C; hi - lo; V] /\
    forall b c t v, b < B -> c < C -> t < hi - lo -> v < V ->
      get y [b; c; t; v] = get x [b; c; lo + t; v].
Proof.
  intros Hx. unfold slice_time. rewrite Hx.
  eexists. split; [reflexivity|]. split; [reflexivity|].
  intros. rewrite get_tab by in_range_tac. reflexivity.
Qed.

Lemma slice_channel_ok (lo hi : nat) (x : Tensor R) (B C T V : nat) :
  shape x = [B; C; T; V] ->
  exists y, slice_channel lo hi x = Ok y /\ shape y = [B; hi - lo; T; V] /\
    forall b c t v, b < B -> c < hi - lo -> t < T -> v < V ->
      get y [b; c; t; v] = get x [b; lo + c; t; v].
Proof.
  intros Hx. unfold slice_channel. rewrite Hx.
  eexists. split; [reflexivity|]. split; [reflexivity|].
  intros. rewrite get_tab by in_range_tac. reflexivity.
Qed.

Lemma cat1_ok (x y : Tensor R) (B C1 C2 T V : nat) :
  shape x = [B; C1; T; V] -> shape y = [B; C2; T; V] ->
  exists z, cat1 x y = Ok z /\ shape z = [B; C1 + C2; T; V] /\
    forall b c t v, b < B -> c < C1 + C2 -> t < T -> v < V ->
      get z [b; c; t; v] =
        if c <? C1 then get x [b; c; t; v] else get y [b; c - C1; t; v].
Proof.
  intros Hx Hy. unfold cat1. rewrite Hx, Hy, !Nat.eqb_refl. simpl.
  eexists. split; [reflexivity|]. split; [reflexivity|].
  intros. rewrite get_tab by in_range_tac. reflexivity.
Qed.

Lemma pad_ok (wl wr tl tr : nat) (x : Tensor R) (B C T V : nat) :
  shape x = [B; C; T; V] ->
  exists y, pad wl wr tl tr x = Ok y /\
    shape y = [B; C; tl + T + tr; wl + V + wr] /\
    forall b c t v, b < B -> c < C -> t < tl + T + tr -> v < wl + V + wr ->
      get y [b; c; t; v] =
        if (tl <=? t) && (t <? tl + T) && (wl <=? v) && (v <? wl + V)
        then get x [b; c; t - tl; v - wl] else zero.
Proof.
  intros Hx. unfold pad. rewrite Hx. cbn [rev app length].
  eexists. split; [reflexivity|]. split; [reflexivity|].
  intros. rewrite get_tab by in_range_tac. reflexivity.
Qed.

(** [permute (0, 2, 3, 1)]: channels last. *)
Lemma permute_0231 (x : Tensor R) (B C T V : nat) :
  shape x = [B; C; T; V] ->
  exists y, permute [0; 2; 3; 1] x = Ok y /\ shape y = [B; T; V; C] /\
    forall b t v c, b < B -> t < T -> v < V -> c < C ->
      get y [b; t; v; c] = get x [b; c; t; v].
Proof.
  intros Hx. unfold permute. rewrite Hx. simpl.
  eexists. split; [reflexivity|]. split; [reflexivity|].
  intros. rewrite get_tab by in_range_tac. reflexivity.
Qed.

(** [permute (0, 3, 1, 2)]: back to channels second. *)
Lemma permute_0312 (x : Tensor R) (B T V C : nat) :
  shape x = [B; T; V; C] ->
  exists y, permute [0; 3; 1; 2] x = Ok y /\ shape y = [B; C; T; V] /\
    forall b c t v, b < B -> c < C -> t < T -> v < V ->
      get y [b; c; t; v] = get x [b; t; v; c].
Proof.
  intros Hx. unfold permute. rewrite Hx. simpl.
  eexists. split; [reflexivity|]. split; [reflexivity|].
  intros. rewrite get_tab by in_range_tac. reflexivity.
Qed.

End OpFacts.

(** ** Convolution *)

Section ConvFacts.

Context {R : Type} {RS : Scalar R}.

(** On a rank-4 input the convolution is the batched one. *)
Lemma Conv2d_forward_rank4 (m : Conv2d.t R) (x : Tensor R) (B C H W : nat) :
  shape x = [B; C; H; W] ->
  Conv2d.forward m x = Conv2d.forward_batched m x.
Proof. intros Hx. unfold Conv2d.forward. rewrite Hx. reflexivity. Qed.

Lemma Conv2d_forward_ok (m : Conv2d.t R) (x : Tensor R) (B H W : nat) :
  shape x = [B; Conv2d.in_channels m; H; W] ->
  1 <= Conv2d.in_channels m ->
  Conv2d.out_channels m <> 0 ->
  1 <= fst (Conv2d.kernel_size m) -> 1 <= snd (Conv2d.kernel_size m) ->
  1 <= fst (Conv2d.stride m) -> 1 <= snd (Conv2d.stride m) ->
  1 <= fst (Conv2d.dilation m) -> 1 <= snd (Conv2d.dilation m) ->
  fst (Conv2d.dilation m) * (fst (Conv2d.kernel_size m) - 1) + 1 <= H ->
  snd (Conv2d.dilation m) * (snd (Conv2d.kernel_size m) - 1) + 1 <= W ->
  exists y, Conv2d.forward m x = Ok y /\
    shape y =
      [B; Conv2d.out_channels m;
       Conv2d.out_len H (fst (Conv2d.kernel_size m)) (fst (Conv2d.stride m))
         (fst (Conv2d.dilation m));
       Conv2d.out_len W (snd (Conv2d.kernel_size m)) (snd (Conv2d.stride m))
         (snd (Conv2d.dilation m))] /\
    forall b o i j,
      b < B -> o < Conv2d.out_channels m ->
      i < Conv2d.out_len H (fst (Conv2d.kernel_size m))
            (fst (Conv2d.stride m)) (fst (Conv2d.dilation m)) ->
      j < Conv2d.out_len W (snd (Conv2d.kernel_size m))
            (snd (Conv2d.stride m)) (snd (Conv2d.dilation m)) ->
      get y [b; o; i; j] = Conv2d.elem m x (Conv2d.in_channels m) b o i j.
Proof.
  intros Hx Hi Ho Hkh Hkw Hsh Hsw Hdh Hdw HH HW.
  rewrite (Conv2d_forward_rank4 m x _ _ _ _ Hx).
  unfold Conv2d.forward_batched. rewrite Hx, Nat.eqb_refl. simpl negb. cbv iota.
  match goal with |- context [if ?c then Raise RuntimeError else if _ then _ else _] =>
    destruct c eqn:E1 end.
  { rewrite !orb_true_iff, !Nat.eqb_eq in E1. lia. }
  match goal with |- context [if ?c then Raise RuntimeError else Ok _] =>
    destruct c eqn:E2 end.
  { rewrite !orb_true_iff, !Nat.ltb_lt in E2. lia. }
  destruct (Nat.eqb_spec (Conv2d.in_channels m) 0) as [H0|_]; [lia|].
  eexists. split; [reflexivity|]. split; [reflexivity|].
  intros. rewrite get_tab by in_range_tac. reflexivity.
Qed.

(** Whatever the channel count of the layer, an input that passes the
    checks is convolved: the result keeps the batch extent and has the
    convolved extents. *)
Lemma Conv2d_forward_returns (m : Conv2d.t R) (x : Tensor R) (B H W : nat) :
  shape x = [B; Conv2d.in_channels m; H; W] ->
  Conv2d.out_channels m <> 0 ->
  1 <= fst (Conv2d.kernel_size m) -> 1 <= snd (Conv2d.kernel_size m) ->
  1 <= fst (Conv2d.stride m) -> 1 <= snd (Conv2d.stride m) ->
  1 <= fst (Conv2d.dilation m) -> 1 <= snd (Conv2d.dilation m) ->
  fst (Conv2d.dilation m) * (fst (Conv2d.kernel_size m) - 1) + 1 <= H ->
  snd (Conv2d.dilation m) * (snd (Conv2d.kernel_size m) - 1) + 1 <= W ->
  exists y, Conv2d.forward m x = Ok y /\
    shape y =
      [B; if Conv2d.in_channels m =? 0 then 0 else Conv2d.out_channels m;
       Conv2d.out_len H (fst (Conv2d.kernel_size m)) (fst (Conv2d.stride m))
         (fst (Conv2d.dilation m));
       Conv2d.out_len W (snd (Conv2d.kernel_size m)) (snd (Conv2d.stride m))
         (snd (Conv2d.dilation m))].
Proof.
  intros Hx Ho Hkh Hkw Hsh Hsw Hdh Hdw HH HW.
  rewrite (Conv2d_forward_rank4 m x _ _ _ _ Hx).
  unfold Conv2d.forward_batched. rewrite Hx, Nat.eqb_refl. simpl negb. cbv iota.
  match goal with |- context [if ?c then Raise RuntimeError else if _ then _ else _] =>
    destruct c eqn:E1 end.
  { rewrite !orb_true_iff, !Nat.eqb_eq in E1. lia. }
  match goal with |- context [if ?c then Raise RuntimeError else Ok _] =>
    destruct c eqn:E2 end.
  { rewrite !orb_true_iff, !Nat.ltb_lt in E2. lia. }
  eexists. split; reflexivity.
Qed.

Lemma Conv2d_forward_channel_mismatch (m : Conv2d.t R) (x : Tensor R)
    (B C H W : nat) :
  shape x = [B; C; H; W] -> C <> Conv2d.in_channels m ->
  Conv2d.forward m x = Raise RuntimeError.
Proof.
  intros Hx HC. rewrite (Conv2d_forward_rank4 m x _ _ _ _ Hx).
  unfold Conv2d.forward_batched. rewrite Hx.
  destruct (Nat.eqb_spec C (Conv2d.in_channels m)); [contradiction|].
  reflexivity.
Qed.

Lemma Conv2d_forward_kernel_too_large (m : Conv2d.t R) (x : Tensor R)
    (B C H W : nat) :
  shape x = [B; C; H; W] ->
  H < fst (Conv2d.dilation m) * (fst (Conv2d.kernel_size m) - 1) + 1 ->
  Conv2d.forward m x = Raise RuntimeError.
Proof.
  intros Hx HH. rewrite (Conv2d_forward_rank4 m x _ _ _ _ Hx).
  unfold Conv2d.forward_batched. rewrite Hx.
  destruct (negb _); [reflexivity|].
  match goal with |- context [if ?c then Raise RuntimeError else if _ then _ else _] =>
    destruct c end; [reflexivity|].
  apply Nat.ltb_lt in HH. rewrite HH. reflexivity.
Qed.

Lemma out_len_unit (n k : nat) :
  1 <= k -> k <= n -> Conv2d.out_len n k 1 1 = n - (k - 1).
Proof.
  intros Hk Hn. unfold Conv2d.out_len. rewrite Nat.div_1_r. lia.
Qed.

End ConvFacts.

(** ** Align *)

Section AlignFacts.

Context {R : Type} {RS : Scalar R}.

Lemma Align_init_well_formed (c_in c_out : nat) (rnd : list nat -> R) :
  Align.well_formed (Align.init c_in c_out rnd).
Proof. repeat split. Qed.

Lemma Align_forward_same (m : Align.t R) (x : Tensor R) :
  Align.c_in m = Align.c_out m -> Align.forward m x = Ok x.
Proof.
  intros He. unfold Align.forward. rewrite He, Nat.ltb_irrefl. reflexivity.
Qed.

Lemma Align_forward_pad (m : Align.t R) (x : Tensor R) (B C T V : nat) :
  shape x = [B; C; T; V] ->
  Align.c_in m < Align.c_out m ->
  exists a, Align.forward m x = Ok a /\
    shape a = [B; C + (Align.c_out m - Align.c_in m); T; V] /\
    forall b c t v, b < B -> c < C + (Align.c_out m - Align.c_in m) ->
      t < T -> v < V ->
      get a [b; c; t; v] = if c <? C then get x [b; c; t; v] else zero.
Proof.
  intros Hx Hlt. unfold Align.forward.
  destruct (Nat.ltb_spec (Align.c_out m) (Align.c_in m)); [lia|].
  destruct (Nat.ltb_spec (Align.c_in m) (Align.c_out m)); [|lia].
  rewrite Hx. unfold cat_channels. simpl fold_left.
  destruct (cat1_ok x (zeros [B; Align.c_out m - Align.c_in m; T; V])
              B C (Align.c_out m - Align.c_in m) T V Hx eq_refl)
    as (z & Hz & Hs & Hg).
  simpl bind. rewrite Hz. exists z. split; [reflexivity|]. split; [exact Hs|].
  intros b c t v Hb Hc Ht Hv. rewrite Hg by assumption.
  destruct (Nat.ltb_spec c C); [reflexivity|].
  unfold zeros. rewrite get_tab by in_range_tac. reflexivity.
Qed.

Lemma Align_forward_proj (m : Align.t R) (x : Tensor R) (B T V : nat) :
  Align.well_formed m ->
  shape x = [B; Align.c_in m; T; V] ->
  Align.c_out m < Align.c_in m ->
  1 <= Align.c_out m -> 1 <= T -> 1 <= V ->
  exists a, Align.forward m x = Ok a /\
    shape a = [B; Align.c_out m; T; V] /\
    forall b o t v, b < B -> o < Align.c_out m -> t < T -> v < V ->
      get a [b; o; t; v] =
        Conv2d.elem (Align.align_conv m) x (Align.c_in m) b o t v.
Proof.
  intros (Hi & Ho & Hk & Hs & Hd) Hx Hlt Hco HT HV. unfold Align.forward.
  destruct (Nat.ltb_spec (Align.c_out m) (Align.c_in m)); [|lia].
  destruct (Conv2d_forward_ok (Align.align_conv m) x B T V) as (y & Hy & Hsy & Hg);
    rewrite ?Hi, ?Ho, ?Hk, ?Hs, ?Hd; simpl; try lia; try assumption.
  exists y. split; [exact Hy|].
  rewrite Ho, Hk, Hs, Hd in Hsy. simpl in Hsy.
  rewrite !out_len_unit in Hsy by lia. rewrite !Nat.sub_0_r in Hsy.
  split; [exact Hsy|].
  intros b o t v Hb Hob Ht Hv. rewrite <- Hi. apply Hg; try assumption.
  - rewrite Ho. exact Hob.
  - rewrite Hk, Hs, Hd. simpl. rewrite out_len_unit by lia. lia.
  - rewrite Hk, Hs, Hd. simpl. rewrite out_len_unit by lia. lia.
Qed.

(** The result of [Align] always has [c_out] channels and keeps the other
    extents. *)
Lemma Align_forward_shape (m : Align.t R) (x : Tensor R) (B T V : nat) :
  Align.well_formed m ->
  shape x = [B; Align.c_in m; T; V] ->
  1 <= Align.c_out m -> 1 <= T -> 1 <= V ->
  exists a, Align.forward m x = Ok a /\ shape a = [B; Align.c_out m; T; V].
Proof.
  intros Hwf Hx Hco HT HV.
  destruct (Nat.lt_trichotomy (Align.c_in m) (Align.c_out m)) as [Hlt | [Heq | Hgt]].
  - destruct (Align_forward_pad m x B (Align.c_in m) T V Hx Hlt) as (a & Ha & Hs & _).
    exists a. split; [exact Ha|]. rewrite Hs. f_equal. f_equal. lia.
  - exists x. split; [apply Align_forward_same; exact Heq|].
    rewrite Hx, Heq. reflexivity.
  - destruct (Align_forward_proj m x B T V Hwf Hx Hgt Hco HT HV) as (a & Ha & Hs & _).
    exists a. split; assumption.
Qed.

End AlignFacts.

(** ** TemporalConvLayer *)

Section TemporalFacts.

Context {R : Type} {RS : Scalar R}.

Lemma py_norm_pred (k n : nat) :
  1 <= k -> k <= n -> py_norm (Z.of_nat k - 1) n = k - 1.
Proof.
  intros Hk Hn. unfold py_norm.
  destruct (Z.ltb_spec (Z.of_nat k - 1) 0); lia.
Qed.

Lemma py_norm_half (c : nat) : py_norm (Z.of_nat c) (2 * c) = c.
Proof.
  unfold py_norm. destruct (Z.ltb_spec (Z.of_nat c) 0); lia.
Qed.

Lemma py_norm_neg_half (c : nat) : py_norm (- Z.of_nat c) (2 * c) = c.
Proof.
  unfold py_norm. destruct (Z.ltb_spec (- Z.of_nat c) 0); lia.
Qed.

Lemma TemporalConvLayer_init_well_formed (Kt c_in c_out n_vertex : nat)
    (act : string) (rnd : list nat -> R) :
  exists m, TemporalConvLayer.init Kt c_in c_out n_vertex act rnd = Ok m /\
    TemporalConvLayer.well_formed m /\
    TemporalConvLayer.Kt m = Kt /\ TemporalConvLayer.c_in m = c_in /\
    TemporalConvLayer.c_out m = c_out /\ TemporalConvLayer.act_func m = act.
Proof.
  eexists. split; [reflexivity|]. split; [|repeat split].
  unfold TemporalConvLayer.well_formed. simpl.
  destruct (TemporalConvLayer.gated act); repeat split.
Qed.

(** The unpadded causal convolution of a well-formed layer. *)
Lemma TemporalConvLayer_conv (m : TemporalConvLayer.t R) (x : Tensor R)
    (B T V : nat) :
  TemporalConvLayer.well_formed m ->
  shape x = [B; TemporalConvLayer.c_in m; T; V] ->
  1 <= TemporalConvLayer.Kt m -> TemporalConvLayer.Kt m <= T ->
  1 <= V -> 1 <= TemporalConvLayer.c_out m ->
  1 <= TemporalConvLayer.c_in m ->
  exists y,
    CausalConv2d.forward (TemporalConvLayer.causal_conv m) x = Ok y /\
    shape y =
      [B;
       if TemporalConvLayer.gated (TemporalConvLayer.act_func m)
       then 2 * TemporalConvLayer.c_out m else TemporalConvLayer.c_out m;
       T - (TemporalConvLayer.Kt m - 1); V] /\
    forall b o t v,
      b < B ->
      o < (if TemporalConvLayer.gated (TemporalConvLayer.act_func m)
           then 2 * TemporalConvLayer.c_out m else TemporalConvLayer.c_out m) ->
      t < T - (TemporalConvLayer.Kt m - 1) -> v < V ->
      get y [b; o; t; v] =
        Conv2d.elem (CausalConv2d.conv (TemporalConvLayer.causal_conv m)) x
          (TemporalConvLayer.c_in m) b o t v.
Proof.
  intros (_ & _ & _ & Hp & Hi & Ho & Hk & Hs & Hd) Hx HK HT HV HC HI.
  unfold CausalConv2d.forward. rewrite Hp. simpl bind.
  set (cv := CausalConv2d.conv (TemporalConvLayer.causal_conv m)) in *.
  assert (Hout : Conv2d.out_channels cv <> 0).
  { rewrite Ho. destruct (TemporalConvLayer.gated _); lia. }
  destruct (Conv2d_forward_ok cv x B T V) as (y & Hy & Hsy & Hg);
    rewrite ?Hi, ?Hk, ?Hs, ?Hd; simpl; try lia; try assumption.
  rewrite Hk, Hs, Hd in Hsy. simpl in Hsy.
  rewrite !out_len_unit in Hsy by lia. rewrite Nat.sub_0_r, Ho in Hsy.
  exists y. split; [exact Hy|]. split; [exact Hsy|].
  intros b o t v Hb Hob Ht Hv. rewrite <- Hi. apply Hg; try assumption.
  - rewrite Ho. exact Hob.
  - rewrite Hk, Hs, Hd. simpl. rewrite out_len_unit by lia. exact Ht.
  - rewrite Hk, Hs, Hd. simpl. rewrite out_len_unit by lia. lia.
Qed.

(** The convolution of the layer returns on every input with [c_in]
    channels and at least [Kt] time steps, also when [c_in = 0]. *)
Lemma TemporalConvLayer_conv_returns (m : TemporalConvLayer.t R) (x : Tensor R)
    (B T V : nat) :
  TemporalConvLayer.well_formed m ->
  shape x = [B; TemporalConvLayer.c_in m; T; V] ->
  1 <= TemporalConvLayer.Kt m -> TemporalConvLayer.Kt m <= T ->
  1 <= V -> 1 <= TemporalConvLayer.c_out m ->
  exists y C,
    CausalConv2d.forward (TemporalConvLayer.causal_conv m) x = Ok y /\
    shape y = [B; C; T - (TemporalConvLayer.Kt m - 1); V].
Proof.
  intros (_ & _ & _ & Hp & Hi & Ho & Hk & Hs & Hd) Hx HK HT HV HC.
  unfold CausalConv2d.forward. rewrite Hp. simpl bind.
  set (cv := CausalConv2d.conv (TemporalConvLayer.causal_conv m)) in *.
  assert (Hout : Conv2d.out_channels cv <> 0).
  { rewrite Ho. destruct (TemporalConvLayer.gated _); lia. }
  destruct (Conv2d_forward_returns cv x B T V) as (y & Hy & Hsy);
    rewrite ?Hi, ?Hk, ?Hs, ?Hd; simpl; try lia; try assumption.
  rewrite Hk, Hs, Hd in Hsy. simpl in Hsy.
  rewrite !out_len_unit in Hsy by lia. rewrite Nat.sub_0_r in Hsy.
  exists y. eexists. split; [exact Hy | exact Hsy].
Qed.

(** The aligned and time-trimmed input [x_in]. *)
Lemma TemporalConvLayer_x_in (m : TemporalConvLayer.t R) (x : Tensor R)
    (B T V : nat) :
  TemporalConvLayer.well_formed m ->
  shape x = [B; TemporalConvLayer.c_in m; T; V] ->
  1 <= TemporalConvLayer.Kt m -> TemporalConvLayer.Kt m <= T ->
  1 <= V -> 1 <= TemporalConvLayer.c_out m ->
  exists a x_in,
    Align.forward (TemporalConvLayer.align m) x = Ok a /\
    shape a = [B; TemporalConvLayer.c_out m; T; V] /\
    slice_time (py_norm (Z.of_nat (TemporalConvLayer.Kt m) - 1) (dim a 2))
      (dim a 2) a = Ok x_in /\
    shape x_in =
      [B; TemporalConvLayer.c_out m; T - (TemporalConvLayer.Kt m - 1); V] /\
    forall b c t v,
      b < B -> c < TemporalConvLayer.c_out m ->
      t < T - (TemporalConvLayer.Kt m - 1) -> v < V ->
      get x_in [b; c; t; v] = get a [b; c; TemporalConvLayer.Kt m - 1 + t; v].
Proof.
  intros (Hwa & Hai & Hao & _) Hx HK HT HV HC.
  destruct (Align_forward_shape (TemporalConvLayer.align m) x B T V)
    as (a & Ha & Hsa); rewrite ?Hai, ?Hao; try assumption; try lia.
  rewrite Hao in Hsa.
  assert (Hd : dim a 2 = T) by (unfold dim; rewrite Hsa; reflexivity).
  destruct (slice_time_ok (TemporalConvLayer.Kt m - 1) T a B
              (TemporalConvLayer.c_out m) T V Hsa) as (x_in & Hxi & Hsx & Hg).
  exists a, x_in. rewrite Hd, py_norm_pred by lia.
  repeat split; assumption.
Qed.

(** The gated modes: the convolution has [2 * c_out] channels, split into
    the halves [p] and [q]. *)
Lemma TemporalConvLayer_forward_gated (m : TemporalConvLayer.t R)
    (x : Tensor R) (B T V : nat) :
  TemporalConvLayer.well_formed m ->
  shape x = [B; TemporalConvLayer.c_in m; T; V] ->
  1 <= TemporalConvLayer.Kt m -> TemporalConvLayer.Kt m <= T ->
  1 <= V -> 1 <= TemporalConvLayer.c_out m ->
  1 <= TemporalConvLayer.c_in m ->
  TemporalConvLayer.gated (TemporalConvLayer.act_func m) = true ->
  exists a x_conv y,
    Align.forward (TemporalConvLayer.align m) x = Ok a /\
    CausalConv2d.forward (TemporalConvLayer.causal_conv m) x = Ok x_conv /\
    shape x_conv =
      [B; 2 * TemporalConvLayer.c_out m; T - (TemporalConvLayer.Kt m - 1); V] /\
    TemporalConvLayer.forward m x = Ok y /\
    shape y =
      [B; TemporalConvLayer.c_out m; T - (TemporalConvLayer.Kt m - 1); V] /\
    forall b c t v,
      b < B -> c < TemporalConvLayer.c_out m ->
      t < T - (TemporalConvLayer.Kt m - 1) -> v < V ->
      let p := get x_conv [b; c; t; v] in
      let q := get x_conv [b; TemporalConvLayer.c_out m + c; t; v] in
      let x_in := get a [b; c; TemporalConvLayer.Kt m - 1 + t; v] in
      get y [b; c; t; v] =
        if String.eqb (TemporalConvLayer.act_func m) "glu"
        then mul (add p x_in) (sigmoid q)
        else mul (tanh (add p x_in)) (sigmoid q).
Proof.
  intros Hwf Hx HK HT HV HC HI Hgt.
  destruct (TemporalConvLayer_x_in m x B T V Hwf Hx HK HT HV HC)
    as (a & x_in & Ha & Hsa & Hxi & Hsxi & Hgxi).
  destruct (TemporalConvLayer_conv m x B T V Hwf Hx HK HT HV HC HI)
    as (cv & Hcv & Hscv & _).
  rewrite Hgt in Hscv.
  set (c0 := TemporalConvLayer.c_out m) in *.
  set (T' := T - (TemporalConvLayer.Kt m - 1)) in *.
  assert (Hd : dim cv 1 = 2 * c0) by (unfold dim; rewrite Hscv; reflexivity).
  destruct (slice_channel_ok 0 c0 cv B (2 * c0) T' V Hscv)
    as (x_p & Hp & Hsp & Hgp).
  destruct (slice_channel_ok c0 (2 * c0) cv B (2 * c0) T' V Hscv)
    as (x_q & Hq & Hsq & Hgq).
  replace (c0 - 0) with c0 in * by lia.
  replace (2 * c0 - c0) with c0 in * by lia.
  assert (Hsame : shape x_in = shape x_p) by (rewrite Hsxi, Hsp; reflexivity).
  destruct (tzip_same add x_p x_in Hsame) as (s & Hs & Hss & Hgs).
  rewrite Hsp in Hss, Hgs.
  assert (Hfw : TemporalConvLayer.forward m x =
                if String.eqb (TemporalConvLayer.act_func m) "glu"
                then tzip mul s (tmap sigmoid x_q)
                else tzip mul (tmap tanh s) (tmap sigmoid x_q)).
  { unfold TemporalConvLayer.forward. rewrite Ha. cbn [bind].
    rewrite Hxi. cbn [bind]. rewrite Hcv. cbn [bind]. rewrite Hgt.
    fold c0. rewrite Hd, py_norm_half, py_norm_neg_half, Hp. cbn [bind].
    rewrite Hq. cbn [bind]. rewrite Hs. cbn [bind]. reflexivity. }
  exists a, cv. rewrite Hfw.
  destruct (String.eqb (TemporalConvLayer.act_func m) "glu").
  - assert (Hsm : shape (tmap sigmoid x_q) = shape s)
      by (rewrite shape_tmap, Hsq, Hss; reflexivity).
    destruct (tzip_same mul s (tmap sigmoid x_q) Hsm) as (y & Hy & Hsy & Hgy).
    rewrite Hss in Hsy, Hgy.
    exists y. repeat split; try assumption.
    intros b c t v Hb Hc Ht Hv. cbv zeta.
    rewrite Hgy, Hgs by in_range_tac.
    rewrite get_tmap by (rewrite Hsq; in_range_tac).
    rewrite Hgp, Hgq, Hgxi by assumption. reflexivity.
  - assert (Hsm : shape (tmap sigmoid x_q) = shape (tmap tanh s))
      by (rewrite !shape_tmap, Hsq, Hss; reflexivity).
    destruct (tzip_same mul (tmap tanh s) (tmap sigmoid x_q) Hsm)
      as (y & Hy & Hsy & Hgy).
    rewrite shape_tmap, Hss in Hsy, Hgy.
    exists y. repeat split; try assumption.
    intros b c t v Hb Hc Ht Hv. cbv zeta.
    rewrite Hgy by in_range_tac.
    rewrite !get_tmap by (rewrite ?Hsq, ?Hss; in_range_tac).
    rewrite Hgs by in_range_tac.
    rewrite Hgp, Hgq, Hgxi by assumption. reflexivity.
Qed.

(** The plain modes: the convolution has [c_out] channels. *)
Lemma TemporalConvLayer_forward_plain (m : TemporalConvLayer.t R)
    (x : Tensor R) (B T V : nat) (f : R -> R) :
  TemporalConvLayer.well_formed m ->
  shape x = [B; TemporalConvLayer.c_in m; T; V] ->
  1 <= TemporalConvLayer.Kt m -> TemporalConvLayer.Kt m <= T ->
  1 <= V -> 1 <= TemporalConvLayer.c_out m ->
  1 <= TemporalConvLayer.c_in m ->
  TemporalConvLayer.gated (TemporalConvLayer.act_func m) = false ->
  TemporalConvLayer.plain_activation (TemporalConvLayer.act_func m) = Some f ->
  exists a x_conv y,
    Align.forward (TemporalConvLayer.align m) x = Ok a /\
    CausalConv2d.forward (TemporalConvLayer.causal_conv m) x = Ok x_conv /\
    shape x_conv =
      [B; TemporalConvLayer.c_out m; T - (TemporalConvLayer.Kt m - 1); V] /\
    TemporalConvLayer.forward m x = Ok y /\
    shape y =
      [B; TemporalConvLayer.c_out m; T - (TemporalConvLayer.Kt m - 1); V] /\
    forall b c t v,
      b < B -> c < TemporalConvLayer.c_out m ->
      t < T - (TemporalConvLayer.Kt m - 1) -> v < V ->
      get y [b; c; t; v] =
        f (add (get x_conv [b; c; t; v])
               (get a [b; c; TemporalConvLayer.Kt m - 1 + t; v])).
Proof.
  intros Hwf Hx HK HT HV HC HI Hgt Hact.
  destruct (TemporalConvLayer_x_in m x B T V Hwf Hx HK HT HV HC)
    as (a & x_in & Ha & Hsa & Hxi & Hsxi & Hgxi).
  destruct (TemporalConvLayer_conv m x B T V Hwf Hx HK HT HV HC HI)
    as (cv & Hcv & Hscv & _).
  rewrite Hgt in Hscv.
  assert (Hsame : shape x_in = shape cv) by (rewrite Hsxi, Hscv; reflexivity).
  destruct (tzip_same add cv x_in Hsame) as (s & Hs & Hss & Hgs).
  rewrite Hscv in Hss, Hgs.
  exists a, cv, (tmap f s).
  assert (Hfw : TemporalConvLayer.forward m x = Ok (tmap f s)).
  { unfold TemporalConvLayer.forward. rewrite Ha. cbn [bind].
    rewrite Hxi. cbn [bind]. rewrite Hcv. cbn [bind]. rewrite Hgt, Hs.
    cbn [bind]. unfold TemporalConvLayer.plain_activation in Hact.
    destruct (String.eqb (TemporalConvLayer.act_func m) "relu");
      [congruence|].
    destruct (String.eqb (TemporalConvLayer.act_func m) "leaky_relu");
      [congruence|].
    destruct (String.eqb (TemporalConvLayer.act_func m) "silu");
      [congruence|discriminate]. }
  repeat split; try assumption.
  intros b c t v Hb Hc Ht Hv.
  rewrite get_tmap by (rewrite Hss; in_range_tac).
  rewrite Hgs by in_range_tac. rewrite Hgxi by assumption. reflexivity.
Qed.

End TemporalFacts.

(** ** CausalConv2d *)

Section CausalFacts.

Context {R : Type} {RS : Scalar R}.

Lemma CausalConv2d_unpadded (c_in c_out Kt Kw : nat) (use_bias : bool)
    (rnd : list nat -> R) (x : Tensor R) (B T V : nat) :
  shape x = [B; c_in; T; V] ->
  1 <= c_in -> 1 <= c_out -> 1 <= Kt -> Kt <= T -> 1 <= Kw -> Kw <= V ->
  let m := CausalConv2d.init c_in c_out (Kt, Kw) (1, 1) false (1, 1)
             use_bias rnd in
  CausalConv2d.forward m x = Conv2d.forward (CausalConv2d.conv m) x /\
  exists y, CausalConv2d.forward m x = Ok y /\
    shape y = [B; c_out; T - (Kt - 1); V - (Kw - 1)].
Proof.
  intros Hx Hi Hc HK HT HKw HV m. split; [reflexivity|].
  unfold CausalConv2d.forward. cbn [CausalConv2d.padding m CausalConv2d.init bind].
  destruct (Conv2d_forward_ok (CausalConv2d.conv m) x B T V)
    as (y & Hy & Hsy & _); simpl; try lia; try assumption.
  exists y. split; [exact Hy|]. simpl in Hsy.
  rewrite !out_len_unit in Hsy by lia. exact Hsy.
Qed.

(** The output extent of a stride-1 convolution over an input that was
    left-padded by [(k-1)*d]. *)
Lemma out_len_padded (n k d : nat) :
  1 <= k -> 1 <= n -> Conv2d.out_len ((k - 1) * d + n + 0) k 1 d = n.
Proof.
  intros Hk Hn. unfold Conv2d.out_len. rewrite Nat.div_1_r.
  assert (d * (k - 1) = (k - 1) * d) by lia. lia.
Qed.

Lemma CausalConv2d_padded (c_in c_out Kt Kw dt dw : nat) (use_bias : bool)
    (rnd : list nat -> R) (x : Tensor R) (B T V : nat) :
  shape x = [B; c_in; T; V] ->
  1 <= c_in -> 1 <= c_out -> 1 <= Kt -> 1 <= Kw -> 1 <= dt -> 1 <= dw ->
  1 <= T -> 1 <= V ->
  let m := CausalConv2d.init c_in c_out (Kt, Kw) (1, 1) true (dt, dw)
             use_bias rnd in
  exists xp y,
    pad ((Kw - 1) * dw) 0 ((Kt - 1) * dt) 0 x = Ok xp /\
    shape xp = [B; c_in; (Kt - 1) * dt + T + 0; (Kw - 1) * dw + V + 0] /\
    CausalConv2d.forward m x = Ok y /\
    shape y = [B; c_out; T; V] /\
    forall b o t v, b < B -> o < c_out -> t < T -> v < V ->
      get y [b; o; t; v] = Conv2d.elem (CausalConv2d.conv m) xp c_in b o t v.
Proof.
  intros Hx Hi Hc HK HKw Hdt Hdw HT HV m.
  destruct (pad_ok ((Kw - 1) * dw) 0 ((Kt - 1) * dt) 0 x B c_in T V Hx)
    as (xp & Hp & Hsp & _).
  exists xp.
  destruct (Conv2d_forward_ok (CausalConv2d.conv m) xp B
              ((Kt - 1) * dt + T + 0) ((Kw - 1) * dw + V + 0))
    as (y & Hy & Hsy & Hg); simpl; try lia; try assumption.
  simpl in Hsy, Hg. rewrite !out_len_padded in Hsy, Hg by lia.
  exists y. split; [exact Hp|]. split; [exact Hsp|].
  split.
  - unfold CausalConv2d.forward. simpl. rewrite Hp. exact Hy.
  - split; [exact Hsy|]. exact Hg.
Qed.

End CausalFacts.

(** ** Contractions and stacking *)

Section EinsumFacts.

Context {R : Type} {RS : Scalar R}.

Lemma einsum_hi_btij_ok (g x : Tensor R) (H N B T J : nat) :
  shape g = [H; N] -> shape x = [B; T; N; J] ->
  exists y, einsum_hi_btij g x = Ok y /\ shape y = [B; T; H; J] /\
    forall b t h j, b < B -> t < T -> h < H -> j < J ->
      get y [b; t; h; j] =
        sumn N (fun i => mul (get g [h; i]) (get x [b; t; i; j])).
Proof.
  intros Hg Hx. unfold einsum_hi_btij. rewrite Hg, Hx, bdim_refl.
  eexists. split; [reflexivity|]. split; [reflexivity|].
  intros. rewrite get_tab by in_range_tac.
  apply sumn_ext. intros i Hi. rewrite !bidx_lt by assumption. reflexivity.
Qed.

Lemma einsum_bthi_ij_ok (x w : Tensor R) (B T H N J : nat) :
  shape x = [B; T; H; N] -> shape w = [N; J] ->
  exists y, einsum_bthi_ij x w = Ok y /\ shape y = [B; T; H; J] /\
    forall b t h j, b < B -> t < T -> h < H -> j < J ->
      get y [b; t; h; j] =
        sumn N (fun i => mul (get x [b; t; h; i]) (get w [i; j])).
Proof.
  intros Hx Hw. unfold einsum_bthi_ij. rewrite Hx, Hw, bdim_refl.
  eexists. split; [reflexivity|]. split; [reflexivity|].
  intros. rewrite get_tab by in_range_tac.
  apply sumn_ext. intros i Hi. rewrite !bidx_lt by assumption. reflexivity.
Qed.

Lemma einsum_btkhi_kij_ok (x w : Tensor R) (B T K H N J : nat) :
  shape x = [B; T; K; H; N] -> shape w = [K; N; J] ->
  exists y, einsum_btkhi_kij x w = Ok y /\ shape y = [B; T; H; J] /\
    forall b t h j, b < B -> t < T -> h < H -> j < J ->
      get y [b; t; h; j] =
        sumn K (fun k => sumn N (fun i =>
          mul (get x [b; t; k; h; i]) (get w [k; i; j]))).
Proof.
  intros Hx Hw. unfold einsum_btkhi_kij. rewrite Hx, Hw, !bdim_refl.
  eexists. split; [reflexivity|]. split; [reflexivity|].
  intros. rewrite get_tab by in_range_tac.
  apply sumn_ext. intros k Hk. apply sumn_ext. intros i Hi.
  rewrite !bidx_lt by assumption. reflexivity.
Qed.

Lemma shape_eqb_refl (s : list nat) : shape_eqb s s = true.
Proof.
  induction s as [|a s IH]; simpl; [reflexivity|].
  rewrite Nat.eqb_refl, IH. reflexivity.
Qed.

Lemma stack2_ok (xs : list (Tensor R)) (B T H F : nat) :
  0 < length xs ->
  (forall k, k < length xs -> shape (nth k xs (zeros [])) = [B; T; H; F]) ->
  exists y, stack2 xs = Ok y /\ shape y = [B; T; length xs; H; F] /\
    forall b t k h i, b < B -> t < T -> k < length xs -> h < H -> i < F ->
      get y [b; t; k; h; i] = get (nth k xs (zeros [])) [b; t; h; i].
Proof.
  intros Hlen Hs. destruct xs as [|x0 rest]; [simpl in Hlen; lia|].
  assert (Hs0 : shape x0 = [B; T; H; F]) by (apply (Hs 0); simpl; lia).
  unfold stack2. rewrite Hs0.
  assert (Hall : forallb (fun y => shape_eqb (shape y) [B; T; H; F])
                   (x0 :: rest) = true).
  { apply forallb_forall. intros y Hy.
    destruct (In_nth _ _ (zeros []) Hy) as (k & Hk & Hnth).
    rewrite <- Hnth, (Hs k Hk). apply shape_eqb_refl. }
  rewrite Hall.
  eexists. split; [reflexivity|]. split; [reflexivity|].
  intros b t k h i Hb Ht Hk Hh Hi. rewrite get_tab by in_range_tac.
  rewrite (nth_indep _ x0 (zeros [])) by exact Hk. reflexivity.
Qed.

End EinsumFacts.

(** ** ChebGraphConv *)

Section ChebFacts.

Context {R : Type} {RS : Scalar R}.

Lemma cheb_step_ok (L x : Tensor R) (B T V C : nat) (l : list (Tensor R)) :
  shape L = [V; V] ->
  cheb_basis L x B T V C l -> 2 <= length l ->
  exists d, ChebGraphConv.cheb_step L (Ok l) (length l) = Ok (l ++ [d]) /\
    cheb_basis L x B T V C (l ++ [d]).
Proof.
  intros HL (Hsh & H0 & H1 & Hk) Hlen.
  set (k := length l) in *.
  assert (HsL : shape (tmap (mul (of_nat 2)) L) = [V; V])
    by (rewrite shape_tmap; exact HL).
  destruct (einsum_hi_btij_ok (tmap (mul (of_nat 2)) L)
              (nth (k - 1) l (zeros [])) V V B T C HsL
              (Hsh (k - 1) ltac:(lia)))
    as (e & He & Hse & Hge).
  assert (Hsame : shape (nth (k - 2) l (zeros [])) = shape e)
    by (rewrite Hse; apply Hsh; lia).
  destruct (tzip_same sub e (nth (k - 2) l (zeros [])) Hsame)
    as (d & Hd & Hsd & Hgd).
  rewrite Hse in Hsd, Hgd.
  exists d. split.
  { unfold ChebGraphConv.cheb_step. cbn [bind]. rewrite He. cbn [bind].
    rewrite Hd. reflexivity. }
  assert (Hold : forall j, j < k ->
            nth j (l ++ [d]) (zeros []) = nth j l (zeros [])).
  { intros j Hj. apply app_nth1. exact Hj. }
  assert (Hnew : nth k (l ++ [d]) (zeros []) = d).
  { rewrite app_nth2 by (unfold k; lia). unfold k.
    rewrite Nat.sub_diag. reflexivity. }
  assert (Hlen' : length (l ++ [d]) = S k)
    by (rewrite length_app; simpl; unfold k; lia).
  unfold cheb_basis. rewrite Hlen'. repeat split.
  - intros j Hj. destruct (Nat.eq_dec j k) as [-> | Hne].
    + rewrite Hnew. exact Hsd.
    + rewrite Hold by lia. apply Hsh. lia.
  - intros _. rewrite Hold by lia. apply H0. lia.
  - intros _ b t h i Hb Ht Hh Hi. rewrite Hold by lia.
    apply H1; try assumption; lia.
  - intros j Hj2 Hj b t h i Hb Ht Hh Hi.
    destruct (Nat.eq_dec j k) as [-> | Hne].
    + rewrite Hnew, !Hold by lia. rewrite Hgd by in_range_tac.
      rewrite Hge by assumption. f_equal.
      apply sumn_ext. intros n Hn.
      rewrite get_tmap by (rewrite HL; in_range_tac). reflexivity.
    + rewrite !Hold by lia. apply Hk; try assumption; lia.
Qed.

Lemma cheb_loop_ok (L x : Tensor R) (B T V C : nat) (n : nat) :
  shape L = [V; V] ->
  forall l, cheb_basis L x B T V C l -> 2 <= length l ->
  exists l',
    fold_left (ChebGraphConv.cheb_step L) (seq (length l) n) (Ok l) = Ok l' /\
    length l' = length l + n /\ cheb_basis L x B T V C l'.
Proof.
  intros HL. induction n as [|n IH]; intros l Hb Hlen.
  - exists l. simpl. split; [reflexivity|]. split; [lia | exact Hb].
  - destruct (cheb_step_ok L x B T V C l HL Hb Hlen) as (d & Hd & Hb').
    change (seq (length l) (S n)) with (length l :: seq (S (length l)) n).
    cbn [fold_left]. rewrite Hd.
    destruct (IH (l ++ [d]) Hb') as (l' & Hl' & Hlen' & Hb'').
    { rewrite length_app. simpl. lia. }
    rewrite length_app in Hl', Hlen'. simpl in Hl', Hlen'.
    replace (length l + 1) with (S (length l)) in Hl' by lia.
    exists l'. split; [exact Hl'|]. split; [lia | exact Hb''].
Qed.

(** The list built by [forward] is the Chebyshev basis of length [Ks]. *)
Lemma cheb_x_list_ok (m : ChebGraphConv.t R) (x : Tensor R) (B T V C : nat) :
  shape (ChebGraphConv.gso m) = [V; V] ->
  shape x = [B; T; V; C] ->
  1 <= ChebGraphConv.Ks m ->
  exists l, ChebGraphConv.x_list_of m x = Ok l /\
    length l = ChebGraphConv.Ks m /\
    cheb_basis (ChebGraphConv.gso m) x B T V C l.
Proof.
  intros HL Hx HK. unfold ChebGraphConv.x_list_of.
  set (L := ChebGraphConv.gso m) in *.
  set (K := ChebGraphConv.Ks m) in *.
  destruct (Z.ltb_spec (Z.of_nat K - 1) 0); [lia|].
  destruct (Z.eqb_spec (Z.of_nat K - 1) 0) as [E0 | E0].
  { exists [x]. split; [reflexivity|]. split; [simpl; lia|].
    unfold cheb_basis. simpl. repeat split.
    - intros k Hk. replace k with 0 by lia. exact Hx.
    - lia.
    - intros; lia. }
  destruct (einsum_hi_btij_ok L x V V B T C HL Hx) as (x1 & H1 & Hs1 & Hg1).
  assert (Hb2 : cheb_basis L x B T V C [x; x1]).
  { unfold cheb_basis. simpl. repeat split.
    - intros k Hk. destruct k as [|[|k]]; [exact Hx | exact Hs1 | lia].
    - intros _. exact Hg1.
    - intros; lia. }
  rewrite H1. cbn [bind].
  destruct (Z.eqb_spec (Z.of_nat K - 1) 1) as [E1 | E1].
  { exists [x; x1]. split; [reflexivity|]. split; [simpl; lia | exact Hb2]. }
  destruct (cheb_loop_ok L x B T V C (K - 2) HL [x; x1] Hb2 ltac:(simpl; lia))
    as (l & Hl & Hlen & Hb).
  simpl length in Hl, Hlen.
  exists l. split; [exact Hl|]. split; [lia | exact Hb].
Qed.

(** The whole forward pass of a Chebyshev convolution of order [Ks >= 1]. *)
Lemma ChebGraphConv_forward_ok (m : ChebGraphConv.t R) (x : Tensor R)
    (B T V : nat) :
  ChebGraphConv.well_formed m V ->
  shape x = [B; ChebGraphConv.c_in m; T; V] ->
  1 <= ChebGraphConv.Ks m ->
  exists x' l y,
    permute [0; 2; 3; 1] x = Ok x' /\
    shape x' = [B; T; V; ChebGraphConv.c_in m] /\
    (forall b t h i, b < B -> t < T -> h < V -> i < ChebGraphConv.c_in m ->
       get x' [b; t; h; i] = get x [b; i; t; h]) /\
    ChebGraphConv.x_list_of m x' = Ok l /\
    length l = ChebGraphConv.Ks m /\
    cheb_basis (ChebGraphConv.gso m) x' B T V (ChebGraphConv.c_in m) l /\
    ChebGraphConv.forward m x = Ok y /\
    shape y = [B; T; V; ChebGraphConv.c_out m] /\
    forall b t h j, b < B -> t < T -> h < V -> j < ChebGraphConv.c_out m ->
      get y [b; t; h; j] =
        let acc :=
          sumn (ChebGraphConv.Ks m) (fun k =>
            sumn (ChebGraphConv.c_in m) (fun i =>
              mul (get (nth k l (zeros [])) [b; t; h; i])
                  (get (ChebGraphConv.weight m) [k; i; j]))) in
        match ChebGraphConv.bias m with
        | Some bv => add acc (get bv [j])
        | None => acc
        end.
Proof.
  intros (HL & HW & Hbias) Hx HK.
  destruct (permute_0231 x B (ChebGraphConv.c_in m) T V Hx)
    as (x' & Hp & Hsx' & Hgx').
  destruct (cheb_x_list_ok m x' B T V (ChebGraphConv.c_in m) HL Hsx' HK)
    as (l & Hl & Hlen & Hb).
  destruct (stack2_ok l B T V (ChebGraphConv.c_in m)) as (xs & Hxs & Hsxs & Hgxs).
  { lia. }
  { apply Hb. }
  rewrite Hlen in Hsxs, Hgxs.
  destruct (einsum_btkhi_kij_ok xs (ChebGraphConv.weight m) B T
              (ChebGraphConv.Ks m) V (ChebGraphConv.c_in m)
              (ChebGraphConv.c_out m) Hsxs HW)
    as (cg & Hcg & Hscg & Hgcg).
  assert (Hacc : forall b t h j, b < B -> t < T -> h < V ->
            j < ChebGraphConv.c_out m ->
            get cg [b; t; h; j] =
              sumn (ChebGraphConv.Ks m) (fun k =>
                sumn (ChebGraphConv.c_in m) (fun i =>
                  mul (get (nth k l (zeros [])) [b; t; h; i])
                      (get (ChebGraphConv.weight m) [k; i; j])))).
  { intros b t h j Hb' Ht Hh Hj. rewrite Hgcg by assumption.
    apply sumn_ext. intros k Hk. apply sumn_ext. intros i Hi.
    rewrite Hgxs by assumption. reflexivity. }
  assert (Hfw : ChebGraphConv.forward m x =
                match ChebGraphConv.bias m with
                | Some b => tzip add cg b
                | None => Ok cg
                end).
  { unfold ChebGraphConv.forward. rewrite Hp. cbn [bind]. rewrite Hl.
    cbn [bind]. rewrite Hxs. cbn [bind]. rewrite Hcg. reflexivity. }
  exists x', l. rewrite Hfw.
  destruct (ChebGraphConv.bias m) as [bv|].
  - destruct (tzip_last add cg bv B T V (ChebGraphConv.c_out m) Hscg Hbias)
      as (y & Hy & Hsy & Hgy).
    exists y. repeat (split; [assumption|]).
    intros b t h j Hb' Ht Hh Hj. cbv zeta.
    rewrite Hgy, Hacc by assumption. reflexivity.
  - exists cg. repeat (split; [assumption || reflexivity|]). exact Hacc.
Qed.

(** With [Ks = 1] the operator is never read. *)
Lemma ChebGraphConv_K1_forward (c_in c_out : nat) (L W : Tensor R)
    (bias : option (Tensor R)) (x : Tensor R) :
  ChebGraphConv.forward (ChebGraphConv.mk c_in c_out 1 L W bias) x =
    (x' <- permute [0; 2; 3; 1] x ;;
     xs <- stack2 [x'] ;;
     cg <- einsum_btkhi_kij xs W ;;
     match bias with
     | Some b => tzip add cg b
     | None => Ok cg
     end).
Proof. reflexivity. Qed.

End ChebFacts.

(** ** Errors of the layers *)

Section ErrorFacts.

Context {R : Type} {RS : Scalar R}.

Lemma raises_bind (A B : Type) (m : result A) (k : A -> result B) :
  (forall a, m = Ok a -> raises (k a)) -> raises (bind m k).
Proof.
  intros Hk. destruct m as [a | e].
  - apply Hk. reflexivity.
  - exists e. reflexivity.
Qed.

Lemma raises_not_ok (A : Type) (m : result A) (a : A) :
  raises m -> m <> Ok a.
Proof. intros (e & He). rewrite He. discriminate. Qed.

(** A failing convolution makes the temporal layer fail. *)
Lemma TemporalConvLayer_forward_conv_raises (m : TemporalConvLayer.t R)
    (x : Tensor R) :
  raises (CausalConv2d.forward (TemporalConvLayer.causal_conv m) x) ->
  raises (TemporalConvLayer.forward m x).
Proof.
  intros (e & He). unfold TemporalConvLayer.forward.
  apply raises_bind. intros a _. apply raises_bind. intros x_in _.
  rewrite He. exists e. reflexivity.
Qed.

(** An activation name without a branch: [forward] never returns. *)
Lemma TemporalConvLayer_forward_unsupported (m : TemporalConvLayer.t R)
    (x : Tensor R) :
  TemporalConvLayer.supported (TemporalConvLayer.act_func m) = false ->
  raises (TemporalConvLayer.forward m x) /\
  forall a x_in x_conv,
    Align.forward (TemporalConvLayer.align m) x = Ok a ->
    slice_time (py_norm (Z.of_nat (TemporalConvLayer.Kt m) - 1) (dim a 2))
      (dim a 2) a = Ok x_in ->
    CausalConv2d.forward (TemporalConvLayer.causal_conv m) x = Ok x_conv ->
    TemporalConvLayer.forward m x = Raise NotImplementedError.
Proof.
  intros Hu. unfold TemporalConvLayer.supported in Hu.
  rewrite !orb_false_iff in Hu.
  destruct Hu as ((((Hglu & Hgtu) & Hrelu) & Hleaky) & Hsilu).
  assert (Hg : TemporalConvLayer.gated (TemporalConvLayer.act_func m) = false).
  { unfold TemporalConvLayer.gated. rewrite Hglu, Hgtu. reflexivity. }
  split.
  - unfold TemporalConvLayer.forward.
    apply raises_bind. intros a _. apply raises_bind. intros x_in _.
    apply raises_bind. intros x_conv _.
    rewrite Hg, Hrelu, Hleaky, Hsilu. exists NotImplementedError. reflexivity.
  - intros a x_in x_conv Ha Hxi Hcv. unfold TemporalConvLayer.forward.
    rewrite Ha. cbn [bind]. rewrite Hxi. cbn [bind]. rewrite Hcv. cbn [bind].
    rewrite Hg, Hrelu, Hleaky, Hsilu. reflexivity.
Qed.

(** A graph-convolution type without a branch: [forward] never returns. *)
Lemma GraphConvLayer_forward_unsupported (m : GraphConvLayer.t R)
    (x : Tensor R) :
  GraphConvLayer.supported (GraphConvLayer.graph_conv_type m) = false ->
  raises (GraphConvLayer.forward m x) /\
  forall a, Align.forward (GraphConvLayer.align m) x = Ok a ->
    GraphConvLayer.forward m x = Raise UnboundLocalError.
Proof.
  intros Hu. unfold GraphConvLayer.supported in Hu.
  rewrite orb_false_iff in Hu. destruct Hu as (Hc & Hg).
  split.
  - unfold GraphConvLayer.forward. apply raises_bind. intros a _.
    rewrite Hc, Hg. exists UnboundLocalError. reflexivity.
  - intros a Ha. unfold GraphConvLayer.forward. rewrite Ha. cbn [bind].
    rewrite Hc, Hg. reflexivity.
Qed.

(** The trial forward of the OutputBlock constructor fails when the
    incoming channel count is not 64 or the kernel exceeds 26. *)
Lemma OutputBlock_trial_raises (Ko last_block_channel c0 n_vertex : nat)
    (act : string) (rnd : list nat -> R) (m : TemporalConvLayer.t R) :
  TemporalConvLayer.init Ko last_block_channel c0 n_vertex act rnd = Ok m ->
  last_block_channel <> 64 \/ 26 < Ko ->
  raises (TemporalConvLayer.forward m (zeros [1; 64; 26; 4])).
Proof.
  intros Hm Hbad. unfold TemporalConvLayer.init in Hm.
  injection Hm as <-.
  apply TemporalConvLayer_forward_conv_raises. cbn [TemporalConvLayer.causal_conv].
  exists RuntimeError.
  destruct (TemporalConvLayer.gated act);
    unfold CausalConv2d.forward; cbn [CausalConv2d.padding CausalConv2d.init bind];
    (destruct Hbad as [Hc | Hk];
     [ apply Conv2d_forward_channel_mismatch with (B := 1) (C := 64) (H := 26) (W := 4);
       [reflexivity | simpl; lia]
     | apply Conv2d_forward_kernel_too_large with (B := 1) (C := 64) (H := 26) (W := 4);
       [reflexivity | simpl; lia] ]).
Qed.

Lemma OutputBlock_init_raises (Ko last_block_channel : nat)
    (channels : list nat) (end_channel n_vertex : nat) (act : string)
    (use_bias : bool) (eps : R) (rnd : list nat -> R) :
  last_block_channel <> 64 \/ 26 < Ko ->
  raises (OutputBlock.init Ko last_block_channel channels end_channel
            n_vertex act use_bias eps rnd).
Proof.
  intros Hbad. unfold OutputBlock.init.
  apply raises_bind. intros c0 _. apply raises_bind. intros t1 Ht1.
  apply raises_bind. intros z Hz. exfalso.
  apply (raises_not_ok _ _ z
           (OutputBlock_trial_raises Ko last_block_channel c0 n_vertex act rnd
              t1 Ht1 Hbad)).
  exact Hz.
Qed.

(** A constructed OutputBlock has passed its trial forward. *)
Lemma OutputBlock_init_trial (Ko last_block_channel : nat)
    (channels : list nat) (end_channel n_vertex : nat) (act : string)
    (use_bias : bool) (eps : R) (rnd : list nat -> R) (m : OutputBlock.t R) :
  OutputBlock.init Ko last_block_channel channels end_channel n_vertex act
    use_bias eps rnd = Ok m ->
  exists z,
    TemporalConvLayer.forward (OutputBlock.tmp_conv1 m) (zeros [1; 64; 26; 4])
      = Ok z.
Proof.
  unfold OutputBlock.init. intros H.
  destruct (STConvBlock.channel channels 0) as [c0|]; [|discriminate].
  cbn [bind] in H.
  destruct (TemporalConvLayer.init Ko last_block_channel c0 n_vertex act rnd)
    as [t1|]; [|discriminate].
  cbn [bind] in H.
  destruct (TemporalConvLayer.forward t1 (zeros [1; 64; 26; 4])) as [z|] eqn:Hz;
    [|discriminate].
  cbn [bind] in H.
  destruct (STConvBlock.channel channels 1) as [c1|]; [|discriminate].
  cbn [bind] in H. injection H as <-. cbn [OutputBlock.tmp_conv1].
  exists z. exact Hz.
Qed.

End ErrorFacts.

(** ** GraphConv and GraphConvLayer *)

Section GraphFacts.

Context {R : Type} {RS : Scalar R}.

Lemma GraphConv_forward_ok (m : GraphConv.t R) (x : Tensor R) (B T V : nat) :
  GraphConv.well_formed m V ->
  shape x = [B; GraphConv.c_in m; T; V] ->
  exists y, GraphConv.forward m x = Ok y /\
    shape y = [B; T; V; GraphConv.c_out m] /\
    forall b t h j, b < B -> t < T -> h < V -> j < GraphConv.c_out m ->
      get y [b; t; h; j] =
        let acc :=
          sumn (GraphConv.c_in m) (fun i =>
            mul (sumn V (fun n =>
                   mul (get (GraphConv.gso m) [h; n]) (get x [b; i; t; n])))
                (get (GraphConv.weight m) [i; j])) in
        match GraphConv.bias m with
        | Some bv => add acc (get bv [j])
        | None => acc
        end.
Proof.
  intros (HL & HW & Hbias) Hx.
  destruct (permute_0231 x B (GraphConv.c_in m) T V Hx)
    as (x' & Hp & Hsx' & Hgx').
  destruct (einsum_hi_btij_ok (GraphConv.gso m) x' V V B T (GraphConv.c_in m)
              HL Hsx') as (f1 & Hf1 & Hsf1 & Hgf1).
  destruct (einsum_bthi_ij_ok f1 (GraphConv.weight m) B T V (GraphConv.c_in m)
              (GraphConv.c_out m) Hsf1 HW) as (f2 & Hf2 & Hsf2 & Hgf2).
  assert (Hacc : forall b t h j, b < B -> t < T -> h < V ->
            j < GraphConv.c_out m ->
            get f2 [b; t; h; j] =
              sumn (GraphConv.c_in m) (fun i =>
                mul (sumn V (fun n =>
                       mul (get (GraphConv.gso m) [h; n])
                           (get x [b; i; t; n])))
                    (get (GraphConv.weight m) [i; j]))).
  { intros b t h j Hb Ht Hh Hj. rewrite Hgf2 by assumption.
    apply sumn_ext. intros i Hi. rewrite Hgf1 by assumption. f_equal.
    apply sumn_ext. intros n Hn. rewrite Hgx' by assumption. reflexivity. }
  assert (Hfw : GraphConv.forward m x =
                match GraphConv.bias m with
                | Some b => tzip add f2 b
                | None => Ok f2
                end).
  { unfold GraphConv.forward. rewrite Hp. cbn [bind]. rewrite Hf1.
    cbn [bind]. rewrite Hf2. reflexivity. }
  rewrite Hfw. destruct (GraphConv.bias m) as [bv|].
  - destruct (tzip_last add f2 bv B T V (GraphConv.c_out m) Hsf2 Hbias)
      as (y & Hy & Hsy & Hgy).
    exists y. split; [exact Hy|]. split; [exact Hsy|].
    intros b t h j Hb Ht Hh Hj. cbv zeta.
    rewrite Hgy, Hacc by assumption. reflexivity.
  - exists f2. split; [reflexivity|]. split; [exact Hsf2|]. exact Hacc.
Qed.

(** The residual wiring: the convolution result [x_gc] (channels last) is
    permuted back and added to the aligned input. *)
Lemma GraphConvLayer_residual (m : GraphConvLayer.t R) (x a x_gc : Tensor R)
    (B T V : nat) :
  Align.forward (GraphConvLayer.align m) x = Ok a ->
  shape a = [B; GraphConvLayer.c_out m; T; V] ->
  (if String.eqb (GraphConvLayer.graph_conv_type m) "cheb_graph_conv" then
     match GraphConvLayer.cheb_graph_conv m with
     | Some g => ChebGraphConv.forward g a
     | None => Raise AttributeError
     end
   else if String.eqb (GraphConvLayer.graph_conv_type m) "graph_conv" then
     match GraphConvLayer.graph_conv m with
     | Some g => GraphConv.forward g a
     | None => Raise AttributeError
     end
   else Raise UnboundLocalError) = Ok x_gc ->
  shape x_gc = [B; T; V; GraphConvLayer.c_out m] ->
  exists y, GraphConvLayer.forward m x = Ok y /\
    shape y = [B; GraphConvLayer.c_out m; T; V] /\
    forall b c t v, b < B -> c < GraphConvLayer.c_out m -> t < T -> v < V ->
      get y [b; c; t; v] = add (get x_gc [b; t; v; c]) (get a [b; c; t; v]).
Proof.
  intros Ha Hsa Hgc Hsgc.
  destruct (permute_0312 x_gc B T V (GraphConvLayer.c_out m) Hsgc)
    as (p & Hp & Hsp & Hgp).
  assert (Hsame : shape a = shape p) by (rewrite Hsa, Hsp; reflexivity).
  destruct (tzip_same add p a Hsame) as (y & Hy & Hsy & Hgy).
  rewrite Hsp in Hsy, Hgy.
  exists y. split.
  { unfold GraphConvLayer.forward. rewrite Ha. cbn [bind]. rewrite Hgc.
    cbn [bind]. rewrite Hp. cbn [bind]. exact Hy. }
  split; [exact Hsy|].
  intros b c t v Hb Hc Ht Hv. rewrite Hgy by in_range_tac.
  rewrite Hgp by assumption. reflexivity.
Qed.

End GraphFacts.

(** ** The all-zero graph operator *)

Section ZeroOperatorFacts.

Context {R : Type} {RS : Scalar R} {RL : ScalarLaws R}.

(** Chebyshev convolution of order 2 with an all-zero operator: the
    order-1 term vanishes and the order-0 term [x.W[0]] remains. *)
Lemma ChebGraphConv_zero_operator (g : ChebGraphConv.t R) (a : Tensor R)
    (B T V : nat) :
  ChebGraphConv.well_formed g V ->
  ChebGraphConv.gso g = zeros [V; V] ->
  ChebGraphConv.Ks g = 2 ->
  shape a = [B; ChebGraphConv.c_in g; T; V] ->
  exists y, ChebGraphConv.forward g a = Ok y /\
    shape y = [B; T; V; ChebGraphConv.c_out g] /\
    forall b t h j, b < B -> t < T -> h < V -> j < ChebGraphConv.c_out g ->
      get y [b; t; h; j] =
        let acc :=
          sumn (ChebGraphConv.c_in g) (fun i =>
            mul (get a [b; i; t; h]) (get (ChebGraphConv.weight g) [0; i; j])) in
        match ChebGraphConv.bias g with
        | Some bv => add acc (get bv [j])
        | None => acc
        end.
Proof.
  intros Hwf Hz HK Ha.
  destruct (ChebGraphConv_forward_ok g a B T V Hwf Ha ltac:(lia))
    as (x' & l & y & _ & _ & Hgx' & _ & Hlen & Hb & Hy & Hsy & Hgy).
  exists y. split; [exact Hy|]. split; [exact Hsy|].
  intros b t h j Hb' Ht Hh Hj. rewrite Hgy by assumption. cbv zeta.
  destruct Hb as (_ & H0 & H1 & _).
  assert (Hacc :
    sumn (ChebGraphConv.Ks g) (fun k =>
      sumn (ChebGraphConv.c_in g) (fun i =>
        mul (get (nth k l (zeros [])) [b; t; h; i])
            (get (ChebGraphConv.weight g) [k; i; j]))) =
    sumn (ChebGraphConv.c_in g) (fun i =>
      mul (get a [b; i; t; h]) (get (ChebGraphConv.weight g) [0; i; j]))).
  { rewrite HK, !sumn_S, sumn_0, add_zero_l.
    rewrite (sumn_zero (ChebGraphConv.c_in g)
               (fun i => mul (get (nth 1 l (zeros [])) [b; t; h; i])
                             (get (ChebGraphConv.weight g) [1; i; j]))).
    - rewrite add_zero_r. apply sumn_ext. intros i Hi.
      rewrite H0 by lia. rewrite Hgx' by assumption. reflexivity.
    - intros i Hi. rewrite H1 by (try assumption; lia).
      rewrite sumn_zero; [apply mul_zero_l|].
      intros n Hn. rewrite Hz. unfold zeros.
      rewrite get_tab by in_range_tac. apply mul_zero_l. }
  rewrite Hacc. reflexivity.
Qed.

(** First-order convolution with an all-zero operator: only the bias is
    left. *)
Lemma GraphConv_zero_operator (g : GraphConv.t R) (a : Tensor R)
    (B T V : nat) :
  GraphConv.well_formed g V ->
  GraphConv.gso g = zeros [V; V] ->
  shape a = [B; GraphConv.c_in g; T; V] ->
  exists y, GraphConv.forward g a = Ok y /\
    shape y = [B; T; V; GraphConv.c_out g] /\
    forall b t h j, b < B -> t < T -> h < V -> j < GraphConv.c_out g ->
      get y [b; t; h; j] =
        match GraphConv.bias g with
        | Some bv => get bv [j]
        | None => zero
        end.
Proof.
  intros Hwf Hz Ha.
  destruct (GraphConv_forward_ok g a B T V Hwf Ha) as (y & Hy & Hsy & Hgy).
  exists y. split; [exact Hy|]. split; [exact Hsy|].
  intros b t h j Hb Ht Hh Hj. rewrite Hgy by assumption. cbv zeta.
  rewrite sumn_zero.
  - destruct (GraphConv.bias g); [apply add_zero_l | reflexivity].
  - intros i Hi. rewrite sumn_zero; [apply mul_zero_l|].
    intros n Hn. rewrite Hz. unfold zeros.
    rewrite get_tab by in_range_tac. apply mul_zero_l.
Qed.

End ZeroOperatorFacts.

(** ** The tokens of the attention fusion *)

Section TokenFacts.

Context {R : Type} {RS : Scalar R}.

(** [reshape] keeps the row-major position of every element. *)
Lemma attn_tokens_position (concat : Tensor R) (B C T V : nat) :
  shape concat = [B; C; T; V] ->
  exists tok, STConvBlock.attn_tokens concat = Ok tok /\
    shape tok = [B; V; C * T] /\
    forall b c t v, b < B -> c < C -> t < T -> v < V ->
      let q := (c * T + t) * V + v in
      get tok [b; q / (C * T); q mod (C * T)] = get concat [b; c; t; v].
Proof.
  intros Hs. unfold STConvBlock.attn_tokens, reshape. rewrite Hs.
  assert (Hn : numel [B; V; C * T] = numel [B; C; T; V]) by (simpl; lia).
  rewrite Hn, Nat.eqb_refl.
  eexists. split; [reflexivity|]. split; [reflexivity|].
  intros b c t v Hb Hc Ht Hv. cbv zeta.
  set (q := (c * T + t) * V + v).
  assert (HCT : 0 < C * T) by nia.
  assert (Hct : c * T + t < C * T) by nia.
  assert (Hq : q < V * (C * T)) by (unfold q; nia).
  assert (Hdiv : q / (C * T) < V)
    by (apply Nat.Div0.div_lt_upper_bound; lia).
  assert (Hmod : q mod (C * T) < C * T) by (apply Nat.mod_upper_bound; lia).
  rewrite get_tab by in_range_tac.
  unfold get. rewrite Hs. f_equal. simpl.
  pose proof (Nat.div_mod_eq q (C * T)) as Hdm. unfold q in *. nia.
Qed.

End TokenFacts.

(** ** Shapes through the blocks *)

Section ShapeFacts.

Context {R : Type} {RS : Scalar R}.

Lemma Linear_forward_shape (m : Linear.t R) (x : Tensor R) (B T V : nat) :
  shape x = [B; T; V; Linear.in_features m] ->
  exists y, Linear.forward m x = Ok y /\
    shape y = [B; T; V; Linear.out_features m].
Proof.
  intros Hx. unfold Linear.forward. rewrite Hx. cbn [rev app].
  rewrite Nat.eqb_refl. eexists. split; reflexivity.
Qed.

Lemma LayerNorm_forward_shape (m : LayerNorm.t R) (x : Tensor R)
    (B T V C : nat) :
  shape x = [B; T; V; C] -> LayerNorm.normalized_shape m = [V; C] ->
  exists y, LayerNorm.forward m x = Ok y /\ shape y = [B; T; V; C].
Proof.
  intros Hx Hn. unfold LayerNorm.forward. rewrite Hx, Hn. simpl.
  rewrite !Nat.eqb_refl. simpl. eexists. split; reflexivity.
Qed.

Lemma supported_cases (act : string) :
  TemporalConvLayer.supported act = true ->
  TemporalConvLayer.gated act = true \/
  (TemporalConvLayer.gated act = false /\
   exists f, TemporalConvLayer.plain_activation act = Some f).
Proof.
  unfold TemporalConvLayer.supported, TemporalConvLayer.gated,
    TemporalConvLayer.plain_activation.
  destruct (String.eqb act "glu"); [left; reflexivity|].
  destruct (String.eqb act "gtu"); [left; reflexivity|].
  simpl. intros H. right. split; [reflexivity|].
  destruct (String.eqb act "relu"); [eexists; reflexivity|].
  destruct (String.eqb act "leaky_relu"); [eexists; reflexivity|].
  destruct (String.eqb act "silu"); [eexists; reflexivity | discriminate].
Qed.

(** A temporal layer shortens the time axis by [Kt - 1]. *)
Lemma TemporalConvLayer_forward_shape (m : TemporalConvLayer.t R)
    (x : Tensor R) (B T V : nat) :
  TemporalConvLayer.well_formed m ->
  TemporalConvLayer.supported (TemporalConvLayer.act_func m) = true ->
  shape x = [B; TemporalConvLayer.c_in m; T; V] ->
  1 <= TemporalConvLayer.Kt m -> TemporalConvLayer.Kt m <= T ->
  1 <= V -> 1 <= TemporalConvLayer.c_out m ->
  1 <= TemporalConvLayer.c_in m ->
  exists y, TemporalConvLayer.forward m x = Ok y /\
    shape y =
      [B; TemporalConvLayer.c_out m; T - (TemporalConvLayer.Kt m - 1); V].
Proof.
  intros Hwf Hsup Hx HK HT HV HC HI.
  destruct (supported_cases _ Hsup) as [Hg | (Hg & f & Hf)].
  - destruct (TemporalConvLayer_forward_gated m x B T V Hwf Hx HK HT HV HC HI Hg)
      as (_ & _ & y & _ & _ & _ & Hy & Hsy & _).
    exists y. split; assumption.
  - destruct (TemporalConvLayer_forward_plain m x B T V f Hwf Hx HK HT HV HC
                HI Hg Hf)
      as (_ & _ & y & _ & _ & _ & Hy & Hsy & _).
    exists y. split; assumption.
Qed.

(** A graph-convolution layer keeps the time and vertex extents. *)
Lemma GraphConvLayer_forward_shape (m : GraphConvLayer.t R) (x : Tensor R)
    (B T V : nat) :
  GraphConvLayer.well_formed m V ->
  GraphConvLayer.supported (GraphConvLayer.graph_conv_type m) = true ->
  1 <= GraphConvLayer.Ks m ->
  shape x = [B; GraphConvLayer.c_in m; T; V] ->
  1 <= GraphConvLayer.c_out m -> 1 <= T -> 1 <= V ->
  exists y, GraphConvLayer.forward m x = Ok y /\
    shape y = [B; GraphConvLayer.c_out m; T; V].
Proof.
  intros (Hwa & Hai & Hao & Hcheb & Hgc) Hsup HK Hx Hc HT HV.
  destruct (Align_forward_shape (GraphConvLayer.align m) x B T V Hwa)
    as (a & Ha & Hsa); rewrite ?Hai, ?Hao; try assumption.
  rewrite Hao in Hsa.
  unfold GraphConvLayer.supported in Hsup.
  destruct (String.eqb (GraphConvLayer.graph_conv_type m) "cheb_graph_conv")
    eqn:Htype.
  - destruct (Hcheb eq_refl) as (g & Hg & Hwg & Hgi & Hgo & HgK & _).
    destruct (ChebGraphConv_forward_ok g a B T V Hwg
                ltac:(rewrite Hgi; exact Hsa) ltac:(rewrite HgK; exact HK))
      as (_ & _ & yc & _ & _ & _ & _ & _ & _ & Hyc & Hsyc & _).
    rewrite Hgo in Hsyc.
    destruct (GraphConvLayer_residual m x a yc B T V Ha Hsa)
      as (y & Hy & Hsy & _).
    { rewrite Htype, Hg. exact Hyc. }
    { exact Hsyc. }
    exists y. split; assumption.
  - simpl in Hsup.
    destruct (Hgc eq_refl Hsup) as (g & Hg & Hwg & Hgi & Hgo & _).
    destruct (GraphConv_forward_ok g a B T V Hwg ltac:(rewrite Hgi; exact Hsa))
      as (yc & Hyc & Hsyc & _).
    rewrite Hgo in Hsyc.
    destruct (GraphConvLayer_residual m x a yc B T V Ha Hsa)
      as (y & Hy & Hsy & _).
    { rewrite Htype, Hsup, Hg. exact Hyc. }
    { exact Hsyc. }
    exists y. split; assumption.
Qed.

(** A block without attention fusion shortens the time axis by
    [2 * (Kt - 1)] (inference mode). *)
Lemma STConvBlock_forward_shape (m : STConvBlock.t R) (x : Tensor R)
    (B T V : nat) :
  STConvBlock.well_formed_plain m V ->
  let t1 := STConvBlock.tmp_conv1 m in
  let g := STConvBlock.graph_conv m in
  let t2 := STConvBlock.tmp_conv2 m in
  let Kt := TemporalConvLayer.Kt t1 in
  TemporalConvLayer.supported (TemporalConvLayer.act_func t1) = true ->
  TemporalConvLayer.supported (TemporalConvLayer.act_func t2) = true ->
  GraphConvLayer.supported (GraphConvLayer.graph_conv_type g) = true ->
  1 <= GraphConvLayer.Ks g ->
  shape x = [B; TemporalConvLayer.c_in t1; T; V] ->
  1 <= Kt -> 2 * (Kt - 1) + 1 <= T -> 1 <= V ->
  1 <= TemporalConvLayer.c_out t1 -> 1 <= GraphConvLayer.c_out g ->
  1 <= TemporalConvLayer.c_out t2 ->
  1 <= TemporalConvLayer.c_in t1 ->
  exists y, STConvBlock.forward m None x = Ok y /\
    shape y = [B; TemporalConvLayer.c_out t2; T - 2 * (Kt - 1); V].
Proof.
  intros (Hna & Hw1 & Hwg & Hw2 & Hc01 & Hc12 & HK2 & Hln) t1 g t2 Kt
    Hs1 Hs2 Hsg HKs Hx HK HT HV H0 H1 H2 H3.
  subst t1 g t2 Kt.
  set (t1 := STConvBlock.tmp_conv1 m) in *.
  set (g := STConvBlock.graph_conv m) in *.
  set (t2 := STConvBlock.tmp_conv2 m) in *.
  set (Kt := TemporalConvLayer.Kt t1) in *.
  destruct (TemporalConvLayer_forward_shape t1 x B T V Hw1 Hs1 Hx)
    as (tmp1 & Htmp1 & Hstmp1); try assumption; try (fold Kt; lia).
  fold Kt in Hstmp1. rewrite <- Hc01 in Hstmp1.
  destruct (GraphConvLayer_forward_shape g tmp1 B (T - (Kt - 1)) V Hwg Hsg HKs
              Hstmp1) as (graph1 & Hgraph1 & Hsgraph1); try assumption; try lia.
  assert (Hsrelu : shape (tmap relu graph1)
                   = [B; TemporalConvLayer.c_in t2; T - (Kt - 1); V])
    by (rewrite shape_tmap, Hsgraph1, Hc12; reflexivity).
  destruct (TemporalConvLayer_forward_shape t2 (tmap relu graph1) B
              (T - (Kt - 1)) V Hw2 Hs2 Hsrelu)
    as (x2 & Hx2 & Hsx2); try assumption; try (rewrite HK2; fold Kt; lia);
    try (rewrite Hc12; assumption).
  rewrite HK2 in Hsx2. fold Kt in Hsx2.
  replace (T - (Kt - 1) - (Kt - 1)) with (T - 2 * (Kt - 1)) in Hsx2 by lia.
  destruct (permute_0231 x2 B (TemporalConvLayer.c_out t2)
              (T - 2 * (Kt - 1)) V Hsx2) as (xp & Hxp & Hsxp & _).
  destruct (LayerNorm_forward_shape (STConvBlock.tc2_ln m) xp B
              (T - 2 * (Kt - 1)) V (TemporalConvLayer.c_out t2) Hsxp Hln)
    as (xn & Hxn & Hsxn).
  destruct (permute_0312 xn B (T - 2 * (Kt - 1)) V
              (TemporalConvLayer.c_out t2) Hsxn) as (y & Hy & Hsy & _).
  exists y. split; [|exact Hsy].
  unfold STConvBlock.forward. fold t1 g t2. rewrite Htmp1. cbn [bind].
  rewrite Hgraph1. cbn [bind]. rewrite Hx2. cbn [bind]. rewrite Hna.
  cbn [bind]. rewrite Hxp. cbn [bind]. rewrite Hxn. cbn [bind]. rewrite Hy.
  reflexivity.
Qed.

(** The output block on an input of exactly [Ko] time steps returns one
    time step. *)
Lemma OutputBlock_forward_shape (m : OutputBlock.t R) (x : Tensor R)
    (B V : nat) :
  OutputBlock.well_formed m V ->
  let t1 := OutputBlock.tmp_conv1 m in
  let Ko := TemporalConvLayer.Kt t1 in
  TemporalConvLayer.supported (TemporalConvLayer.act_func t1) = true ->
  shape x = [B; TemporalConvLayer.c_in t1; Ko; V] ->
  1 <= Ko -> 1 <= V -> 1 <= TemporalConvLayer.c_out t1 ->
  1 <= TemporalConvLayer.c_in t1 ->
  exists y, OutputBlock.forward m x = Ok y /\
    shape y = [B; Linear.out_features (OutputBlock.fc2 m); 1; V].
Proof.
  intros (Hw1 & Hln & Hf1 & Hf2) t1 Ko Hs1 Hx HK HV HC HI.
  subst t1 Ko.
  set (t1 := OutputBlock.tmp_conv1 m) in *.
  set (Ko := TemporalConvLayer.Kt t1) in *.
  destruct (TemporalConvLayer_forward_shape t1 x B Ko V Hw1 Hs1 Hx)
    as (x1 & Hx1 & Hsx1); try assumption; try (fold Ko; lia).
  fold Ko in Hsx1. replace (Ko - (Ko - 1)) with 1 in Hsx1 by lia.
  destruct (permute_0231 x1 B (TemporalConvLayer.c_out t1) 1 V Hsx1)
    as (xp & Hxp & Hsxp & _).
  destruct (LayerNorm_forward_shape (OutputBlock.tc1_ln m) xp B 1 V
              (TemporalConvLayer.c_out t1) Hsxp Hln) as (xn & Hxn & Hsxn).
  rewrite <- Hf1 in Hsxn.
  destruct (Linear_forward_shape (OutputBlock.fc1 m) xn B 1 V Hsxn)
    as (h & Hh & Hsh).
  assert (Hsr : shape (tmap relu h)
                = [B; 1; V; Linear.in_features (OutputBlock.fc2 m)])
    by (rewrite shape_tmap, Hsh, Hf2; reflexivity).
  destruct (Linear_forward_shape (OutputBlock.fc2 m) (tmap relu h) B 1 V Hsr)
    as (o & Ho & Hso).
  destruct (permute_0312 o B 1 V (Linear.out_features (OutputBlock.fc2 m)) Hso)
    as (y & Hy & Hsy & _).
  exists y. split; [|exact Hsy].
  unfold OutputBlock.forward. fold t1. rewrite Hx1. cbn [bind].
  rewrite Hxp. cbn [bind]. rewrite Hxn. cbn [bind]. rewrite Hh. cbn [bind].
  rewrite Ho. cbn [bind]. exact Hy.
Qed.

Lemma Conv2d_forward_batched_degenerate (m : Conv2d.t R) (x : Tensor R) :
  Conv2d.out_channels m = 0 \/ fst (Conv2d.kernel_size m) = 0 ->
  raises (Conv2d.forward_batched m x).
Proof.
  intros Hd. unfold Conv2d.forward_batched.
  destruct (shape x) as [|B [|C [|H [|W [|n s]]]]];
    try (exists RuntimeError; reflexivity).
  destruct (negb (C =? Conv2d.in_channels m));
    [exists RuntimeError; reflexivity|].
  assert (Hc : ((Conv2d.out_channels m =? 0)
                || (fst (Conv2d.kernel_size m) =? 0))%bool = true).
  { destruct Hd as [-> | ->]; [reflexivity | apply orb_true_r]. }
  rewrite Hc. exists RuntimeError. reflexivity.
Qed.

Lemma Conv2d_forward_degenerate (m : Conv2d.t R) (x : Tensor R) :
  Conv2d.out_channels m = 0 \/ fst (Conv2d.kernel_size m) = 0 ->
  raises (Conv2d.forward m x).
Proof.
  intros Hd. unfold Conv2d.forward.
  destruct (shape x) as [|B [|C [|H [|W s]]]];
    try (apply Conv2d_forward_batched_degenerate; exact Hd).
  apply raises_bind. intros y Hy. exfalso.
  apply (raises_not_ok _ _ y
           (Conv2d_forward_batched_degenerate m (unsqueeze0 x) Hd)).
  exact Hy.
Qed.

(** Whenever the output block can be constructed, its forward pass on an
    input of [Ko] time steps returns exactly one time step and
    [end_channel] channels. *)
Lemma OutputBlock_init_forward (Ko last_block_channel : nat)
    (channels : list nat) (end_channel V : nat) (act : string)
    (use_bias : bool) (eps : R) (rnd : list nat -> R) (m : OutputBlock.t R)
    (x : Tensor R) (B : nat) :
  OutputBlock.init Ko last_block_channel channels end_channel V act use_bias
    eps rnd = Ok m ->
  shape x = [B; last_block_channel; Ko; V] -> 1 <= V ->
  exists y, OutputBlock.forward m x = Ok y /\
    shape y = [B; end_channel; 1; V].
Proof.
  intros Hinit Hx HV. unfold OutputBlock.init in Hinit.
  destruct (STConvBlock.channel channels 0) as [c0|]; [|discriminate].
  cbn [bind] in Hinit.
  destruct (TemporalConvLayer_init_well_formed Ko last_block_channel c0 V act
              rnd) as (t1 & Ht1 & Hwf & HKt & Hci & Hco & Hact).
  rewrite Ht1 in Hinit. cbn [bind] in Hinit.
  destruct (TemporalConvLayer.forward t1 (zeros [1; 64; 26; 4])) as [z|] eqn:Hz;
    [|discriminate].
  cbn [bind] in Hinit.
  destruct (STConvBlock.channel channels 1) as [c1|]; [|discriminate].
  cbn [bind] in Hinit. injection Hinit as <-.
  assert (Hsup : TemporalConvLayer.supported (TemporalConvLayer.act_func t1)
                 = true).
  { destruct (TemporalConvLayer.supported (TemporalConvLayer.act_func t1))
      eqn:E; [reflexivity|].
    destruct (TemporalConvLayer_forward_unsupported t1 (zeros [1; 64; 26; 4]) E)
      as ((e & He) & _).
    rewrite He in Hz. discriminate. }
  assert (H64 : last_block_channel = 64).
  { destruct (Nat.eq_dec last_block_channel 64) as [E | E]; [exact E|].
    exfalso.
    destruct (OutputBlock_trial_raises Ko last_block_channel c0 V act rnd t1
                Ht1 (or_introl E)) as (e & He).
    rewrite He in Hz. discriminate. }
  assert (Hnd : 1 <= Ko /\ 1 <= c0).
  { destruct Hwf as (_ & _ & _ & Hp & _ & Ho & Hk & _).
    destruct (Nat.eq_dec Ko 0) as [HK0 | HK0];
      [|destruct (Nat.eq_dec c0 0) as [Hc0 | Hc0]; [|lia]]; exfalso.
    - destruct (TemporalConvLayer_forward_conv_raises t1 (zeros [1; 64; 26; 4]))
        as (e & He); [|rewrite He in Hz; discriminate].
      unfold CausalConv2d.forward. rewrite Hp. cbn [bind].
      apply Conv2d_forward_degenerate. right. rewrite Hk, HKt. exact HK0.
    - destruct (TemporalConvLayer_forward_conv_raises t1 (zeros [1; 64; 26; 4]))
        as (e & He); [|rewrite He in Hz; discriminate].
      unfold CausalConv2d.forward. rewrite Hp. cbn [bind].
      apply Conv2d_forward_degenerate. left. rewrite Ho, Hco, Hc0.
      destruct (TemporalConvLayer.gated _); reflexivity. }
  destruct Hnd as (HK1 & Hc1).
  match goal with |- exists y, OutputBlock.forward ?blk x = Ok y /\ _ =>
    destruct (OutputBlock_forward_shape blk x B V) as (y & Hy & Hsy)
  end.
  - unfold OutputBlock.well_formed. split; [exact Hwf|].
    cbn. rewrite Hco. repeat split.
  - exact Hsup.
  - cbn [OutputBlock.tmp_conv1]. rewrite Hci, HKt. exact Hx.
  - cbn [OutputBlock.tmp_conv1]. rewrite HKt. exact HK1.
  - exact HV.
  - cbn [OutputBlock.tmp_conv1]. rewrite Hco. exact Hc1.
  - cbn [OutputBlock.tmp_conv1]. rewrite Hci, H64. lia.
  - exists y. split; [exact Hy|]. exact Hsy.
Qed.

End ShapeFacts.

(** ** The constructors establish well-formedness *)

Section InitFacts.

Context {R : Type} {RS : Scalar R}.

Lemma GraphConvLayer_init_well_formed (type : string) (c_in c_out Ks V : nat)
    (gso : Tensor R) (use_bias : bool) (rnd : list nat -> R) :
  shape gso = [V; V] ->
  exists m, GraphConvLayer.init type c_in c_out Ks gso use_bias rnd = Ok m /\
    GraphConvLayer.well_formed m V /\
    GraphConvLayer.graph_conv_type m = type /\
    GraphConvLayer.c_in m = c_in /\ GraphConvLayer.c_out m = c_out /\
    GraphConvLayer.Ks m = Ks.
Proof.
  intros Hg. eexists. split; [reflexivity|]. split; [|repeat split].
  unfold GraphConvLayer.well_formed. cbn.
  split; [repeat split|]. split; [reflexivity|]. split; [reflexivity|].
  split.
  - intros ->. eexists. split; [reflexivity|].
    unfold ChebGraphConv.well_formed. cbn.
    destruct use_bias; repeat split; assumption.
  - intros -> ->. eexists. split; [reflexivity|].
    unfold GraphConv.well_formed. cbn.
    destruct use_bias; repeat split; assumption.
Qed.

Lemma STConvBlock_init_plain (Kt Ks V last_block_channel c0 c1 c2 : nat)
    (rest : list nat) (act type : string) (gso : Tensor R) (use_bias : bool)
    (n_his l : option Z) (use_attn : option string)
    (nn_MultiheadAttention :
       nat -> nat -> MultiHeadSelfAttention.attention_fn R)
    (eps : R) (rnd : list nat -> R) :
  STConvBlock.is_STAGCN use_attn = false ->
  shape gso = [V; V] ->
  exists m,
    STConvBlock.init Kt Ks V last_block_channel (c0 :: c1 :: c2 :: rest) act
      type gso use_bias n_his l use_attn nn_MultiheadAttention eps rnd = Ok m /\
    STConvBlock.well_formed_plain m V /\
    TemporalConvLayer.Kt (STConvBlock.tmp_conv1 m) = Kt /\
    TemporalConvLayer.c_in (STConvBlock.tmp_conv1 m) = last_block_channel /\
    TemporalConvLayer.c_out (STConvBlock.tmp_conv1 m) = c0 /\
    GraphConvLayer.c_out (STConvBlock.graph_conv m) = c1 /\
    TemporalConvLayer.c_out (STConvBlock.tmp_conv2 m) = c2 /\
    TemporalConvLayer.act_func (STConvBlock.tmp_conv1 m) = act /\
    TemporalConvLayer.act_func (STConvBlock.tmp_conv2 m) = act /\
    GraphConvLayer.graph_conv_type (STConvBlock.graph_conv m) = type /\
    GraphConvLayer.Ks (STConvBlock.graph_conv m) = Ks.
Proof.
  intros Hna Hg.
  destruct (TemporalConvLayer_init_well_formed Kt last_block_channel c0 V act
              rnd) as (t1 & Ht1 & Hw1 & HK1 & Hi1 & Ho1 & Ha1).
  destruct (GraphConvLayer_init_well_formed type c0 c1 Ks V gso use_bias rnd Hg)
    as (g & Hgi & Hwg & Hgt & Hgci & Hgco & HgK).
  destruct (TemporalConvLayer_init_well_formed Kt c1 c2 V act rnd)
    as (t2 & Ht2 & Hw2 & HK2 & Hi2 & Ho2 & Ha2).
  unfold STConvBlock.init. cbn [STConvBlock.channel nth_error bind].
  rewrite Ht1. cbn [bind]. rewrite Hgi. cbn [bind]. rewrite Ht2. cbn [bind].
  rewrite Hna. cbn [bind fst snd].
  eexists. split; [reflexivity|]. split.
  - unfold STConvBlock.well_formed_plain. cbn.
    rewrite Hna, Hgci, Ho1, Hi2, Hgco, HK2, HK1, Ho2.
    repeat (split; [assumption || reflexivity|]). reflexivity.
  - cbn. repeat (split; [assumption|]). assumption.
Qed.

End InitFacts.

(** ** The model without attention fusion *)

Section ModelFacts.

Context {R : Type} {RS : Scalar R}.

Lemma OutputBlock_init_supported (Ko last_block_channel : nat)
    (channels : list nat) (end_channel V : nat) (act : string)
    (use_bias : bool) (eps : R) (rnd : list nat -> R) (m : OutputBlock.t R) :
  OutputBlock.init Ko last_block_channel channels end_channel V act use_bias
    eps rnd = Ok m ->
  TemporalConvLayer.supported act = true.
Proof.
  intros Hinit.
  destruct (OutputBlock_init_trial _ _ _ _ _ _ _ _ _ _ Hinit) as (z & Hz).
  unfold OutputBlock.init in Hinit.
  destruct (STConvBlock.channel channels 0) as [c0|]; [|discriminate].
  cbn [bind] in Hinit.
  destruct (TemporalConvLayer_init_well_formed Ko last_block_channel c0 V act
              rnd) as (t1 & Ht1 & _ & _ & _ & _ & Hact).
  rewrite Ht1 in Hinit. cbn [bind] in Hinit.
  destruct (TemporalConvLayer.forward t1 (zeros [1; 64; 26; 4])) as [z'|];
    [|discriminate].
  cbn [bind] in Hinit.
  destruct (STConvBlock.channel channels 1) as [c1|]; [|discriminate].
  cbn [bind] in Hinit. injection Hinit as <-. cbn [OutputBlock.tmp_conv1] in Hz.
  destruct (TemporalConvLayer.supported act) eqn:E; [reflexivity|].
  rewrite <- Hact in E.
  destruct (TemporalConvLayer_forward_unsupported t1 (zeros [1; 64; 26; 4]) E)
    as ((e & He) & _).
  rewrite He in Hz. discriminate.
Qed.

(** A stack of [n] blocks with channels [[64; 16; 64]] shortens the time
    axis by [2 * n * (Kt - 1)]. *)
Lemma init_blocks_forward (a : Model.args R) (blocks : list (list nat))
    (V : nat)
    (nn_MultiheadAttention :
       nat -> nat -> MultiHeadSelfAttention.attention_fn R)
    (eps : R) (rnd : list nat -> R) (B : nat) :
  STConvBlock.is_STAGCN (Some (Model.framework a)) = false ->
  shape (Model.gso a) = [V; V] ->
  TemporalConvLayer.supported (Model.act_func a) = true ->
  GraphConvLayer.supported (Model.graph_conv_type a) = true ->
  1 <= Model.Ks a -> 1 <= Z.to_nat (Model.Kt a) -> 1 <= V ->
  forall n l bs x c T,
    Model.init_blocks a blocks V nn_MultiheadAttention eps rnd l n = Ok bs ->
    (forall i, l <= i -> i < l + n -> nth (i + 1) blocks [] = [64; 16; 64]) ->
    last (nth l blocks []) 0 = c -> 1 <= c ->
    shape x = [B; c; T; V] ->
    2 * n * (Z.to_nat (Model.Kt a) - 1) + 1 <= T ->
    exists y,
      fold_left (fun acc b => y <- acc ;; STConvBlock.forward b None y) bs
        (Ok x) = Ok y /\
      shape y = [B; if n =? 0 then c else 64;
                 T - 2 * n * (Z.to_nat (Model.Kt a) - 1); V].
Proof.
  intros Hna Hg Hact Htype HKs HKt HV.
  set (Kt := Z.to_nat (Model.Kt a)) in *.
  induction n as [|n IH]; intros l bs x c T Hinit Hch Hlast Hc Hx HT.
  - simpl in Hinit. injection Hinit as <-. exists x. split; [reflexivity|].
    rewrite Hx. simpl. f_equal. f_equal. f_equal. lia.
  - cbn [Model.init_blocks] in Hinit. fold Kt in Hinit.
    rewrite (Hch l) in Hinit by lia. rewrite Hlast in Hinit.
    destruct (STConvBlock_init_plain Kt (Model.Ks a) V c 64 16 64 []
                (Model.act_func a) (Model.graph_conv_type a) (Model.gso a)
                (Model.enable_bias a) (Some (Model.n_his a))
                (Some (Z.of_nat l)) (Some (Model.framework a))
                nn_MultiheadAttention eps rnd Hna Hg)
      as (b & Hb & Hwb & HbK & Hbi & Hb0 & Hb1 & Hb2 & Hba1 & Hba2 & Hbt & HbKs).
    rewrite Hb in Hinit. cbn [bind] in Hinit.
    destruct (Model.init_blocks a blocks V nn_MultiheadAttention eps rnd
                (l + 1) n) as [bs'|] eqn:Hbs'; [|discriminate].
    cbn [bind] in Hinit. injection Hinit as <-.
    assert (HT1 : 2 * (Kt - 1) + 1 <= T) by nia.
    assert (HT2 : 2 * n * (Kt - 1) + 1 <= T - 2 * (Kt - 1)) by nia.
    pose proof (STConvBlock_forward_shape b x B T V Hwb) as Hfs.
    cbv zeta in Hfs.
    rewrite Hba1, Hba2, Hbt, HbKs, HbK, Hbi, Hb0, Hb1, Hb2 in Hfs.
    destruct Hfs as (y1 & Hy1 & Hsy1); try assumption; try lia.
    destruct (IH (l + 1) bs' y1 64 (T - 2 * (Kt - 1)) Hbs')
      as (y & Hy & Hsy); try assumption; try lia.
    { intros i Hi1 Hi2. apply Hch; lia. }
    { rewrite (Hch l) by lia. reflexivity. }
    exists y. cbn [fold_left bind]. rewrite Hy1. split; [exact Hy|].
    rewrite Hsy. cbn [Nat.eqb].
    replace (T - 2 * (Kt - 1) - 2 * n * (Kt - 1))
      with (T - 2 * S n * (Kt - 1)) by nia.
    destruct (n =? 0); reflexivity.
Qed.

(** The channel sizes of [get_parameters] when [Ko > 0]. *)
Lemma Main_blocks_positive (n_his Kt stblock_num : Z) :
  (0 < Main.Ko n_his Kt stblock_num)%Z ->
  let n := Z.to_nat stblock_num in
  let blocks := Main.blocks n_his Kt stblock_num in
  length blocks = n + 3 /\
  nth 0 blocks [] = [1] /\
  (forall i, 1 <= i -> i <= n -> nth i blocks [] = [64; 16; 64]) /\
  nth (n + 1) blocks [] = [128; 128] /\
  nth (n + 2) blocks [] = [1].
Proof.
  intros HKo n blocks. unfold blocks, Main.blocks. fold n.
  destruct (Z.eqb_spec (Main.Ko n_his Kt stblock_num) 0); [lia|].
  destruct (Z.gtb_spec (Main.Ko n_his Kt stblock_num) 0); [|lia].
  cbn [app].
  assert (Hlen : length (repeat [64; 16; 64] n) = n) by apply repeat_length.
  split; [simpl; rewrite length_app, Hlen; simpl; lia|].
  split; [reflexivity|]. split; [|split].
  - intros i Hi1 Hi2. destruct i as [|i]; [lia|]. cbn [nth].
    rewrite app_nth1 by (rewrite Hlen; lia).
    apply nth_repeat_lt. lia.
  - replace (n + 1) with (S n) by lia. cbn [nth].
    rewrite app_nth2 by (rewrite Hlen; lia).
    rewrite Hlen, Nat.sub_diag. reflexivity.
  - replace (n + 2) with (S (S n)) by lia. cbn [nth].
    rewrite app_nth2 by (rewrite Hlen; lia).
    rewrite Hlen. replace (S n - n) with 1 by lia. reflexivity.
Qed.

(** Whenever the model without attention fusion can be constructed from
    the configuration of [get_parameters], its forward pass on an input
    of [n_his] time steps returns time length 1 and one channel. *)
Lemma Model_forward_time_one (a : Model.args R) (V : nat)
    (nn_MultiheadAttention :
       nat -> nat -> MultiHeadSelfAttention.attention_fn R)
    (eps : R) (rnd : list nat -> R) (m : Model.t R) (x : Tensor R) (B : nat) :
  Model.init a
    (Main.blocks (Model.n_his a) (Model.Kt a) (Model.stblock_num a)) V
    nn_MultiheadAttention eps rnd = Ok m ->
  STConvBlock.is_STAGCN (Some (Model.framework a)) = false ->
  shape (Model.gso a) = [V; V] ->
  GraphConvLayer.supported (Model.graph_conv_type a) = true ->
  1 <= Model.Ks a -> 1 <= V ->
  shape x = [B; 1; Z.to_nat (Model.n_his a); V] ->
  exists y, Model.forward m None x = Ok y /\ shape y = [B; 1; 1; V].
Proof.
  intros Hinit Hna Hg Htype HKs HV Hx. unfold Model.init in Hinit.
  destruct (Z.ltb_spec (Model.Kt a) 1) as [|HKt]; [discriminate|].
  set (blocks := Main.blocks (Model.n_his a) (Model.Kt a) (Model.stblock_num a))
    in *.
  set (n := Z.to_nat (Model.stblock_num a)) in *.
  destruct (Model.init_blocks a blocks V nn_MultiheadAttention eps rnd 0 n)
    as [bs|] eqn:Hbs; [|discriminate].
  cbn [bind] in Hinit.
  set (Ko := Main.Ko (Model.n_his a) (Model.Kt a) (Model.stblock_num a)) in *.
  destruct (Z.leb_spec Ko 0) as [|HKo]; [discriminate|].
  destruct (Main_blocks_positive (Model.n_his a) (Model.Kt a)
              (Model.stblock_num a) HKo) as (Hlen & Hb0 & Hbi & Hb1 & Hb2).
  fold n blocks in Hlen, Hb0, Hbi, Hb1, Hb2.
  unfold Model.from_end in Hinit. rewrite Hlen in Hinit.
  replace (n + 3 - 3) with n in Hinit by lia.
  replace (n + 3 - 2) with (n + 1) in Hinit by lia.
  replace (n + 3 - 1) with (n + 2) in Hinit by lia.
  rewrite Hb1, Hb2 in Hinit. cbn [hd] in Hinit.
  destruct (OutputBlock.init (Z.to_nat Ko) (last (nth n blocks []) 0)
              [128; 128] 1 V (Model.act_func a) (Model.enable_bias a) eps rnd)
    as [o|] eqn:Ho; [|discriminate].
  cbn [bind] in Hinit. injection Hinit as <-.
  assert (Hn : 1 <= n).
  { destruct (Nat.eq_dec n 0) as [Hn0 | Hn0]; [|lia]. exfalso.
    rewrite Hn0, Hb0 in Ho. cbn [last] in Ho.
    destruct (OutputBlock_init_raises (Z.to_nat Ko) 1 [128; 128] 1 V
                (Model.act_func a) (Model.enable_bias a) eps rnd)
      as (e & He); [left; lia|].
    rewrite He in Ho. discriminate. }
  rewrite (Hbi n) in Ho by lia. cbn [last] in Ho.
  assert (Hact := OutputBlock_init_supported _ _ _ _ _ _ _ _ _ _ Ho).
  assert (HT : Z.to_nat (Model.n_his a)
               - 2 * n * (Z.to_nat (Model.Kt a) - 1) = Z.to_nat Ko /\
               2 * n * (Z.to_nat (Model.Kt a) - 1) + 1
               <= Z.to_nat (Model.n_his a)).
  { unfold Ko, Main.Ko in *. unfold n in *. nia. }
  destruct HT as (HT1 & HT2).
  destruct (init_blocks_forward a blocks V nn_MultiheadAttention eps rnd B
              Hna Hg Hact Htype HKs ltac:(lia) HV n 0 bs x 1
              (Z.to_nat (Model.n_his a)) Hbs)
    as (y1 & Hy1 & Hsy1); try assumption; try lia.
  { intros i _ Hi. apply Hbi; lia. }
  { rewrite Hb0. reflexivity. }
  rewrite HT1 in Hsy1.
  destruct (Nat.eqb_spec n 0) as [|_]; [lia|].
  destruct (OutputBlock_init_forward _ _ _ _ _ _ _ _ _ o y1 B Ho Hsy1 HV)
    as (y & Hy & Hsy).
  exists y. split; [|exact Hsy].
  unfold Model.forward. cbn [Model.st_blocks Model.output]. rewrite Hy1.
  cbn [bind]. exact Hy.
Qed.

(** When the output block can be constructed: 64 incoming channels, a
    kernel of 1 to 26 steps, a supported activation and two channel
    sizes. *)
Lemma OutputBlock_init_ok (Ko c0 c1 : nat) (rest : list nat)
    (end_channel V : nat) (act : string) (use_bias : bool) (eps : R)
    (rnd : list nat -> R) :
  1 <= Ko -> Ko <= 26 -> 1 <= c0 ->
  TemporalConvLayer.supported act = true ->
  exists m,
    OutputBlock.init Ko 64 (c0 :: c1 :: rest) end_channel V act use_bias eps
      rnd = Ok m.
Proof.
  intros HK1 HK2 Hc Hact. unfold OutputBlock.init.
  cbn [STConvBlock.channel nth_error bind].
  destruct (TemporalConvLayer_init_well_formed Ko 64 c0 V act rnd)
    as (t1 & Ht1 & Hwf & HKt & Hci & Hco & Ha).
  rewrite Ht1. cbn [bind].
  destruct (TemporalConvLayer_forward_shape t1 (zeros [1; 64; 26; 4]) 1 26 4 Hwf)
    as (z & Hz & _); rewrite ?Ha, ?Hci, ?HKt, ?Hco; try assumption;
    try reflexivity; try lia.
  rewrite Hz. cbn [bind]. eexists. reflexivity.
Qed.

Lemma init_blocks_ok (a : Model.args R) (blocks : list (list nat)) (V : nat)
    (nn_MultiheadAttention :
       nat -> nat -> MultiHeadSelfAttention.attention_fn R)
    (eps : R) (rnd : list nat -> R) :
  STConvBlock.is_STAGCN (Some (Model.framework a)) = false ->
  shape (Model.gso a) = [V; V] ->
  forall n l,
    (forall i, l <= i -> i < l + n -> nth (i + 1) blocks [] = [64; 16; 64]) ->
    exists bs,
      Model.init_blocks a blocks V nn_MultiheadAttention eps rnd l n = Ok bs.
Proof.
  intros Hna Hg. induction n as [|n IH]; intros l Hch.
  - exists []. reflexivity.
  - cbn [Model.init_blocks]. rewrite (Hch l) by lia.
    destruct (STConvBlock_init_plain (Z.to_nat (Model.Kt a)) (Model.Ks a) V
                (last (nth l blocks []) 0) 64 16 64 []
                (Model.act_func a) (Model.graph_conv_type a) (Model.gso a)
                (Model.enable_bias a) (Some (Model.n_his a))
                (Some (Z.of_nat l)) (Some (Model.framework a))
                nn_MultiheadAttention eps rnd Hna Hg) as (b & Hb & _).
    rewrite Hb. cbn [bind].
    destruct (IH (l + 1)) as (bs & Hbs).
    { intros i Hi1 Hi2. apply Hch; lia. }
    rewrite Hbs. cbn [bind]. eexists. reflexivity.
Qed.

(** The configurations for which the model without attention fusion is
    constructed: at least one block and [1 <= Ko <= 26]. *)
Lemma Model_init_ok (a : Model.args R) (V : nat)
    (nn_MultiheadAttention :
       nat -> nat -> MultiHeadSelfAttention.attention_fn R)
    (eps : R) (rnd : list nat -> R) :
  STConvBlock.is_STAGCN (Some (Model.framework a)) = false ->
  shape (Model.gso a) = [V; V] ->
  TemporalConvLayer.supported (Model.act_func a) = true ->
  (1 <= Model.Kt a)%Z -> (1 <= Model.stblock_num a)%Z ->
  (1 <= Main.Ko (Model.n_his a) (Model.Kt a) (Model.stblock_num a) <= 26)%Z ->
  exists m,
    Model.init a
      (Main.blocks (Model.n_his a) (Model.Kt a) (Model.stblock_num a)) V
      nn_MultiheadAttention eps rnd = Ok m.
Proof.
  intros Hna Hg Hact HKt Hsb HKo. unfold Model.init.
  destruct (Z.ltb_spec (Model.Kt a) 1); [lia|].
  set (blocks := Main.blocks (Model.n_his a) (Model.Kt a) (Model.stblock_num a)).
  set (n := Z.to_nat (Model.stblock_num a)).
  set (Ko := Main.Ko (Model.n_his a) (Model.Kt a) (Model.stblock_num a)) in *.
  destruct (Main_blocks_positive (Model.n_his a) (Model.Kt a)
              (Model.stblock_num a) ltac:(fold Ko; lia))
    as (Hlen & Hb0 & Hbi & Hb1 & Hb2).
  fold n blocks in Hlen, Hb0, Hbi, Hb1, Hb2.
  destruct (init_blocks_ok a blocks V nn_MultiheadAttention eps rnd Hna Hg n 0)
    as (bs & Hbs).
  { intros i _ Hi. apply Hbi; lia. }
  rewrite Hbs. cbn [bind].
  destruct (Z.leb_spec Ko 0); [lia|].
  unfold Model.from_end. rewrite Hlen.
  replace (n + 3 - 3) with n by lia.
  replace (n + 3 - 2) with (n + 1) by lia.
  replace (n + 3 - 1) with (n + 2) by lia.
  rewrite (Hbi n) by (unfold n; lia). rewrite Hb1, Hb2. cbn [last hd].
  destruct (OutputBlock_init_ok (Z.to_nat Ko) 128 128 [] 1 V (Model.act_func a)
              (Model.enable_bias a) eps rnd) as (o & Ho); try lia;
    try assumption.
  rewrite Ho. cbn [bind]. eexists. reflexivity.
Qed.

End ModelFacts.

(** ** Runs on concrete inputs

    The layers on the integer instance, all parameters equal to 1.  The
    input [ex_x] has one channel, four time steps and two vertices and
    holds [2*t + v] at time [t] and vertex [v]. *)

Example run_blocks_default :
  Main.Ko 30 3 2 = 22%Z /\
  Main.blocks 30 3 2 = [[1]; [64; 16; 64]; [64; 16; 64]; [128; 128]; [1]].
Proof. split; reflexivity. Qed.

Example run_align_pad :
  Align.forward ex_align ex_x =
    Ok (mkTensor [1; 2; 4; 2]
          [0; 1; 2; 3; 4; 5; 6; 7; 0; 0; 0; 0; 0; 0; 0; 0]%Z).
Proof. vm_compute. reflexivity. Qed.

Example run_align_project :
  Align.forward (Align.init 2 1 rnd1)
    (tab [1; 2; 2; 1] (fun idx => Z.of_nat (offset [1; 2; 2; 1] idx))) =
    Ok (mkTensor [1; 1; 2; 1] [3; 5]%Z).
Proof. vm_compute. reflexivity. Qed.

Example run_causal_unpadded :
  CausalConv2d.forward
    (CausalConv2d.init 1 1 (3, 1) (1, 1) false (1, 1) false rnd1) ex_x =
    Ok (mkTensor [1; 1; 2; 2] [6; 9; 12; 15]%Z).
Proof. vm_compute. reflexivity. Qed.

Example run_causal_padded :
  CausalConv2d.forward
    (CausalConv2d.init 1 1 (3, 1) (1, 1) true (2, 1) false rnd1) ex_x =
    Ok (mkTensor [1; 1; 4; 2] [0; 1; 2; 3; 4; 6; 8; 10]%Z).
Proof. vm_compute. reflexivity. Qed.

Example run_causal_kernel_too_large :
  CausalConv2d.forward
    (CausalConv2d.init 1 1 (5, 1) (1, 1) false (1, 1) false rnd1) ex_x =
    Raise RuntimeError.
Proof. vm_compute. reflexivity. Qed.

Example run_temporal_glu :
  TemporalConvLayer.forward (ex_tcl "glu") ex_x =
    Ok (mkTensor [1; 2; 2; 2] [77; 150; 247; 368; 49; 100; 169; 256]%Z).
Proof. vm_compute. reflexivity. Qed.

Example run_temporal_relu :
  TemporalConvLayer.forward (ex_tcl "relu") ex_x =
    Ok (mkTensor [1; 2; 2; 2] [11; 15; 19; 23; 7; 10; 13; 16]%Z).
Proof. vm_compute. reflexivity. Qed.

Example run_temporal_unsupported :
  TemporalConvLayer.forward (ex_tcl "tanh") ex_x = Raise NotImplementedError.
Proof. vm_compute. reflexivity. Qed.

(** Order 3 on the operator [[0 1; 2 3]]: at time 0 the basis is
    [T0 = (0, 1)], [T1 = (1, 3)], [T2 = 2.L.T1 - T0 = (6, 21)], whose sum
    plus the bias is [(8, 26)]. *)
Example run_cheb_order_three :
  ChebGraphConv.forward ex_cheb ex_x =
    Ok (mkTensor [1; 4; 2; 1] [8; 26; 30; 104; 52; 182; 74; 260]%Z).
Proof. vm_compute. reflexivity. Qed.

Example run_graph_layer_zero_operator_cheb :
  GraphConvLayer.forward (ex_gcl "cheb_graph_conv") ex_x =
    Ok (mkTensor [1; 1; 4; 2] [1; 3; 5; 7; 9; 11; 13; 15]%Z).
Proof. vm_compute. reflexivity. Qed.

Example run_graph_layer_zero_operator_first_order :
  GraphConvLayer.forward (ex_gcl "graph_conv") ex_x =
    Ok (mkTensor [1; 1; 4; 2] [1; 2; 3; 4; 5; 6; 7; 8]%Z).
Proof. vm_compute. reflexivity. Qed.

Example run_graph_layer_unknown_type :
  GraphConvLayer.forward (ex_gcl "spectral") ex_x = Raise UnboundLocalError.
Proof. vm_compute. reflexivity. Qed.

(** One channel, two time steps, two vertices: the reshape of the code
    against the per-vertex tokens. *)
Example run_attn_tokens :
  STConvBlock.attn_tokens
    (tab [1; 1; 2; 2] (fun idx => Z.of_nat (offset [1; 1; 2; 2] idx))) =
    Ok (mkTensor [1; 2; 2] [0; 1; 2; 3]%Z) /\
  per_vertex_tokens
    (tab [1; 1; 2; 2] (fun idx => Z.of_nat (offset [1; 1; 2; 2] idx))) =
    mkTensor [1; 2; 2] [0; 2; 1; 3]%Z.
Proof. split; vm_compute; reflexivity. Qed.

(** * The claims *)

Lemma ex_tcl_init (act : string) :
  TemporalConvLayer.init 3 1 2 2 act rnd1 = Ok (ex_tcl act).
Proof. reflexivity. Qed.

(** ** C5 *)

(** C5: for every 4-D input [x], [Align] returns [x] itself when
    [c_in = c_out]; when [c_in < c_out] it returns [x] with
    [c_out - c_in] all-zero channels appended (the channels of [x] are
    unchanged, the others are exactly zero); when [c_in > c_out] and [x]
    has [c_in] channels it returns the 1x1 convolution of [x], a linear
    map applied at each position: the element at output channel [o] and
    position [(t, v)] is the sum over the input channels [c] of
    [x[b, c, t, v] * W[o, c, 0, 0]], plus [bias[o]] (each product is
    added to the zero that starts the sum over the single kernel
    position; with the laws of exact arithmetic these zeros vanish).  On
    an input with [c_in] channels the result has [c_out] channels in every
    case, and the batch, time and vertex extents are unchanged. *)
Theorem C5_align_contract {R : Type} {RS : Scalar R}
    (m : Align.t R) (x : Tensor R) (B C T V : nat) :
  Align.well_formed m ->
  shape x = [B; C; T; V] ->
  (Align.c_in m = Align.c_out m -> Align.forward m x = Ok x) /\
  (Align.c_in m < Align.c_out m ->
     exists a, Align.forward m x = Ok a /\
       shape a = [B; C + (Align.c_out m - Align.c_in m); T; V] /\
       (forall b c t v, b < B -> c < C -> t < T -> v < V ->
          get a [b; c; t; v] = get x [b; c; t; v]) /\
       (forall b c t v, b < B -> C <= c ->
          c < C + (Align.c_out m - Align.c_in m) -> t < T -> v < V ->
          get a [b; c; t; v] = zero)) /\
  (Align.c_out m < Align.c_in m -> C = Align.c_in m ->
   1 <= Align.c_out m -> 1 <= T -> 1 <= V ->
     let W := Conv2d.weight (Align.align_conv m) in
     exists a, Align.forward m x = Ok a /\
       shape a = [B; Align.c_out m; T; V] /\
       (forall b o t v, b < B -> o < Align.c_out m -> t < T -> v < V ->
          get a [b; o; t; v] =
            let acc :=
              sumn (Align.c_in m) (fun c =>
                add zero (add zero
                  (mul (get x [b; c; t; v]) (get W [o; c; 0; 0])))) in
            match Conv2d.bias (Align.align_conv m) with
            | Some bv => add acc (get bv [o])
            | None => acc
            end) /\
       (ScalarLaws R ->
        forall b o t v, b < B -> o < Align.c_out m -> t < T -> v < V ->
          get a [b; o; t; v] =
            let acc :=
              sumn (Align.c_in m) (fun c =>
                mul (get x [b; c; t; v]) (get W [o; c; 0; 0])) in
            match Conv2d.bias (Align.align_conv m) with
            | Some bv => add acc (get bv [o])
            | None => acc
            end)) /\
  (C = Align.c_in m -> 1 <= Align.c_out m -> 1 <= T -> 1 <= V ->
     exists a, Align.forward m x = Ok a /\
       shape a = [B; Align.c_out m; T; V]).
Proof.
  intros Hwf Hx. split; [|split; [|split]].
  - apply Align_forward_same.
  - intros Hlt.
    destruct (Align_forward_pad m x B C T V Hx Hlt) as (a & Ha & Hs & Hg).
    exists a. split; [exact Ha|]. split; [exact Hs|]. split.
    + intros b c t v Hb Hc Ht Hv. rewrite Hg by (try assumption; lia).
      destruct (Nat.ltb_spec c C); [reflexivity | lia].
    + intros b c t v Hb Hc1 Hc2 Ht Hv. rewrite Hg by assumption.
      destruct (Nat.ltb_spec c C); [lia | reflexivity].
  - intros Hgt -> Hc HT HV W.
    destruct (Align_forward_proj m x B T V Hwf Hx Hgt Hc HT HV)
      as (a & Ha & Hs & Hg).
    exists a. split; [exact Ha|]. split; [exact Hs|].
    destruct Hwf as (_ & _ & Hk & Hst & Hd).
    assert (Hexact : forall b o t v,
              b < B -> o < Align.c_out m -> t < T -> v < V ->
              get a [b; o; t; v] =
                let acc :=
                  sumn (Align.c_in m) (fun c =>
                    add zero (add zero
                      (mul (get x [b; c; t; v]) (get W [o; c; 0; 0])))) in
                match Conv2d.bias (Align.align_conv m) with
                | Some bv => add acc (get bv [o])
                | None => acc
                end).
    { intros b o t v Hb Ho Ht Hv. rewrite Hg by assumption.
      unfold Conv2d.elem. rewrite Hk, Hst, Hd. cbn [fst snd]. cbv zeta.
      assert (Hsum :
        sumn (Align.c_in m) (fun c => sumn 1 (fun p => sumn 1 (fun q =>
          mul (get x [b; c; t * 1 + p * 1; v * 1 + q * 1])
              (get (Conv2d.weight (Align.align_conv m)) [o; c; p; q])))) =
        sumn (Align.c_in m) (fun c =>
          add zero (add zero
            (mul (get x [b; c; t; v]) (get W [o; c; 0; 0]))))).
      { apply sumn_ext. intros c Hcc.
        rewrite sumn_S, sumn_0, sumn_S, sumn_0.
        replace (t * 1 + 0 * 1) with t by lia.
        replace (v * 1 + 0 * 1) with v by lia.
        reflexivity. }
      rewrite Hsum. reflexivity. }
    split; [exact Hexact|].
    intros RL b o t v Hb Ho Ht Hv. rewrite Hexact by assumption. cbv zeta.
    assert (Hsum :
      sumn (Align.c_in m) (fun c =>
        add zero (add zero
          (mul (get x [b; c; t; v]) (get W [o; c; 0; 0])))) =
      sumn (Align.c_in m) (fun c =>
        mul (get x [b; c; t; v]) (get W [o; c; 0; 0]))).
    { apply sumn_ext. intros c Hcc. rewrite !add_zero_l. reflexivity. }
    rewrite Hsum. reflexivity.
  - intros -> Hc HT HV. apply Align_forward_shape; assumption.
Qed.

Lemma C5_align_contract_witness :
  Align.well_formed ex_align /\
  shape ex_x = [1; 1; 4; 2] /\
  (exists a, Align.forward ex_align ex_x = Ok a /\ shape a = [1; 2; 4; 2] /\
     get a [0; 0; 3; 1] = get ex_x [0; 0; 3; 1] /\ get a [0; 1; 3; 1] = 0%Z) /\
  Align.well_formed ex_align_proj /\
  shape ex_x2 = [1; 2; 4; 2] /\
  exists a, Align.forward ex_align_proj ex_x2 = Ok a /\
    shape a = [1; 1; 4; 2] /\
    get a [0; 0; 3; 1] =
      add (add (get ex_x2 [0; 0; 3; 1]) (get ex_x2 [0; 1; 3; 1])) 1%Z /\
    get a [0; 0; 3; 1] = 23%Z.
Proof.
  split; [apply Align_init_well_formed|]. split; [reflexivity|].
  split.
  { destruct (C5_align_contract ex_align ex_x 1 1 4 2
                (Align_init_well_formed 1 2 rnd1) eq_refl) as (_ & Hpad & _).
    destruct (Hpad ltac:(simpl; lia)) as (a & Ha & Hs & Hkeep & Hzero).
    exists a. split; [exact Ha|]. split; [exact Hs|].
    split.
    - apply Hkeep; lia.
    - apply Hzero; simpl; lia. }
  split; [apply Align_init_well_formed|]. split; [reflexivity|].
  destruct (C5_align_contract ex_align_proj ex_x2 1 2 4 2
              (Align_init_well_formed 2 1 rnd1) eq_refl)
    as (_ & _ & Hproj & _).
  destruct (Hproj ltac:(simpl; lia) eq_refl ltac:(simpl; lia) ltac:(lia)
              ltac:(lia)) as (a & Ha & Hs & Hexact & _).
  exists a. split; [exact Ha|]. split; [exact Hs|].
  rewrite Hexact by (simpl; lia). split; reflexivity.
Defined.

(** ** C3 *)

(** C3: on an input with the [c_in >= 1] channels of the layer and at
    least [Kt] time steps, TemporalConvLayer computes [x_in] as
    [Align(x)] trimmed to the time indices [Kt-1] onward.  With ['glu']
    the causal convolution has [2*c_out] channels, [p] being the first
    [c_out] and [q] the last [c_out], and the output is
    [(p + x_in) * sigmoid(q)]; with ['gtu'] it is
    [tanh(p + x_in) * sigmoid(q)]; with ['relu'], ['leaky_relu'] and
    ['silu'] the convolution has [c_out] channels and the output is the
    activation of [x_conv + x_in]. *)
Theorem C3_temporal_gate {R : Type} {RS : Scalar R}
    (m : TemporalConvLayer.t R) (x : Tensor R) (B T V : nat) :
  TemporalConvLayer.well_formed m ->
  shape x = [B; TemporalConvLayer.c_in m; T; V] ->
  1 <= TemporalConvLayer.Kt m -> TemporalConvLayer.Kt m <= T ->
  1 <= V -> 1 <= TemporalConvLayer.c_out m ->
  1 <= TemporalConvLayer.c_in m ->
  let Kt := TemporalConvLayer.Kt m in
  let c_out := TemporalConvLayer.c_out m in
  let act := TemporalConvLayer.act_func m in
  exists a x_conv,
    Align.forward (TemporalConvLayer.align m) x = Ok a /\
    CausalConv2d.forward (TemporalConvLayer.causal_conv m) x = Ok x_conv /\
    (act = "glu"%string \/ act = "gtu"%string ->
       shape x_conv = [B; 2 * c_out; T - (Kt - 1); V]) /\
    (act = "relu"%string \/ act = "leaky_relu"%string \/ act = "silu"%string ->
       shape x_conv = [B; c_out; T - (Kt - 1); V]) /\
    forall f : R -> R -> R -> R,
      (act = "glu"%string /\
         f = (fun p q x_in => mul (add p x_in) (sigmoid q)) \/
       act = "gtu"%string /\
         f = (fun p q x_in => mul (tanh (add p x_in)) (sigmoid q)) \/
       act = "relu"%string /\ f = (fun p _ x_in => relu (add p x_in)) \/
       act = "leaky_relu"%string /\
         f = (fun p _ x_in => leaky_relu (add p x_in)) \/
       act = "silu"%string /\ f = (fun p _ x_in => silu (add p x_in))) ->
      exists y, TemporalConvLayer.forward m x = Ok y /\
        shape y = [B; c_out; T - (Kt - 1); V] /\
        forall b c t v, b < B -> c < c_out -> t < T - (Kt - 1) -> v < V ->
          get y [b; c; t; v] =
            f (get x_conv [b; c; t; v]) (get x_conv [b; c_out + c; t; v])
              (get a [b; c; Kt - 1 + t; v]).
Proof.
  intros Hwf Hx HK HT HV HC HI Kt c_out act.
  destruct (TemporalConvLayer.gated act) eqn:Hg.
  - destruct (TemporalConvLayer_forward_gated m x B T V Hwf Hx HK HT HV HC HI
                Hg)
      as (a & cv & y & Ha & Hcv & Hscv & Hy & Hsy & Hgy).
    exists a, cv. split; [exact Ha|]. split; [exact Hcv|].
    split; [intros _; exact Hscv|].
    split.
    { intros [He | [He | He]]; fold act in Hg; rewrite He in Hg;
        discriminate. }
    intros f Hf. exists y. split; [exact Hy|]. split; [exact Hsy|].
    intros b c t v Hb Hc Ht Hv. specialize (Hgy b c t v Hb Hc Ht Hv).
    cbv zeta in Hgy. rewrite Hgy. fold act.
    destruct Hf as [[He Hf] | [[He Hf] | [[He Hf] | [[He Hf] | [He Hf]]]]];
      rewrite He in *; subst f; try discriminate; reflexivity.
  - assert (Hpre := TemporalConvLayer_x_in m x B T V Hwf Hx HK HT HV HC).
    destruct Hpre as (a & _ & Ha & _).
    destruct (TemporalConvLayer_conv m x B T V Hwf Hx HK HT HV HC HI)
      as (cv & Hcv & Hscv & _).
    fold act in Hscv. rewrite Hg in Hscv.
    exists a, cv. split; [exact Ha|]. split; [exact Hcv|].
    split.
    { intros [He | He]; rewrite He in Hg; discriminate. }
    split; [intros _; exact Hscv|].
    intros f Hf.
    assert (Hplain : exists g,
              TemporalConvLayer.plain_activation act = Some g /\
              f = fun p _ x_in => g (add p x_in)).
    { destruct Hf as [[He Hf] | [[He Hf] | [[He Hf] | [[He Hf] | [He Hf]]]]];
        rewrite He in *; try discriminate;
        eexists; (split; [reflexivity | exact Hf]). }
    destruct Hplain as (g & Hpa & Hfg).
    destruct (TemporalConvLayer_forward_plain m x B T V g Hwf Hx HK HT HV HC
                HI Hg Hpa)
      as (a' & cv' & y & Ha' & Hcv' & _ & Hy & Hsy & Hgy).
    assert (a' = a) by congruence. assert (cv' = cv) by congruence.
    subst a' cv'.
    exists y. split; [exact Hy|]. split; [exact Hsy|].
    intros b c t v Hb Hc Ht Hv. rewrite Hgy by assumption.
    subst f. reflexivity.
Qed.

Lemma ex_tcl_well_formed (act : string) :
  TemporalConvLayer.well_formed (ex_tcl act).
Proof.
  unfold TemporalConvLayer.well_formed, ex_tcl. simpl.
  destruct (TemporalConvLayer.gated act); repeat split.
Defined.

Lemma C3_temporal_gate_witness :
  TemporalConvLayer.well_formed (ex_tcl "glu") /\
  shape ex_x = [1; TemporalConvLayer.c_in (ex_tcl "glu"); 4; 2] /\
  1 <= TemporalConvLayer.Kt (ex_tcl "glu") /\
  TemporalConvLayer.Kt (ex_tcl "glu") <= 4 /\
  1 <= 2 /\ 1 <= TemporalConvLayer.c_out (ex_tcl "glu") /\
  1 <= TemporalConvLayer.c_in (ex_tcl "glu") /\
  exists a x_conv y,
    Align.forward (TemporalConvLayer.align (ex_tcl "glu")) ex_x = Ok a /\
    CausalConv2d.forward (TemporalConvLayer.causal_conv (ex_tcl "glu")) ex_x
      = Ok x_conv /\
    TemporalConvLayer.forward (ex_tcl "glu") ex_x = Ok y /\
    shape y = [1; 2; 2; 2] /\
    get y [0; 0; 0; 0] =
      mul (add (get x_conv [0; 0; 0; 0]) (get a [0; 0; 2; 0]))
          (sigmoid (get x_conv [0; 2; 0; 0])).
Proof.
  split; [apply ex_tcl_well_formed|]. split; [reflexivity|].
  split; [simpl; lia|]. split; [simpl; lia|]. split; [lia|].
  split; [simpl; lia|]. split; [simpl; lia|].
  destruct (C3_temporal_gate (ex_tcl "glu") ex_x 1 4 2
              (ex_tcl_well_formed "glu") eq_refl
              ltac:(simpl; lia) ltac:(simpl; lia) ltac:(lia)
              ltac:(simpl; lia) ltac:(simpl; lia))
    as (a & cv & Ha & Hcv & _ & _ & Hf).
  destruct (Hf (fun p q x_in => mul (add p x_in) (sigmoid q))
              (or_introl (conj eq_refl eq_refl)))
    as (y & Hy & Hsy & Hgy).
  exists a, cv, y. repeat split; try assumption.
  apply (Hgy 0 0 0 0); simpl; lia.
Defined.

(** ** C7 *)

(** C7: on an input with its [c_in >= 1] channels, an unpadded
    CausalConv2d (stride 1, dilation 1, as the layers build it) applies
    no padding and, for [Kt <= input_time], returns a result of time
    length [input_time - (Kt - 1)].  A padded one left-pads the time
    axis by [(Kt-1)*dilation], returns a result whose time length is the
    input's, and its value at time [t] is the same for two inputs that
    agree at all times [<= t]: no later step influences it. *)
Theorem C7_causal_conv {R : Type} {RS : Scalar R}
    (c_in c_out Kt Kw : nat) (use_bias : bool) (rnd : list nat -> R)
    (x : Tensor R) (B T V : nat) :
  shape x = [B; c_in; T; V] ->
  1 <= c_in -> 1 <= c_out -> 1 <= Kt -> 1 <= Kw -> Kw <= V -> 1 <= T ->
  (Kt <= T ->
   let m := CausalConv2d.init c_in c_out (Kt, Kw) (1, 1) false (1, 1)
              use_bias rnd in
   CausalConv2d.forward m x = Conv2d.forward (CausalConv2d.conv m) x /\
   exists y, CausalConv2d.forward m x = Ok y /\
     shape y = [B; c_out; T - (Kt - 1); V - (Kw - 1)]) /\
  (forall dt dw, 1 <= dt -> 1 <= dw ->
   let m := CausalConv2d.init c_in c_out (Kt, Kw) (1, 1) true (dt, dw)
              use_bias rnd in
   exists xp y,
     pad ((Kw - 1) * dw) 0 ((Kt - 1) * dt) 0 x = Ok xp /\
     CausalConv2d.forward m x = Conv2d.forward (CausalConv2d.conv m) xp /\
     dim xp 2 = (Kt - 1) * dt + T /\
     (forall b c t v, b < B -> c < c_in -> t < (Kt - 1) * dt + T ->
        v < (Kw - 1) * dw + V ->
        t < (Kt - 1) * dt -> get xp [b; c; t; v] = zero) /\
     (forall b c t v, b < B -> c < c_in -> t < T -> v < V ->
        get xp [b; c; (Kt - 1) * dt + t; (Kw - 1) * dw + v] =
          get x [b; c; t; v]) /\
     CausalConv2d.forward m x = Ok y /\
     shape y = [B; c_out; T; V] /\
     forall x' t, shape x' = [B; c_in; T; V] -> t < T ->
       (forall b c s v, b < B -> c < c_in -> s <= t -> v < V ->
          get x' [b; c; s; v] = get x [b; c; s; v]) ->
       exists y', CausalConv2d.forward m x' = Ok y' /\
         forall b o v, b < B -> o < c_out -> v < V ->
           get y' [b; o; t; v] = get y [b; o; t; v]).
Proof.
  intros Hx Hi Hc HK HKw HV HT. split.
  - intros HKT. apply CausalConv2d_unpadded; assumption.
  - intros dt dw Hdt Hdw m.
    assert (HV1 : 1 <= V) by lia.
    destruct (CausalConv2d_padded c_in c_out Kt Kw dt dw use_bias rnd x B T V
                Hx Hi Hc HK HKw Hdt Hdw HT HV1)
      as (xp & y & Hp & Hsp & Hy & Hsy & Hgy).
    destruct (pad_ok ((Kw - 1) * dw) 0 ((Kt - 1) * dt) 0 x B c_in T V Hx)
      as (xp0 & Hp0 & _ & Hgp).
    assert (xp0 = xp) by congruence. subst xp0.
    exists xp, y. split; [exact Hp|].
    split.
    { unfold CausalConv2d.forward. simpl. rewrite Hp. reflexivity. }
    split.
    { unfold dim. rewrite Hsp. simpl. lia. }
    split.
    { intros b c t v Hb Hcc Ht Hv Hlt. rewrite Hgp by lia.
      destruct (Nat.leb_spec ((Kt - 1) * dt) t); [lia | reflexivity]. }
    split.
    { intros b c t v Hb Hcc Ht Hv. rewrite Hgp by lia.
      destruct (Nat.leb_spec ((Kt - 1) * dt) ((Kt - 1) * dt + t)); [|lia].
      destruct (Nat.ltb_spec ((Kt - 1) * dt + t) ((Kt - 1) * dt + T)); [|lia].
      destruct (Nat.leb_spec ((Kw - 1) * dw) ((Kw - 1) * dw + v)); [|lia].
      destruct (Nat.ltb_spec ((Kw - 1) * dw + v) ((Kw - 1) * dw + V)); [|lia].
      simpl.
      replace ((Kt - 1) * dt + t - (Kt - 1) * dt) with t by lia.
      replace ((Kw - 1) * dw + v - (Kw - 1) * dw) with v by lia.
      reflexivity. }
    split; [exact Hy|]. split; [exact Hsy|].
    intros x' t Hx' Ht Hagree.
    destruct (CausalConv2d_padded c_in c_out Kt Kw dt dw use_bias rnd x' B T V
                Hx' Hi Hc HK HKw Hdt Hdw HT HV1)
      as (xp' & y' & Hp' & _ & Hy' & _ & Hgy').
    destruct (pad_ok ((Kw - 1) * dw) 0 ((Kt - 1) * dt) 0 x' B c_in T V Hx')
      as (xp1 & Hp1 & _ & Hgp').
    assert (xp1 = xp') by congruence. subst xp1.
    exists y'. split; [exact Hy'|].
    intros b o v Hb Ho Hv. rewrite Hgy, Hgy' by assumption.
    unfold Conv2d.elem. simpl.
    assert (Hsum :
      sumn c_in (fun c => sumn Kt (fun p => sumn Kw (fun q =>
        mul (get xp' [b; c; t * 1 + p * dt; v * 1 + q * dw])
            (get (tab [c_out; c_in; Kt; Kw] rnd) [o; c; p; q])))) =
      sumn c_in (fun c => sumn Kt (fun p => sumn Kw (fun q =>
        mul (get xp [b; c; t * 1 + p * dt; v * 1 + q * dw])
            (get (tab [c_out; c_in; Kt; Kw] rnd) [o; c; p; q]))))).
    { apply sumn_ext. intros c Hcc. apply sumn_ext. intros p Hpp.
      apply sumn_ext. intros q Hq. f_equal.
      assert (Hpd : p * dt <= (Kt - 1) * dt) by nia.
      assert (Hqd : q * dw <= (Kw - 1) * dw) by nia.
      rewrite Hgp, Hgp' by lia.
      destruct ((((Kt - 1) * dt <=? t * 1 + p * dt)
                 && (t * 1 + p * dt <? (Kt - 1) * dt + T)
                 && ((Kw - 1) * dw <=? v * 1 + q * dw)
                 && (v * 1 + q * dw <? (Kw - 1) * dw + V))%bool) eqn:E;
        [|reflexivity].
      rewrite !andb_true_iff in E. destruct E as (((E1 & E2) & E3) & E4).
      apply Nat.leb_le in E1, E3. apply Nat.ltb_lt in E2, E4.
      apply Hagree; lia. }
    rewrite Hsum. reflexivity.
Qed.

Lemma C7_causal_conv_witness :
  shape ex_x = [1; 1; 4; 2] /\
  1 <= 1 /\ 1 <= 1 /\ 1 <= 3 /\ 1 <= 1 /\ 1 <= 2 /\ 1 <= 4 /\ 3 <= 4 /\
  (exists y,
     CausalConv2d.forward
       (CausalConv2d.init 1 1 (3, 1) (1, 1) false (1, 1) true rnd1) ex_x
       = Ok y /\
     shape y = [1; 1; 4 - (3 - 1); 2 - (1 - 1)]) /\
  (exists y,
     CausalConv2d.forward
       (CausalConv2d.init 1 1 (3, 1) (1, 1) true (2, 1) true rnd1) ex_x
       = Ok y /\
     shape y = [1; 1; 4; 2]).
Proof.
  split; [reflexivity|]. repeat (split; [lia|]).
  destruct (C7_causal_conv 1 1 3 1 true rnd1 ex_x 1 4 2 eq_refl
              ltac:(lia) ltac:(lia) ltac:(lia) ltac:(lia) ltac:(lia)
              ltac:(lia))
    as (Hun & Hpad).
  split.
  - destruct (Hun ltac:(lia)) as (_ & y & Hy & Hs).
    exists y. split; assumption.
  - destruct (Hpad 2 1 ltac:(lia) ltac:(lia))
      as (xp & y & _ & _ & _ & _ & _ & Hy & Hs & _).
    exists y. split; assumption.
Defined.

(** ** C2 *)

Lemma ex_cheb_well_formed : ChebGraphConv.well_formed ex_cheb 2.
Proof. repeat split. Defined.

(** C2: for an order [Ks >= 1], [ChebGraphConv.forward] moves the channels
    last, builds the list [[T0; ...; T(Ks-1)]] with [T0 = x],
    [T1 = L.x] (contraction of the operator over the vertex axis) and
    [Tk = 2.L.T(k-1) - T(k-2)] for [2 <= k <= Ks-1], stacks the list along
    a new order axis, contracts the stack with the weight [W] of shape
    [[Ks; c_in; c_out]] over the order and input-channel axes, and adds
    the bias when there is one.  For [Ks = 3] the third term is
    [T2 = 2.L.T1 - T0]. *)
Theorem C2_cheb_recurrence {R : Type} {RS : Scalar R}
    (m : ChebGraphConv.t R) (x : Tensor R) (B T V : nat) :
  ChebGraphConv.well_formed m V ->
  shape x = [B; ChebGraphConv.c_in m; T; V] ->
  1 <= ChebGraphConv.Ks m ->
  let L := ChebGraphConv.gso m in
  let W := ChebGraphConv.weight m in
  let Ks := ChebGraphConv.Ks m in
  let c_in := ChebGraphConv.c_in m in
  let c_out := ChebGraphConv.c_out m in
  exists x' l xs y,
    permute [0; 2; 3; 1] x = Ok x' /\
    (forall b t h i, b < B -> t < T -> h < V -> i < c_in ->
       get x' [b; t; h; i] = get x [b; i; t; h]) /\
    ChebGraphConv.x_list_of m x' = Ok l /\
    length l = Ks /\
    cheb_basis L x' B T V c_in l /\
    (Ks = 3 ->
       forall b t h i, b < B -> t < T -> h < V -> i < c_in ->
         get (nth 2 l (zeros [])) [b; t; h; i] =
           sub (sumn V (fun n =>
                  mul (mul (of_nat 2) (get L [h; n]))
                      (get (nth 1 l (zeros [])) [b; t; n; i])))
               (get x' [b; t; h; i])) /\
    stack2 l = Ok xs /\
    shape xs = [B; T; Ks; V; c_in] /\
    (forall b t k h i, b < B -> t < T -> k < Ks -> h < V -> i < c_in ->
       get xs [b; t; k; h; i] = get (nth k l (zeros [])) [b; t; h; i]) /\
    ChebGraphConv.forward m x = Ok y /\
    shape y = [B; T; V; c_out] /\
    forall b t h j, b < B -> t < T -> h < V -> j < c_out ->
      get y [b; t; h; j] =
        let acc :=
          sumn Ks (fun k => sumn c_in (fun i =>
            mul (get xs [b; t; k; h; i]) (get W [k; i; j]))) in
        match ChebGraphConv.bias m with
        | Some bv => add acc (get bv [j])
        | None => acc
        end.
Proof.
  intros Hwf Hx HK L W Ks c_in c_out.
  destruct (ChebGraphConv_forward_ok m x B T V Hwf Hx HK)
    as (x' & l & y & Hp & Hsx' & Hgx' & Hl & Hlen & Hb & Hy & Hsy & Hgy).
  destruct (stack2_ok l B T V c_in) as (xs & Hxs & Hsxs & Hgxs).
  { lia. }
  { apply Hb. }
  rewrite Hlen in Hsxs, Hgxs.
  exists x', l, xs, y.
  split; [exact Hp|]. split; [exact Hgx'|]. split; [exact Hl|].
  split; [exact Hlen|]. split; [exact Hb|].
  split.
  { intros H3 b t h i Hb' Ht Hh Hi.
    destruct Hb as (_ & H0 & _ & Hk).
    rewrite (Hk 2) by (try assumption; fold Ks in Hlen; lia).
    simpl Nat.sub. rewrite H0 by lia. reflexivity. }
  split; [exact Hxs|]. split; [exact Hsxs|]. split; [exact Hgxs|].
  split; [exact Hy|]. split; [exact Hsy|].
  intros b t h j Hb' Ht Hh Hj. rewrite Hgy by assumption. cbv zeta.
  assert (Hsum :
    sumn Ks (fun k => sumn c_in (fun i =>
      mul (get (nth k l (zeros [])) [b; t; h; i]) (get W [k; i; j]))) =
    sumn Ks (fun k => sumn c_in (fun i =>
      mul (get xs [b; t; k; h; i]) (get W [k; i; j])))).
  { apply sumn_ext. intros k Hk. apply sumn_ext. intros i Hi.
    rewrite Hgxs by assumption. reflexivity. }
  fold Ks c_in W. rewrite Hsum. reflexivity.
Qed.

Lemma C2_cheb_recurrence_witness :
  ChebGraphConv.well_formed ex_cheb 2 /\
  shape ex_x = [1; ChebGraphConv.c_in ex_cheb; 4; 2] /\
  1 <= ChebGraphConv.Ks ex_cheb /\
  exists l y,
    length l = 3 /\
    ChebGraphConv.forward ex_cheb ex_x = Ok y /\
    shape y = [1; 4; 2; 1] /\
    get (nth 2 l (zeros [])) [0; 3; 1; 0] =
      sub (sumn 2 (fun n =>
             mul (mul (of_nat 2) (get ex_gso [1; n]))
                 (get (nth 1 l (zeros [])) [0; 3; n; 0])))
          (get (nth 0 l (zeros [])) [0; 3; 1; 0]).
Proof.
  split; [exact ex_cheb_well_formed|]. split; [reflexivity|].
  split; [simpl; lia|].
  destruct (C2_cheb_recurrence ex_cheb ex_x 1 4 2 ex_cheb_well_formed eq_refl
              ltac:(simpl; lia))
    as (x' & l & xs & y & _ & _ & _ & Hlen & Hb & H3 & _ & _ & _ & Hy & Hsy & _).
  exists l, y. split; [exact Hlen|]. split; [exact Hy|]. split; [exact Hsy|].
  destruct Hb as (_ & H0 & _).
  rewrite H0 by (rewrite Hlen; simpl; lia).
  apply (H3 eq_refl 0 3 1 0); simpl; lia.
Defined.

(** ** C8 *)

(** C8: with [Ks = 1] the graph operator is never read: two
    ChebGraphConv layers that differ only in the operator return the same
    result (or raise the same error) on every input.  On an input with
    [c_in] channels the result at vertex [h] is the linear map
    [sum_i x[b, i, t, h] * W[0, i, j]] (plus the bias) of the input at
    the same vertex. *)
Theorem C8_cheb_order_one {R : Type} {RS : Scalar R}
    (c_in c_out : nat) (L1 L2 W : Tensor R) (bias : option (Tensor R)) :
  (forall x,
     ChebGraphConv.forward (ChebGraphConv.mk c_in c_out 1 L1 W bias) x =
     ChebGraphConv.forward (ChebGraphConv.mk c_in c_out 1 L2 W bias) x) /\
  (forall x B T V,
     shape W = [1; c_in; c_out] ->
     match bias with Some bv => shape bv = [c_out] | None => True end ->
     shape x = [B; c_in; T; V] ->
     exists y,
       ChebGraphConv.forward (ChebGraphConv.mk c_in c_out 1 L1 W bias) x
         = Ok y /\
       shape y = [B; T; V; c_out] /\
       forall b t h j, b < B -> t < T -> h < V -> j < c_out ->
         get y [b; t; h; j] =
           let acc :=
             add zero (sumn c_in (fun i =>
               mul (get x [b; i; t; h]) (get W [0; i; j]))) in
           match bias with
           | Some bv => add acc (get bv [j])
           | None => acc
           end).
Proof.
  split.
  - intros x. rewrite !ChebGraphConv_K1_forward. reflexivity.
  - intros x B T V HW Hbias Hx. rewrite ChebGraphConv_K1_forward.
    destruct (permute_0231 x B c_in T V Hx) as (x' & Hp & Hsx' & Hgx').
    destruct (stack2_ok [x'] B T V c_in) as (xs & Hxs & Hsxs & Hgxs).
    { simpl. lia. }
    { intros k Hk. simpl in Hk. replace k with 0 by lia. exact Hsx'. }
    simpl length in Hsxs, Hgxs.
    destruct (einsum_btkhi_kij_ok xs W B T 1 V c_in c_out Hsxs HW)
      as (cg & Hcg & Hscg & Hgcg).
    assert (Hacc : forall b t h j, b < B -> t < T -> h < V -> j < c_out ->
              get cg [b; t; h; j] =
                add zero (sumn c_in (fun i =>
                  mul (get x [b; i; t; h]) (get W [0; i; j])))).
    { intros b t h j Hb Ht Hh Hj. rewrite Hgcg by assumption.
      rewrite sumn_S, sumn_0. f_equal.
      apply sumn_ext. intros i Hi.
      rewrite Hgxs by (try assumption; lia). simpl nth.
      rewrite Hgx' by assumption. reflexivity. }
    rewrite Hp. cbn [bind]. rewrite Hxs. cbn [bind]. rewrite Hcg. cbn [bind].
    destruct bias as [bv|].
    + destruct (tzip_last add cg bv B T V c_out Hscg Hbias)
        as (y & Hy & Hsy & Hgy).
      exists y. split; [exact Hy|]. split; [exact Hsy|].
      intros b t h j Hb Ht Hh Hj. cbv zeta.
      rewrite Hgy, Hacc by assumption. reflexivity.
    + exists cg. split; [reflexivity|]. split; [exact Hscg|]. exact Hacc.
Qed.

Lemma C8_cheb_order_one_witness :
  shape (tab [1; 1; 1] rnd1) = [1; 1; 1] /\
  shape (tab [1] rnd1) = [1] /\
  shape ex_x = [1; 1; 4; 2] /\
  ChebGraphConv.forward
    (ChebGraphConv.mk 1 1 1 ex_gso (tab [1; 1; 1] rnd1) (Some (tab [1] rnd1)))
    ex_x =
  ChebGraphConv.forward
    (ChebGraphConv.mk 1 1 1 (zeros [2; 2]) (tab [1; 1; 1] rnd1)
       (Some (tab [1] rnd1)))
    ex_x /\
  exists y,
    ChebGraphConv.forward
      (ChebGraphConv.mk 1 1 1 ex_gso (tab [1; 1; 1] rnd1)
         (Some (tab [1] rnd1)))
      ex_x = Ok y /\
    shape y = [1; 4; 2; 1].
Proof.
  split; [reflexivity|]. split; [reflexivity|]. split; [reflexivity|].
  destruct (C8_cheb_order_one 1 1 ex_gso (zeros [2; 2]) (tab [1; 1; 1] rnd1)
              (Some (tab [1] rnd1))) as (Hind & Hlin).
  split; [apply Hind|].
  destruct (Hlin ex_x 1 4 2 eq_refl eq_refl eq_refl) as (y & Hy & Hs & _).
  exists y. split; assumption.
Defined.

(** ** C10 *)

(** C10: the OutputBlock constructor runs its temporal layer once on the
    fixed tensor [zeros [1; 64; 26; 4]]: a constructed block has passed
    that run, and construction raises whenever the incoming channel count
    is not 64 or the temporal kernel size [Ko] exceeds 26, also when
    [Ko] is the value [n_his - (Kt-1)*2*stblock_num >= 1] computed by
    [get_parameters]. *)
Theorem C10_output_block_trial_forward {R : Type} {RS : Scalar R}
    (Ko last_block_channel : nat) (channels : list nat)
    (end_channel n_vertex : nat) (act_func : string) (use_bias : bool)
    (eps : R) (rnd : list nat -> R) :
  (forall m,
     OutputBlock.init Ko last_block_channel channels end_channel n_vertex
       act_func use_bias eps rnd = Ok m ->
     exists z,
       TemporalConvLayer.forward (OutputBlock.tmp_conv1 m)
         (zeros [1; 64; 26; 4]) = Ok z) /\
  (last_block_channel <> 64 \/ 26 < Ko ->
     raises (OutputBlock.init Ko last_block_channel channels end_channel
               n_vertex act_func use_bias eps rnd)) /\
  (forall n_his Kt stblock_num,
     (1 <= Main.Ko n_his Kt stblock_num)%Z ->
     (26 < Main.Ko n_his Kt stblock_num)%Z ->
     raises (OutputBlock.init (Z.to_nat (Main.Ko n_his Kt stblock_num))
               last_block_channel channels end_channel n_vertex act_func
               use_bias eps rnd)).
Proof.
  split; [|split].
  - intros m Hm. apply (OutputBlock_init_trial _ _ _ _ _ _ _ _ _ _ Hm).
  - apply OutputBlock_init_raises.
  - intros n_his Kt stblock_num _ Hbig. apply OutputBlock_init_raises.
    right. lia.
Qed.

Lemma C10_output_block_trial_forward_witness :
  (64 <> 64 \/ 26 < 27) /\
  (1 <= Main.Ko 31 3 1)%Z /\ (26 < Main.Ko 31 3 1)%Z /\
  raises (OutputBlock.init 27 64 [128; 128] 1 5 "glu" true 0%Z rnd1) /\
  raises (OutputBlock.init (Z.to_nat (Main.Ko 31 3 1)) 64 [128; 128] 1 5 "glu"
            true 0%Z rnd1).
Proof.
  assert (H1 : 64 <> 64 \/ 26 < 27) by (right; lia).
  assert (H2 : (1 <= Main.Ko 31 3 1)%Z) by (vm_compute; discriminate).
  assert (H3 : (26 < Main.Ko 31 3 1)%Z) by reflexivity.
  split; [exact H1|]. split; [exact H2|]. split; [exact H3|].
  destruct (C10_output_block_trial_forward 27 64 [128; 128] 1 5 "glu" true
              0%Z rnd1) as (_ & Hr & _).
  destruct (C10_output_block_trial_forward (Z.to_nat (Main.Ko 31 3 1)) 64
              [128; 128] 1 5 "glu" true 0%Z rnd1) as (_ & _ & Hk).
  split; [exact (Hr H1) | exact (Hk 31%Z 3%Z 1%Z H2 H3)].
Defined.

(** ** C9 *)

(** C9 as stated fails: a TemporalConvLayer is constructed with the
    activation name ["tanh"] and a GraphConvLayer with the type name
    ["spectral"], neither of which has a branch in [forward]. *)
Lemma C9_counterexample :
  TemporalConvLayer.supported "tanh" = false /\
  TemporalConvLayer.init 3 1 2 2 "tanh" rnd1 = Ok (ex_tcl "tanh") /\
  ~ raises (TemporalConvLayer.init 3 1 2 2 "tanh" rnd1) /\
  GraphConvLayer.supported "spectral" = false /\
  is_ok (GraphConvLayer.init "spectral" 1 1 2 ex_gso true rnd1) = true /\
  ~ raises (GraphConvLayer.init "spectral" 1 1 2 ex_gso true rnd1).
Proof.
  split; [reflexivity|]. split; [reflexivity|].
  split; [intros (e & He); discriminate He|].
  split; [reflexivity|]. split; [reflexivity|].
  intros (e & He); discriminate He.
Qed.

(** C9, amended: an activation name outside the supported set is not
    rejected by the constructor of TemporalConvLayer, which succeeds for
    every name; it is rejected when [forward] runs, which then never
    returns and, once the alignment and the convolution have gone
    through, raises [NotImplementedError]. *)
Theorem C9_unsupported_name_fails_in_forward {R : Type} {RS : Scalar R}
    (act : string) :
  TemporalConvLayer.supported act = false ->
  forall Kt c_in c_out n_vertex (rnd : list nat -> R),
    exists m,
      TemporalConvLayer.init Kt c_in c_out n_vertex act rnd = Ok m /\
      forall x,
        raises (TemporalConvLayer.forward m x) /\
        forall B T V,
          shape x = [B; c_in; T; V] ->
          1 <= Kt -> Kt <= T -> 1 <= V -> 1 <= c_out ->
          TemporalConvLayer.forward m x = Raise NotImplementedError.
Proof.
  intros Hact Kt c_in c_out n_vertex rnd.
  destruct (TemporalConvLayer_init_well_formed Kt c_in c_out n_vertex act rnd)
    as (m & Hm & Hwf & HKt & Hci & Hco & Ha).
  exists m. split; [exact Hm|]. intros x.
  assert (Hu : TemporalConvLayer.supported (TemporalConvLayer.act_func m)
               = false) by (rewrite Ha; exact Hact).
  destruct (TemporalConvLayer_forward_unsupported m x Hu) as (Hr & Hn).
  split; [exact Hr|].
  intros B T V Hx H1 H2 H3 H4.
  rewrite <- Hci in Hx. rewrite <- HKt in H1, H2. rewrite <- Hco in H4.
  destruct (TemporalConvLayer_x_in m x B T V Hwf Hx H1 H2 H3 H4)
    as (a & x_in & Hal & _ & Hxi & _).
  destruct (TemporalConvLayer_conv_returns m x B T V Hwf Hx H1 H2 H3 H4)
    as (cv & C & Hcv & _).
  apply (Hn a x_in cv Hal Hxi Hcv).
Qed.

Lemma C9_unsupported_name_fails_in_forward_witness :
  TemporalConvLayer.supported "tanh" = false /\
  exists m,
    TemporalConvLayer.init 3 1 2 2 "tanh" rnd1 = Ok m /\
    raises (TemporalConvLayer.forward m (zeros [3])) /\
    TemporalConvLayer.forward m ex_x = Raise NotImplementedError.
Proof.
  split; [reflexivity|].
  destruct (C9_unsupported_name_fails_in_forward (R := Z) "tanh" eq_refl
              3 1 2 2 rnd1) as (m & Hm & Hf).
  exists m. split; [exact Hm|]. split.
  - destruct (Hf (zeros [3])) as (Hr & _). exact Hr.
  - destruct (Hf ex_x) as (_ & Hn). apply (Hn 1 4 2 eq_refl); lia.
Defined.

(** ** C1 *)

(** C1 fails on the code at [n_his = 31], [Kt = 3], [stblock_num = 1]:
    [get_parameters] computes [Ko = 27 >= 1] and the channel sizes
    [[[1]; [64; 16; 64]; [128; 128]; [1]]], but the OutputBlock for them
    cannot be constructed, its trial forward on a 26-step tensor failing
    for a kernel of 27 steps; so no model exists whose forward pass could
    return a result of time length 1. *)
Theorem C1_valid_configuration_without_model {R : Type} {RS : Scalar R}
    (Ks n_vertex : nat) (act_func graph_conv_type framework : string)
    (gso : Tensor R) (enable_bias : bool)
    (nn_MultiheadAttention :
       nat -> nat -> MultiHeadSelfAttention.attention_fn R)
    (eps : R) (rnd : list nat -> R) :
  Main.Ko 31 3 1 = 27%Z /\
  Main.blocks 31 3 1 = [[1]; [64; 16; 64]; [128; 128]; [1]] /\
  raises (OutputBlock.init 27 64 [128; 128] 1 n_vertex act_func enable_bias
            eps rnd) /\
  raises (Model.init
            (Model.mkArgs 3 Ks 31 1 act_func graph_conv_type gso enable_bias
               framework)
            (Main.blocks 31 3 1) n_vertex nn_MultiheadAttention eps rnd).
Proof.
  split; [reflexivity|]. split; [reflexivity|].
  assert (Hout : raises (OutputBlock.init 27 64 [128; 128] 1 n_vertex act_func
                           enable_bias eps rnd)).
  { apply OutputBlock_init_raises. right. lia. }
  split; [exact Hout|].
  unfold Model.init. cbn [Model.Kt Model.stblock_num Model.n_his].
  change (3 <? 1)%Z with false. cbv iota.
  apply raises_bind. intros bs _.
  change (Main.Ko 31 3 1 <=? 0)%Z with false. cbv iota.
  apply raises_bind. intros o Ho. exfalso.
  apply (raises_not_ok _ _ o Hout). exact Ho.
Qed.

(** ** C6 *)

Lemma ex_gcl_init (type : string) :
  GraphConvLayer.init type 1 1 2 (zeros [2; 2]) true rnd1 = Ok (ex_gcl type).
Proof. reflexivity. Qed.

Lemma ex_gcl_well_formed (type : string) :
  GraphConvLayer.well_formed (ex_gcl type) 2.
Proof.
  unfold GraphConvLayer.well_formed, ex_gcl. simpl.
  split; [repeat split|]. split; [reflexivity|]. split; [reflexivity|].
  split.
  - intros ->. eexists. split; [reflexivity|]. repeat split.
  - intros -> ->. eexists. split; [reflexivity|]. repeat split.
Defined.

(** C6 as stated fails on the Chebyshev layer: with the all-zero operator
    and [K = 2] the layer returns [2*x + 1] on the input [x] (bias 1,
    weights 1), whereas [Align(x)] plus the bias is [x + 1]. *)
Lemma C6_counterexample :
  GraphConvLayer.init "cheb_graph_conv" 1 1 2 (zeros [2; 2]) true rnd1
    = Ok (ex_gcl "cheb_graph_conv") /\
  Align.forward (GraphConvLayer.align (ex_gcl "cheb_graph_conv")) ex_x
    = Ok ex_x /\
  exists y,
    GraphConvLayer.forward (ex_gcl "cheb_graph_conv") ex_x = Ok y /\
    get y [0; 0; 1; 0] = 5%Z /\
    add (get ex_x [0; 0; 1; 0]) (get (tab [1] rnd1) [0]) = 3%Z /\
    get y [0; 0; 1; 0] <> add (get ex_x [0; 0; 1; 0]) (get (tab [1] rnd1) [0]).
Proof.
  split; [reflexivity|]. split; [reflexivity|].
  eexists. split; [vm_compute; reflexivity|].
  split; [reflexivity|]. split; [reflexivity|].
  vm_compute. discriminate.
Qed.

(** C6, amended: with an all-zero operator there is no neighbour mixing.
    The first-order layer (type ['graph_conv']) returns [Align(x)] plus
    the bias only.  The Chebyshev layer with [K = 2] returns [Align(x)]
    plus the bias plus the order-0 term [Align(x).W[0]], a linear map of
    the channels at the same vertex: only the order-1 term vanishes. *)
Theorem C6_zero_operator {R : Type} {RS : Scalar R} {RL : ScalarLaws R}
    (m : GraphConvLayer.t R) (x : Tensor R) (B T V : nat) :
  GraphConvLayer.well_formed m V ->
  GraphConvLayer.gso m = zeros [V; V] ->
  GraphConvLayer.Ks m = 2 ->
  shape x = [B; GraphConvLayer.c_in m; T; V] ->
  1 <= GraphConvLayer.c_out m -> 1 <= T -> 1 <= V ->
  let c_out := GraphConvLayer.c_out m in
  exists a,
    Align.forward (GraphConvLayer.align m) x = Ok a /\
    shape a = [B; c_out; T; V] /\
    (GraphConvLayer.graph_conv_type m = "graph_conv"%string ->
       exists g y,
         GraphConvLayer.graph_conv m = Some g /\
         GraphConvLayer.forward m x = Ok y /\
         shape y = [B; c_out; T; V] /\
         forall b c t v, b < B -> c < c_out -> t < T -> v < V ->
           get y [b; c; t; v] =
             add (match GraphConv.bias g with
                  | Some bv => get bv [c]
                  | None => zero
                  end)
                 (get a [b; c; t; v])) /\
    (GraphConvLayer.graph_conv_type m = "cheb_graph_conv"%string ->
       exists g y,
         GraphConvLayer.cheb_graph_conv m = Some g /\
         GraphConvLayer.forward m x = Ok y /\
         shape y = [B; c_out; T; V] /\
         forall b c t v, b < B -> c < c_out -> t < T -> v < V ->
           get y [b; c; t; v] =
             let order0 :=
               sumn c_out (fun i =>
                 mul (get a [b; i; t; v])
                     (get (ChebGraphConv.weight g) [0; i; c])) in
             add (match ChebGraphConv.bias g with
                  | Some bv => add order0 (get bv [c])
                  | None => order0
                  end)
                 (get a [b; c; t; v])).
Proof.
  intros (Hwa & Hai & Hao & Hcheb & Hgc) Hz HK Hx Hc HT HV c_out.
  destruct (Align_forward_shape (GraphConvLayer.align m) x B T V Hwa)
    as (a & Ha & Hsa); rewrite ?Hai, ?Hao; try assumption.
  rewrite Hao in Hsa. fold c_out in Hsa.
  exists a. split; [exact Ha|]. split; [exact Hsa|]. split.
  - intros Htype.
    destruct Hgc as (g & Hg & Hwg & Hgi & Hgo & Hgg);
      [rewrite Htype; reflexivity | rewrite Htype; reflexivity|].
    assert (Hsa' : shape a = [B; GraphConv.c_in g; T; V])
      by (rewrite Hgi; exact Hsa).
    destruct (GraphConv_zero_operator g a B T V Hwg
                ltac:(rewrite Hgg; exact Hz) Hsa')
      as (yc & Hyc & Hsyc & Hgyc).
    rewrite Hgo in Hsyc, Hgyc.
    destruct (GraphConvLayer_residual m x a yc B T V Ha Hsa) as (y & Hy & Hsy & Hgy).
    { rewrite Htype, Hg. exact Hyc. }
    { exact Hsyc. }
    exists g, y. split; [exact Hg|]. split; [exact Hy|]. split; [exact Hsy|].
    intros b c t v Hb Hcc Ht Hv. rewrite Hgy by assumption.
    rewrite Hgyc by assumption. reflexivity.
  - intros Htype.
    destruct Hcheb as (g & Hg & Hwg & Hgi & Hgo & HgK & Hgg);
      [rewrite Htype; reflexivity|].
    assert (Hsa' : shape a = [B; ChebGraphConv.c_in g; T; V])
      by (rewrite Hgi; exact Hsa).
    destruct (ChebGraphConv_zero_operator g a B T V Hwg
                ltac:(rewrite Hgg; exact Hz) ltac:(rewrite HgK; exact HK) Hsa')
      as (yc & Hyc & Hsyc & Hgyc).
    rewrite Hgo in Hsyc, Hgyc. rewrite Hgi in Hgyc.
    destruct (GraphConvLayer_residual m x a yc B T V Ha Hsa) as (y & Hy & Hsy & Hgy).
    { rewrite Htype, Hg. exact Hyc. }
    { exact Hsyc. }
    exists g, y. split; [exact Hg|]. split; [exact Hy|]. split; [exact Hsy|].
    intros b c t v Hb Hcc Ht Hv. rewrite Hgy by assumption.
    rewrite Hgyc by assumption. reflexivity.
Qed.

Lemma C6_zero_operator_witness :
  GraphConvLayer.well_formed (ex_gcl "graph_conv") 2 /\
  GraphConvLayer.gso (ex_gcl "graph_conv") = zeros [2; 2] /\
  GraphConvLayer.Ks (ex_gcl "graph_conv") = 2 /\
  shape ex_x = [1; GraphConvLayer.c_in (ex_gcl "graph_conv"); 4; 2] /\
  1 <= GraphConvLayer.c_out (ex_gcl "graph_conv") /\ 1 <= 4 /\ 1 <= 2 /\
  exists a y,
    Align.forward (GraphConvLayer.align (ex_gcl "graph_conv")) ex_x = Ok a /\
    GraphConvLayer.forward (ex_gcl "graph_conv") ex_x = Ok y /\
    get y [0; 0; 1; 0] = add (get (tab [1] rnd1) [0]) (get a [0; 0; 1; 0]).
Proof.
  split; [apply ex_gcl_well_formed|]. split; [reflexivity|].
  split; [reflexivity|]. split; [reflexivity|].
  split; [simpl; lia|]. split; [lia|]. split; [lia|].
  destruct (C6_zero_operator (ex_gcl "graph_conv") ex_x 1 4 2
              (ex_gcl_well_formed "graph_conv") eq_refl eq_refl eq_refl
              ltac:(simpl; lia) ltac:(lia) ltac:(lia))
    as (a & Ha & _ & Hgc & _).
  destruct (Hgc eq_refl) as (g & y & Hg & Hy & _ & Hgy).
  exists a, y. split; [exact Ha|]. split; [exact Hy|].
  injection Hg as <-.
  apply (Hgy 0 0 1 0); simpl; lia.
Defined.

(** ** C4 *)

(** C4 fails on the code: [forward] hands the attention layer
    [concat.reshape(batch_size, num_nodes, channels*embed_dim)], which
    cuts the row-major elements of [concat] into [num_nodes] runs and does
    not gather the [channel, time] block of each vertex.  For 144
    channels, 3 time steps and 2 vertices, token 0 receives at feature 1
    the element of vertex 1 (channel 0, time 0) and token 1 starts at
    channel 72 of vertex 0, whereas the per-vertex token 0 of the claim
    has at feature 1 the element of vertex 0 at time 1. *)
Theorem C4_attention_tokens_mix_vertices :
  exists tok,
    STConvBlock.attn_tokens ex_concat = Ok tok /\
    shape tok = [1; 2; 432] /\
    get tok [0; 0; 1] = get ex_concat [0; 0; 0; 1] /\
    get tok [0; 1; 0] = get ex_concat [0; 72; 0; 0] /\
    get (per_vertex_tokens ex_concat) [0; 0; 1] = get ex_concat [0; 0; 1; 0] /\
    get tok [0; 0; 1] <> get (per_vertex_tokens ex_concat) [0; 0; 1] /\
    tok <> per_vertex_tokens ex_concat.
Proof.
  destruct (attn_tokens_position ex_concat 1 144 3 2 eq_refl)
    as (tok & Htok & Hs & Hg).
  exists tok. split; [exact Htok|]. split; [exact Hs|].
  assert (H1 : get tok [0; 0; 1] = get ex_concat [0; 0; 0; 1])
    by (apply (Hg 0 0 0 1); lia).
  assert (H2 : get tok [0; 1; 0] = get ex_concat [0; 72; 0; 0])
    by (apply (Hg 0 72 0 0); lia).
  assert (H3 : get (per_vertex_tokens ex_concat) [0; 0; 1]
               = get ex_concat [0; 0; 1; 0]).
  { unfold per_vertex_tokens. rewrite get_tab by (vm_compute; lia).
    reflexivity. }
  assert (H4 : get tok [0; 0; 1] <> get (per_vertex_tokens ex_concat) [0; 0; 1]).
  { rewrite H1, H3. vm_compute. discriminate. }
  split; [exact H1|]. split; [exact H2|]. split; [exact H3|].
  split; [exact H4|].
  intros Heq. apply H4. rewrite Heq. reflexivity.
Qed.

(** * Further properties of the code *)

(** ** CausalConv1d *)

Section Conv1dFacts.

Context {R : Type} {RS : Scalar R}.

(** On a rank-3 input the convolution is the batched one. *)
Lemma Conv1d_forward_rank3 (m : Conv1d.t R) (x : Tensor R) (B C L : nat) :
  shape x = [B; C; L] ->
  Conv1d.forward m x = Conv1d.forward_batched m x.
Proof. intros Hx. unfold Conv1d.forward. rewrite Hx. reflexivity. Qed.

Lemma Conv1d_forward_ok (m : Conv1d.t R) (x : Tensor R) (B L : nat) :
  shape x = [B; Conv1d.in_channels m; L] ->
  1 <= Conv1d.in_channels m ->
  Conv1d.out_channels m <> 0 ->
  1 <= Conv1d.kernel_size m -> 1 <= Conv1d.stride m ->
  1 <= Conv1d.dilation m ->
  Conv1d.dilation m * (Conv1d.kernel_size m - 1) + 1
    <= L + 2 * Conv1d.padding m ->
  exists y, Conv1d.forward m x = Ok y /\
    shape y = [B; Conv1d.out_channels m; Conv1d.out_len m L] /\
    forall b o i, b < B -> o < Conv1d.out_channels m ->
      i < Conv1d.out_len m L ->
      get y [b; o; i] = Conv1d.elem m x (Conv1d.in_channels m) L b o i.
Proof.
  intros Hx Hi Ho Hk Hs Hd HL.
  rewrite (Conv1d_forward_rank3 m x _ _ _ Hx). unfold Conv1d.forward_batched.
  rewrite Hx, Nat.eqb_refl. simpl negb. cbv iota.
  match goal with |- context [if ?c then Raise RuntimeError else if _ then _ else _] =>
    destruct c eqn:E1 end.
  { rewrite !orb_true_iff, !Nat.eqb_eq in E1. lia. }
  destruct (Nat.ltb_spec (L + 2 * Conv1d.padding m)
              (Conv1d.dilation m * (Conv1d.kernel_size m - 1) + 1)); [lia|].
  destruct (Nat.eqb_spec (Conv1d.in_channels m) 0) as [H0|_]; [lia|].
  eexists. split; [reflexivity|]. split; [reflexivity|].
  intros. rewrite get_tab by in_range_tac. reflexivity.
Qed.

Lemma Conv1d_forward_too_short (m : Conv1d.t R) (x : Tensor R) (B C L : nat) :
  shape x = [B; C; L] ->
  L + 2 * Conv1d.padding m
    < Conv1d.dilation m * (Conv1d.kernel_size m - 1) + 1 ->
  Conv1d.forward m x = Raise RuntimeError.
Proof.
  intros Hx HL. rewrite (Conv1d_forward_rank3 m x _ _ _ Hx).
  unfold Conv1d.forward_batched. rewrite Hx.
  destruct (negb _); [reflexivity|].
  match goal with |- context [if ?c then Raise RuntimeError else if _ then _ else _] =>
    destruct c end; [reflexivity|].
  apply Nat.ltb_lt in HL. rewrite HL. reflexivity.
Qed.

Lemma CausalConv1d_trim_ok (p : nat) (x : Tensor R) (B C L : nat) :
  shape x = [B; C; L + p] -> 1 <= p ->
  exists y, CausalConv1d.trim p x = Ok y /\ shape y = [B; C; L] /\
    forall b c i, b < B -> c < C -> i < L -> get y [b; c; i] = get x [b; c; i].
Proof.
  intros Hx Hp. unfold CausalConv1d.trim. rewrite Hx.
  assert (Hn : py_norm (- Z.of_nat p) (L + p) = L).
  { unfold py_norm. destruct (Z.ltb_spec (- Z.of_nat p) 0); lia. }
  rewrite Hn. eexists. split; [reflexivity|]. split; [reflexivity|].
  intros. rewrite get_tab by in_range_tac. reflexivity.
Qed.

(** A padded CausalConv1d of stride 1: the result, trimmed or not, has
    the input's length and is the convolution read at the same index. *)
Lemma CausalConv1d_padded_ok (c_in c_out k d : nat) (use_bias : bool)
    (rnd : list nat -> R) (x : Tensor R) (B L : nat) :
  shape x = [B; c_in; L] ->
  1 <= c_in -> 1 <= c_out -> 1 <= k -> 1 <= d -> 1 <= L ->
  let m := CausalConv1d.init c_in c_out k 1 true d use_bias rnd in
  exists y, CausalConv1d.forward m x = Ok y /\
    shape y = [B; c_out; L] /\
    forall b o t, b < B -> o < c_out -> t < L ->
      get y [b; o; t] = Conv1d.elem (CausalConv1d.conv m) x c_in L b o t.
Proof.
  intros Hx Hi Hc Hk Hd HL m.
  destruct (Conv1d_forward_ok (CausalConv1d.conv m) x B L)
    as (r & Hr & Hsr & Hgr); simpl; try lia; try assumption; try nia.
  assert (Hlen : Conv1d.out_len (CausalConv1d.conv m) L = L + (k - 1) * d).
  { unfold Conv1d.out_len, m, CausalConv1d.init, Conv1d.init.
    cbn -[Nat.div Nat.mul Nat.add Nat.sub]. rewrite Nat.div_1_r. nia. }
  rewrite Hlen in Hsr, Hgr.
  change (Conv1d.out_channels (CausalConv1d.conv m)) with c_out in *.
  change (Conv1d.in_channels (CausalConv1d.conv m)) with c_in in *.
  unfold CausalConv1d.forward. rewrite Hr. cbn [bind].
  cbn [CausalConv1d.padding m CausalConv1d.init].
  destruct (Nat.eqb_spec ((k - 1) * d) 0) as [E | E]; cbn [negb].
  - rewrite E, Nat.add_0_r in Hsr, Hgr.
    exists r. split; [reflexivity|]. split; [exact Hsr|]. exact Hgr.
  - assert (Hp : 1 <= (k - 1) * d)
      by (destruct ((k - 1) * d); [contradiction | lia]).
    destruct (CausalConv1d_trim_ok ((k - 1) * d) r B c_out L Hsr Hp)
      as (y & Hy & Hsy & Hgy).
    exists y. split; [exact Hy|]. split; [exact Hsy|].
    intros b o t Hb Ho Ht. rewrite Hgy by assumption. apply Hgr; lia.
Qed.

End Conv1dFacts.

(** X1: a padded CausalConv1d of stride 1 (any kernel size and dilation,
    at least one input channel) returns a result of the input's length,
    and its value at position [t] is the same for two inputs that agree
    at all positions [<= t]. *)
Theorem X1_causal_conv1d_padded_is_causal {R : Type} {RS : Scalar R}
    (c_in c_out k d : nat) (use_bias : bool) (rnd : list nat -> R)
    (x : Tensor R) (B L : nat) :
  shape x = [B; c_in; L] ->
  1 <= c_in -> 1 <= c_out -> 1 <= k -> 1 <= d -> 1 <= L ->
  let m := CausalConv1d.init c_in c_out k 1 true d use_bias rnd in
  exists y, CausalConv1d.forward m x = Ok y /\
    shape y = [B; c_out; L] /\
    forall x' t, shape x' = [B; c_in; L] -> t < L ->
      (forall b c s, b < B -> c < c_in -> s <= t ->
         get x' [b; c; s] = get x [b; c; s]) ->
      exists y', CausalConv1d.forward m x' = Ok y' /\
        forall b o, b < B -> o < c_out ->
          get y' [b; o; t] = get y [b; o; t].
Proof.
  intros Hx Hi Hc Hk Hd HL m.
  destruct (CausalConv1d_padded_ok c_in c_out k d use_bias rnd x B L
              Hx Hi Hc Hk Hd HL) as (y & Hy & Hsy & Hgy).
  exists y. split; [exact Hy|]. split; [exact Hsy|].
  intros x' t Hx' Ht Hagree.
  destruct (CausalConv1d_padded_ok c_in c_out k d use_bias rnd x' B L
              Hx' Hi Hc Hk Hd HL) as (y' & Hy' & _ & Hgy').
  exists y'. split; [exact Hy'|].
  intros b o Hb Ho. rewrite Hgy, Hgy' by assumption.
  unfold Conv1d.elem. simpl.
  assert (Hsum :
    sumn c_in (fun c => sumn k (fun j =>
      mul (Conv1d.padded (CausalConv1d.conv m) x' L b c (t * 1 + j * d))
          (get (tab [c_out; c_in; k] rnd) [o; c; j]))) =
    sumn c_in (fun c => sumn k (fun j =>
      mul (Conv1d.padded (CausalConv1d.conv m) x L b c (t * 1 + j * d))
          (get (tab [c_out; c_in; k] rnd) [o; c; j])))).
  { apply sumn_ext. intros c Hcc. apply sumn_ext. intros j Hj. f_equal.
    unfold Conv1d.padded. simpl.
    assert (Hjd : j * d <= (k - 1) * d) by nia.
    destruct (((k - 1) * d <=? t * 1 + j * d)
              && (t * 1 + j * d <? (k - 1) * d + L))%bool eqn:E;
      [|reflexivity].
    rewrite andb_true_iff in E. destruct E as (E1 & E2).
    apply Nat.leb_le in E1. apply Nat.ltb_lt in E2.
    apply Hagree; lia. }
  exact (f_equal (fun s => match (if use_bias
                                  then Some (tab [c_out] rnd) else None) with
                           | Some bv => add s (get bv [o])
                           | None => s
                           end) Hsum).
Qed.

Lemma X1_causal_conv1d_padded_is_causal_witness :
  shape (tab [1; 1; 4] rnd1) = [1; 1; 4] /\
  1 <= 1 /\ 1 <= 1 /\ 1 <= 3 /\ 1 <= 2 /\ 1 <= 4 /\
  exists y,
    CausalConv1d.forward (CausalConv1d.init 1 1 3 1 true 2 true rnd1)
      (tab [1; 1; 4] rnd1) = Ok y /\
    shape y = [1; 1; 4].
Proof.
  split; [reflexivity|]. repeat (split; [lia|]).
  destruct (X1_causal_conv1d_padded_is_causal 1 1 3 2 true rnd1
              (tab [1; 1; 4] rnd1) 1 4 eq_refl
              ltac:(lia) ltac:(lia) ltac:(lia) ltac:(lia) ltac:(lia))
    as (y & Hy & Hs & _).
  exists y. split; assumption.
Defined.

(** X2: an unpadded CausalConv1d of stride 1 trims nothing: its forward
    is the convolution's; with at least one input channel it returns
    [c_out] channels over [L - dilation*(k-1)] positions when the dilated
    kernel fits in the input, and it raises [RuntimeError] when the kernel
    does not fit. *)
Theorem X2_causal_conv1d_unpadded {R : Type} {RS : Scalar R}
    (c_in c_out k d : nat) (use_bias : bool) (rnd : list nat -> R)
    (x : Tensor R) (B L : nat) :
  shape x = [B; c_in; L] ->
  1 <= c_out -> 1 <= k -> 1 <= d ->
  let m := CausalConv1d.init c_in c_out k 1 false d use_bias rnd in
  CausalConv1d.forward m x = Conv1d.forward (CausalConv1d.conv m) x /\
  (1 <= c_in -> d * (k - 1) + 1 <= L ->
     exists y, CausalConv1d.forward m x = Ok y /\
       shape y = [B; c_out; L - d * (k - 1)]) /\
  (L < d * (k - 1) + 1 -> CausalConv1d.forward m x = Raise RuntimeError).
Proof.
  intros Hx Hc Hk Hd m.
  assert (Hfw : CausalConv1d.forward m x = Conv1d.forward (CausalConv1d.conv m) x).
  { unfold CausalConv1d.forward.
    destruct (Conv1d.forward (CausalConv1d.conv m) x); reflexivity. }
  split; [exact Hfw|]. rewrite Hfw. split.
  - intros Hi HL.
    destruct (Conv1d_forward_ok (CausalConv1d.conv m) x B L)
      as (y & Hy & Hsy & _); simpl; try lia; try assumption.
    exists y. split; [exact Hy|]. rewrite Hsy. f_equal. f_equal. f_equal.
    unfold Conv1d.out_len, m, CausalConv1d.init, Conv1d.init.
    cbn -[Nat.div Nat.mul Nat.add Nat.sub]. rewrite Nat.div_1_r. lia.
  - intros HL.
    apply Conv1d_forward_too_short with (B := B) (C := c_in) (L := L);
      [exact Hx | simpl; lia].
Qed.

Lemma X2_causal_conv1d_unpadded_witness :
  shape (tab [1; 1; 4] rnd1) = [1; 1; 4] /\
  1 <= 1 /\ 1 <= 3 /\ 1 <= 1 /\
  (exists y,
     CausalConv1d.forward (CausalConv1d.init 1 1 3 1 false 1 true rnd1)
       (tab [1; 1; 4] rnd1) = Ok y /\
     shape y = [1; 1; 4 - 1 * (3 - 1)]) /\
  CausalConv1d.forward (CausalConv1d.init 1 1 3 1 false 1 true rnd1)
    (tab [1; 1; 2] rnd1) = Raise RuntimeError.
Proof.
  split; [reflexivity|]. repeat (split; [lia|]).
  split.
  - destruct (X2_causal_conv1d_unpadded 1 1 3 1 true rnd1 (tab [1; 1; 4] rnd1)
                1 4 eq_refl ltac:(lia) ltac:(lia) ltac:(lia))
      as (_ & Hok & _).
    apply Hok; lia.
  - destruct (X2_causal_conv1d_unpadded 1 1 3 1 true rnd1 (tab [1; 1; 2] rnd1)
                1 2 eq_refl ltac:(lia) ltac:(lia) ltac:(lia))
      as (_ & _ & Hbad).
    apply Hbad. lia.
Defined.

(** ** CausalConv2d with a stride and a dilation *)

(** X3: an unpadded CausalConv2d with any stride and dilation and at
    least one input channel returns [c_out] channels over
    [(T - (dt*(Kt-1) + 1)) / st + 1] time steps (and likewise on the
    vertex axis) when the dilated kernel fits in the input; it raises
    [RuntimeError] when the kernel is longer than the time axis. *)
Theorem X3_causal_conv2d_unpadded_extent {R : Type} {RS : Scalar R}
    (c_in c_out Kt Kw st sw dt dw : nat) (use_bias : bool)
    (rnd : list nat -> R) (x : Tensor R) (B T V : nat) :
  shape x = [B; c_in; T; V] ->
  1 <= c_out -> 1 <= Kt -> 1 <= Kw -> 1 <= st -> 1 <= sw ->
  1 <= dt -> 1 <= dw ->
  let m := CausalConv2d.init c_in c_out (Kt, Kw) (st, sw) false (dt, dw)
             use_bias rnd in
  (1 <= c_in -> dt * (Kt - 1) + 1 <= T -> dw * (Kw - 1) + 1 <= V ->
     exists y, CausalConv2d.forward m x = Ok y /\
       shape y = [B; c_out;
                  (T - (dt * (Kt - 1) + 1)) / st + 1;
                  (V - (dw * (Kw - 1) + 1)) / sw + 1]) /\
  (T < dt * (Kt - 1) + 1 -> CausalConv2d.forward m x = Raise RuntimeError).
Proof.
  intros Hx Hc HKt HKw Hst Hsw Hdt Hdw m. split.
  - intros Hi HT HV.
    destruct (Conv2d_forward_ok (CausalConv2d.conv m) x B T V)
      as (y & Hy & Hsy & _); simpl; try lia; try assumption.
    exists y. split; [exact Hy | exact Hsy].
  - intros HT. unfold CausalConv2d.forward.
    cbn [CausalConv2d.padding m CausalConv2d.init bind].
    apply Conv2d_forward_kernel_too_large with (B := B) (C := c_in) (H := T)
      (W := V); [exact Hx | simpl; lia].
Qed.

Lemma X3_causal_conv2d_unpadded_extent_witness :
  shape ex_x = [1; 1; 4; 2] /\
  1 <= 1 /\ 1 <= 2 /\ 1 <= 1 /\ 1 <= 2 /\ 1 <= 1 /\ 1 <= 3 /\ 1 <= 1 /\
  (exists y,
     CausalConv2d.forward
       (CausalConv2d.init 1 1 (2, 1) (2, 1) false (3, 1) true rnd1) ex_x
       = Ok y /\
     shape y = [1; 1; (4 - (3 * (2 - 1) + 1)) / 2 + 1;
                (2 - (1 * (1 - 1) + 1)) / 1 + 1]) /\
  CausalConv2d.forward
    (CausalConv2d.init 1 1 (3, 1) (2, 1) false (3, 1) true rnd1) ex_x
    = Raise RuntimeError.
Proof.
  split; [reflexivity|]. repeat (split; [lia|]).
  split.
  - destruct (X3_causal_conv2d_unpadded_extent 1 1 2 1 2 1 3 1 true rnd1 ex_x
                1 4 2 eq_refl ltac:(lia) ltac:(lia) ltac:(lia) ltac:(lia)
                ltac:(lia) ltac:(lia) ltac:(lia)) as (Hok & _).
    apply Hok; simpl; lia.
  - destruct (X3_causal_conv2d_unpadded_extent 1 1 3 1 2 1 3 1 true rnd1 ex_x
                1 4 2 eq_refl ltac:(lia) ltac:(lia) ltac:(lia) ltac:(lia)
                ltac:(lia) ltac:(lia) ltac:(lia)) as (_ & Hbad).
    apply Hbad; simpl; lia.
Defined.

(** ** Errors of TemporalConvLayer *)

Section TemporalErrorFacts.

Context {R : Type} {RS : Scalar R}.

(** On a rank-4 input the convolution returns a rank-4 result or raises
    [RuntimeError]. *)
Lemma Conv2d_forward_cases (m : Conv2d.t R) (x : Tensor R) (B C H W : nat) :
  shape x = [B; C; H; W] ->
  Conv2d.forward m x = Raise RuntimeError \/
  exists y O H' W', Conv2d.forward m x = Ok y /\ shape y = [B; O; H'; W'].
Proof.
  intros Hx. rewrite (Conv2d_forward_rank4 m x _ _ _ _ Hx).
  unfold Conv2d.forward_batched. rewrite Hx.
  destruct (negb _); [left; reflexivity|].
  match goal with |- context [if ?c then Raise RuntimeError else if _ then _ else _] =>
    destruct c end; [left; reflexivity|].
  match goal with |- context [if ?c then Raise RuntimeError else Ok _] =>
    destruct c end; [left; reflexivity|].
  right. eexists. eexists. eexists. eexists. split; reflexivity.
Qed.

Lemma Align_forward_cases (m : Align.t R) (x : Tensor R) (B C T V : nat) :
  shape x = [B; C; T; V] ->
  Align.forward m x = Raise RuntimeError \/
  exists a C' T' V', Align.forward m x = Ok a /\ shape a = [B; C'; T'; V'].
Proof.
  intros Hx. unfold Align.forward.
  destruct (Align.c_out m <? Align.c_in m).
  - apply Conv2d_forward_cases with (C := C) (H := T) (W := V). exact Hx.
  - destruct (Align.c_in m <? Align.c_out m) eqn:E.
    + right. rewrite Hx. unfold cat_channels. cbn [fold_left bind].
      destruct (cat1_ok x (zeros [B; Align.c_out m - Align.c_in m; T; V])
                  B C (Align.c_out m - Align.c_in m) T V Hx eq_refl)
        as (z & Hz & Hs & _).
      exists z. eexists. eexists. eexists. split; [exact Hz | exact Hs].
    + right. exists x, C, T, V. split; [reflexivity | exact Hx].
Qed.

End TemporalErrorFacts.

(** The convolution of the temporal layer rejects the input. *)
Lemma TemporalConvLayer_forward_rejects {R : Type} {RS : Scalar R}
    (m : TemporalConvLayer.t R) (x : Tensor R) (B C T V : nat) :
  TemporalConvLayer.well_formed m ->
  shape x = [B; C; T; V] ->
  C <> TemporalConvLayer.c_in m \/ T < TemporalConvLayer.Kt m ->
  TemporalConvLayer.forward m x = Raise RuntimeError.
Proof.
  intros (_ & _ & _ & Hp & Hi & _ & Hk & _ & Hd) Hx Hbad.
  assert (Hcv : CausalConv2d.forward (TemporalConvLayer.causal_conv m) x
                = Raise RuntimeError).
  { unfold CausalConv2d.forward. rewrite Hp. cbn [bind].
    destruct Hbad as [HC | HT].
    - apply Conv2d_forward_channel_mismatch with (B := B) (C := C) (H := T)
        (W := V); [exact Hx | rewrite Hi; exact HC].
    - apply Conv2d_forward_kernel_too_large with (B := B) (C := C) (H := T)
        (W := V); [exact Hx | rewrite Hk, Hd; simpl; lia]. }
  unfold TemporalConvLayer.forward.
  destruct (Align_forward_cases (TemporalConvLayer.align m) x B C T V Hx)
    as [Ha | (a & C' & T' & V' & Ha & Hsa)]; rewrite Ha; cbn [bind];
    [reflexivity|].
  destruct (slice_time_ok
              (py_norm (Z.of_nat (TemporalConvLayer.Kt m) - 1) (dim a 2))
              (dim a 2) a B C' T' V' Hsa) as (x_in & Hxi & _).
  rewrite Hxi. cbn [bind]. rewrite Hcv. reflexivity.
Qed.

(** X4: a TemporalConvLayer raises [RuntimeError] on every 4-D input
    whose channel count is not [c_in] or that has fewer than [Kt] time
    steps, whatever the activation name. *)
Theorem X4_temporal_layer_rejects_input {R : Type} {RS : Scalar R}
    (m : TemporalConvLayer.t R) (x : Tensor R) (B C T V : nat) :
  TemporalConvLayer.well_formed m ->
  shape x = [B; C; T; V] ->
  C <> TemporalConvLayer.c_in m \/ T < TemporalConvLayer.Kt m ->
  TemporalConvLayer.forward m x = Raise RuntimeError.
Proof. apply TemporalConvLayer_forward_rejects. Qed.

Lemma X4_temporal_layer_rejects_input_witness :
  TemporalConvLayer.well_formed (ex_tcl "glu") /\
  shape (tab [1; 1; 2; 2] rnd1) = [1; 1; 2; 2] /\
  (1 <> TemporalConvLayer.c_in (ex_tcl "glu") \/
   2 < TemporalConvLayer.Kt (ex_tcl "glu")) /\
  TemporalConvLayer.forward (ex_tcl "glu") (tab [1; 1; 2; 2] rnd1)
    = Raise RuntimeError.
Proof.
  assert (H : 1 <> TemporalConvLayer.c_in (ex_tcl "glu") \/
              2 < TemporalConvLayer.Kt (ex_tcl "glu"))
    by (right; simpl; lia).
  split; [apply ex_tcl_well_formed|]. split; [reflexivity|].
  split; [exact H|].
  exact (X4_temporal_layer_rejects_input (ex_tcl "glu") (tab [1; 1; 2; 2] rnd1)
           1 1 2 2 (ex_tcl_well_formed "glu") eq_refl H).
Defined.

(** ** Chebyshev order 0 *)

(** X5: an order [Ks = 0] is not rejected when the layer is built: a
    ChebGraphConv with [Ks = 0] raises [ValueError] on every 4-D input,
    and a GraphConvLayer of type ['cheb_graph_conv'] built with [Ks = 0]
    is constructed and raises [ValueError] in its forward pass. *)
Theorem X5_cheb_order_zero_fails_in_forward {R : Type} {RS : Scalar R}
    (c_in c_out : nat) (gso : Tensor R) (use_bias : bool)
    (rnd : list nat -> R) (x : Tensor R) (B C T V : nat) :
  shape x = [B; C; T; V] ->
  ChebGraphConv.forward (ChebGraphConv.init c_in c_out 0 gso use_bias rnd) x
    = Raise ValueError /\
  exists m,
    GraphConvLayer.init "cheb_graph_conv" c_in c_out 0 gso use_bias rnd
      = Ok m /\
    (C = c_in -> 1 <= c_out -> 1 <= T -> 1 <= V ->
       GraphConvLayer.forward m x = Raise ValueError).
Proof.
  intros Hx.
  assert (Hcheb : forall (a : Tensor R) B' C' T' V' ci co,
            shape a = [B'; C'; T'; V'] ->
            ChebGraphConv.forward (ChebGraphConv.init ci co 0 gso use_bias rnd) a
              = Raise ValueError).
  { intros a B' C' T' V' ci co Ha. unfold ChebGraphConv.forward.
    destruct (permute_0231 a B' C' T' V' Ha) as (a' & Hp & _).
    rewrite Hp. reflexivity. }
  split; [apply (Hcheb x B C T V); exact Hx|].
  eexists. split; [reflexivity|].
  intros -> Hc HT HV.
  destruct (Align_forward_shape (Align.init c_in c_out rnd) x B T V
              (Align_init_well_formed c_in c_out rnd) Hx Hc HT HV)
    as (a & Ha & Hsa).
  unfold GraphConvLayer.forward. cbn [GraphConvLayer.align].
  rewrite Ha. cbn [bind]. cbn [GraphConvLayer.graph_conv_type String.eqb].
  cbn. rewrite (Hcheb a B c_out T V c_out c_out Hsa). reflexivity.
Qed.

Lemma X5_cheb_order_zero_fails_in_forward_witness :
  shape ex_x = [1; 1; 4; 2] /\
  ChebGraphConv.forward (ChebGraphConv.init 1 1 0 ex_gso true rnd1) ex_x
    = Raise ValueError /\
  exists m,
    GraphConvLayer.init "cheb_graph_conv" 1 1 0 ex_gso true rnd1 = Ok m /\
    GraphConvLayer.forward m ex_x = Raise ValueError.
Proof.
  split; [reflexivity|].
  destruct (X5_cheb_order_zero_fails_in_forward 1 1 ex_gso true rnd1 ex_x
              1 1 4 2 eq_refl) as (Hc & m & Hm & Hf).
  split; [exact Hc|]. exists m. split; [exact Hm|].
  apply Hf; [reflexivity | lia | lia | lia].
Defined.

(** ** Graph convolutions *)

(** X6: the first-order GraphConv returns, channels last, the operator
    applied over the vertex axis followed by the weight over the channel
    axis, plus the bias when there is one:
    [y[b,t,h,j] = sum_i (sum_n L[h,n] * x[b,i,t,n]) * W[i,j] + bias[j]]. *)
Theorem X6_graph_conv_first_order {R : Type} {RS : Scalar R}
    (m : GraphConv.t R) (x : Tensor R) (B T V : nat) :
  GraphConv.well_formed m V ->
  shape x = [B; GraphConv.c_in m; T; V] ->
  exists y, GraphConv.forward m x = Ok y /\
    shape y = [B; T; V; GraphConv.c_out m] /\
    forall b t h j, b < B -> t < T -> h < V -> j < GraphConv.c_out m ->
      get y [b; t; h; j] =
        let acc :=
          sumn (GraphConv.c_in m) (fun i =>
            mul (sumn V (fun n =>
                   mul (get (GraphConv.gso m) [h; n]) (get x [b; i; t; n])))
                (get (GraphConv.weight m) [i; j])) in
        match GraphConv.bias m with
        | Some bv => add acc (get bv [j])
        | None => acc
        end.
Proof.
  intros Hwf Hx. apply GraphConv_forward_ok; assumption.
Qed.

Lemma ex_graph_conv_well_formed :
  GraphConv.well_formed (GraphConv.init 1 1 ex_gso true rnd1) 2.
Proof. repeat split. Defined.

Lemma X6_graph_conv_first_order_witness :
  GraphConv.well_formed (GraphConv.init 1 1 ex_gso true rnd1) 2 /\
  shape ex_x = [1; 1; 4; 2] /\
  exists y,
    GraphConv.forward (GraphConv.init 1 1 ex_gso true rnd1) ex_x = Ok y /\
    shape y = [1; 4; 2; 1].
Proof.
  split; [exact ex_graph_conv_well_formed|]. split; [reflexivity|].
  destruct (X6_graph_conv_first_order (GraphConv.init 1 1 ex_gso true rnd1)
              ex_x 1 4 2 ex_graph_conv_well_formed eq_refl)
    as (y & Hy & Hs & _).
  exists y. split; assumption.
Defined.

(** X7: a ChebGraphConv of order 2 is the first-order GraphConv with the
    weight [W[1]] (and no bias) plus the term [x.W[0]] of the same
    vertex, plus the bias:
    [cheb[b,t,h,j] = sum_i x[b,i,t,h] * W[0,i,j] + graph_conv[b,t,h,j]
    (+ bias[j])]. *)
Theorem X7_cheb_order_two_decomposes {R : Type} {RS : Scalar R}
    {RL : ScalarLaws R} (g : ChebGraphConv.t R) (x : Tensor R) (B T V : nat) :
  ChebGraphConv.well_formed g V ->
  ChebGraphConv.Ks g = 2 ->
  shape x = [B; ChebGraphConv.c_in g; T; V] ->
  let W1 :=
    tab [ChebGraphConv.c_in g; ChebGraphConv.c_out g] (fun idx =>
      match idx with
      | [i; j] => get (ChebGraphConv.weight g) [1; i; j]
      | _ => zero
      end) in
  let g1 :=
    GraphConv.mk (ChebGraphConv.c_in g) (ChebGraphConv.c_out g)
      (ChebGraphConv.gso g) W1 None in
  exists y y1,
    ChebGraphConv.forward g x = Ok y /\
    GraphConv.forward g1 x = Ok y1 /\
    shape y = shape y1 /\
    forall b t h j, b < B -> t < T -> h < V -> j < ChebGraphConv.c_out g ->
      get y [b; t; h; j] =
        let acc :=
          add (sumn (ChebGraphConv.c_in g) (fun i =>
                 mul (get x [b; i; t; h])
                     (get (ChebGraphConv.weight g) [0; i; j])))
              (get y1 [b; t; h; j]) in
        match ChebGraphConv.bias g with
        | Some bv => add acc (get bv [j])
        | None => acc
        end.
Proof.
  intros Hwf HK Hx W1 g1.
  destruct (ChebGraphConv_forward_ok g x B T V Hwf Hx ltac:(lia))
    as (x' & l & y & _ & _ & Hgx' & _ & Hlen & Hb & Hy & Hsy & Hgy).
  assert (Hwf1 : GraphConv.well_formed g1 V).
  { destruct Hwf as (HL & _). repeat split. exact HL. }
  destruct (GraphConv_forward_ok g1 x B T V Hwf1 Hx) as (y1 & Hy1 & Hsy1 & Hgy1).
  exists y, y1. split; [exact Hy|]. split; [exact Hy1|].
  split; [rewrite Hsy, Hsy1; reflexivity|].
  intros b t h j Hb' Ht Hh Hj. rewrite Hgy by assumption. cbv zeta.
  destruct Hb as (_ & H0 & H1 & _).
  assert (Hacc :
    sumn (ChebGraphConv.Ks g) (fun k =>
      sumn (ChebGraphConv.c_in g) (fun i =>
        mul (get (nth k l (zeros [])) [b; t; h; i])
            (get (ChebGraphConv.weight g) [k; i; j]))) =
    add (sumn (ChebGraphConv.c_in g) (fun i =>
           mul (get x [b; i; t; h]) (get (ChebGraphConv.weight g) [0; i; j])))
        (get y1 [b; t; h; j])).
  { rewrite HK, !sumn_S, sumn_0, add_zero_l. f_equal.
    - apply sumn_ext. intros i Hi. rewrite H0 by lia.
      rewrite Hgx' by assumption. reflexivity.
    - rewrite (Hgy1 b t h j) by assumption. unfold g1.
      cbn [GraphConv.c_in GraphConv.gso GraphConv.weight GraphConv.bias].
      apply sumn_ext. intros i Hi.
      rewrite H1 by (try assumption; lia).
      unfold W1. rewrite get_tab by in_range_tac. f_equal.
      apply sumn_ext. intros n Hn. rewrite Hgx' by assumption. reflexivity. }
  rewrite Hacc. reflexivity.
Qed.

Lemma ex_cheb2_well_formed :
  ChebGraphConv.well_formed (ChebGraphConv.init 1 1 2 ex_gso true rnd1) 2.
Proof. repeat split. Defined.

Lemma X7_cheb_order_two_decomposes_witness :
  ChebGraphConv.well_formed (ChebGraphConv.init 1 1 2 ex_gso true rnd1) 2 /\
  ChebGraphConv.Ks (ChebGraphConv.init 1 1 2 ex_gso true rnd1) = 2 /\
  shape ex_x = [1; 1; 4; 2] /\
  exists y,
    ChebGraphConv.forward (ChebGraphConv.init 1 1 2 ex_gso true rnd1) ex_x
      = Ok y /\
    shape y = [1; 4; 2; 1].
Proof.
  split; [exact ex_cheb2_well_formed|]. split; [reflexivity|].
  split; [reflexivity|].
  destruct (X7_cheb_order_two_decomposes
              (ChebGraphConv.init 1 1 2 ex_gso true rnd1) ex_x 1 4 2
              ex_cheb2_well_formed eq_refl eq_refl)
    as (y & y1 & Hy & Hy1 & Hs & _).
  exists y. split; [exact Hy|].
  rewrite Hs. revert Hy1. vm_compute. intros H. injection H as <-.
  reflexivity.
Defined.

(** X8: for both supported types (order [Ks >= 1]) a GraphConvLayer
    returns a tensor of shape [[B; c_out; T; V]] that is the sum of the
    graph convolution of the aligned input, permuted back to channels
    second, and the aligned input itself. *)
Theorem X8_graph_layer_residual {R : Type} {RS : Scalar R}
    (m : GraphConvLayer.t R) (x : Tensor R) (B T V : nat) :
  GraphConvLayer.well_formed m V ->
  GraphConvLayer.supported (GraphConvLayer.graph_conv_type m) = true ->
  1 <= GraphConvLayer.Ks m ->
  shape x = [B; GraphConvLayer.c_in m; T; V] ->
  1 <= GraphConvLayer.c_out m -> 1 <= T -> 1 <= V ->
  exists a x_gc y,
    Align.forward (GraphConvLayer.align m) x = Ok a /\
    (if String.eqb (GraphConvLayer.graph_conv_type m) "cheb_graph_conv"
     then exists g, GraphConvLayer.cheb_graph_conv m = Some g /\
            ChebGraphConv.forward g a = Ok x_gc
     else exists g, GraphConvLayer.graph_conv m = Some g /\
            GraphConv.forward g a = Ok x_gc) /\
    GraphConvLayer.forward m x = Ok y /\
    shape y = [B; GraphConvLayer.c_out m; T; V] /\
    forall b c t v, b < B -> c < GraphConvLayer.c_out m -> t < T -> v < V ->
      get y [b; c; t; v] = add (get x_gc [b; t; v; c]) (get a [b; c; t; v]).
Proof.
  intros (Hwa & Hai & Hao & Hcheb & Hgc) Hsup HK Hx Hc HT HV.
  destruct (Align_forward_shape (GraphConvLayer.align m) x B T V Hwa)
    as (a & Ha & Hsa); rewrite ?Hai, ?Hao; try assumption.
  rewrite Hao in Hsa.
  unfold GraphConvLayer.supported in Hsup.
  destruct (String.eqb (GraphConvLayer.graph_conv_type m) "cheb_graph_conv")
    eqn:Htype.
  - destruct (Hcheb eq_refl) as (g & Hg & Hwg & Hgi & Hgo & HgK & _).
    destruct (ChebGraphConv_forward_ok g a B T V Hwg
                ltac:(rewrite Hgi; exact Hsa) ltac:(rewrite HgK; exact HK))
      as (_ & _ & yc & _ & _ & _ & _ & _ & _ & Hyc & Hsyc & _).
    rewrite Hgo in Hsyc.
    destruct (GraphConvLayer_residual m x a yc B T V Ha Hsa)
      as (y & Hy & Hsy & Hgy).
    { rewrite Htype, Hg. exact Hyc. }
    { exact Hsyc. }
    exists a, yc, y. split; [exact Ha|].
    split; [exists g; split; assumption|].
    split; [exact Hy|]. split; [exact Hsy | exact Hgy].
  - simpl in Hsup.
    destruct (Hgc eq_refl Hsup) as (g & Hg & Hwg & Hgi & Hgo & _).
    destruct (GraphConv_forward_ok g a B T V Hwg ltac:(rewrite Hgi; exact Hsa))
      as (yc & Hyc & Hsyc & _).
    rewrite Hgo in Hsyc.
    destruct (GraphConvLayer_residual m x a yc B T V Ha Hsa)
      as (y & Hy & Hsy & Hgy).
    { rewrite Htype, Hsup, Hg. exact Hyc. }
    { exact Hsyc. }
    exists a, yc, y. split; [exact Ha|].
    split; [exists g; split; assumption|].
    split; [exact Hy|]. split; [exact Hsy | exact Hgy].
Qed.

Lemma X8_graph_layer_residual_witness :
  GraphConvLayer.well_formed (ex_gcl "cheb_graph_conv") 2 /\
  GraphConvLayer.supported
    (GraphConvLayer.graph_conv_type (ex_gcl "cheb_graph_conv")) = true /\
  1 <= GraphConvLayer.Ks (ex_gcl "cheb_graph_conv") /\
  shape ex_x = [1; GraphConvLayer.c_in (ex_gcl "cheb_graph_conv"); 4; 2] /\
  1 <= GraphConvLayer.c_out (ex_gcl "cheb_graph_conv") /\ 1 <= 4 /\ 1 <= 2 /\
  exists y,
    GraphConvLayer.forward (ex_gcl "cheb_graph_conv") ex_x = Ok y /\
    shape y = [1; 1; 4; 2].
Proof.
  split; [apply ex_gcl_well_formed|]. split; [reflexivity|].
  split; [simpl; lia|]. split; [reflexivity|]. split; [simpl; lia|].
  split; [lia|]. split; [lia|].
  destruct (X8_graph_layer_residual (ex_gcl "cheb_graph_conv") ex_x 1 4 2
              (ex_gcl_well_formed "cheb_graph_conv") eq_refl
              ltac:(simpl; lia) eq_refl ltac:(simpl; lia) ltac:(lia)
              ltac:(lia))
    as (a & x_gc & y & _ & _ & Hy & Hs & _).
  exists y. split; assumption.
Defined.

(** ** STConvBlock *)

Lemma ex_block_init_plain (Kt n_vertex : nat) :
  STConvBlock.init Kt 2 n_vertex 1 [2; 1; 2] "glu" "cheb_graph_conv" ex_gso
    true None None None ex_mha 0%Z rnd1
  = Ok (ex_block Kt n_vertex 1 2 1 2 None None None None None).
Proof. reflexivity. Qed.

Lemma ex_block_init_attn :
  STConvBlock.init 3 2 2 1 [64; 16; 64] "glu" "cheb_graph_conv" ex_gso true
    (Some 7%Z) (Some 0%Z) (Some "STAGCN"%string) ex_mha 0%Z rnd1
  = Ok (ex_block 3 2 1 64 16 64 (Some "STAGCN"%string)
          (Some (MultiHeadSelfAttention.init (144 * 5) 1 ex_mha))
          (Some (Linear.init (144 * 5) (64 * 3) true rnd1))
          (Some 7%Z) (Some 0%Z)).
Proof. reflexivity. Qed.

(** ** What the layers return on any channel count *)

Section OutcomeFacts.

Context {R : Type} {RS : Scalar R}.








End OutcomeFacts.

Section BlockFacts.

Context {R : Type} {RS : Scalar R}.

(** The three layers of a block, one after the other. *)
Lemma STConvBlock_stages (m : STConvBlock.t R) (x : Tensor R) (B T V : nat) :
  STConvBlock.well_formed_layers m V ->
  let t1 := STConvBlock.tmp_conv1 m in
  let g := STConvBlock.graph_conv m in
  let t2 := STConvBlock.tmp_conv2 m in
  let Kt := TemporalConvLayer.Kt t1 in
  TemporalConvLayer.supported (TemporalConvLayer.act_func t1) = true ->
  TemporalConvLayer.supported (TemporalConvLayer.act_func t2) = true ->
  GraphConvLayer.supported (GraphConvLayer.graph_conv_type g) = true ->
  1 <= GraphConvLayer.Ks g ->
  shape x = [B; TemporalConvLayer.c_in t1; T; V] ->
  1 <= Kt -> 2 * (Kt - 1) + 1 <= T -> 1 <= V ->
  1 <= TemporalConvLayer.c_out t1 -> 1 <= GraphConvLayer.c_out g ->
  1 <= TemporalConvLayer.c_out t2 ->
  1 <= TemporalConvLayer.c_in t1 ->
  exists tmp1 graph1 x2,
    TemporalConvLayer.forward t1 x = Ok tmp1 /\
    shape tmp1 = [B; TemporalConvLayer.c_out t1; T - (Kt - 1); V] /\
    GraphConvLayer.forward g tmp1 = Ok graph1 /\
    shape graph1 = [B; GraphConvLayer.c_out g; T - (Kt - 1); V] /\
    TemporalConvLayer.forward t2 (tmap relu graph1) = Ok x2 /\
    shape x2 = [B; TemporalConvLayer.c_out t2; T - 2 * (Kt - 1); V].
Proof.
  intros (Hw1 & Hwg & Hw2 & Hc01 & Hc12 & HK2) t1 g t2 Kt
    Hs1 Hs2 Hsg HKs Hx HK HT HV H0 H1 H2 H3.
  subst t1 g t2 Kt.
  set (t1 := STConvBlock.tmp_conv1 m) in *.
  set (g := STConvBlock.graph_conv m) in *.
  set (t2 := STConvBlock.tmp_conv2 m) in *.
  set (Kt := TemporalConvLayer.Kt t1) in *.
  destruct (TemporalConvLayer_forward_shape t1 x B T V Hw1 Hs1 Hx)
    as (tmp1 & Htmp1 & Hstmp1); try assumption; try (fold Kt; lia).
  fold Kt in Hstmp1.
  assert (Hstmp1' : shape tmp1 = [B; GraphConvLayer.c_in g; T - (Kt - 1); V])
    by (rewrite Hc01; exact Hstmp1).
  destruct (GraphConvLayer_forward_shape g tmp1 B (T - (Kt - 1)) V Hwg Hsg HKs
              Hstmp1') as (graph1 & Hgraph1 & Hsgraph1);
    try assumption; try lia.
  assert (Hsrelu : shape (tmap relu graph1)
                   = [B; TemporalConvLayer.c_in t2; T - (Kt - 1); V])
    by (rewrite shape_tmap, Hsgraph1, Hc12; reflexivity).
  destruct (TemporalConvLayer_forward_shape t2 (tmap relu graph1) B
              (T - (Kt - 1)) V Hw2 Hs2 Hsrelu)
    as (x2 & Hx2 & Hsx2); try assumption; try (rewrite HK2; fold Kt; lia);
    try (rewrite Hc12; assumption).
  rewrite HK2 in Hsx2. fold Kt in Hsx2.
  replace (T - (Kt - 1) - (Kt - 1)) with (T - 2 * (Kt - 1)) in Hsx2 by lia.
  exists tmp1, graph1, x2. repeat (split; [assumption|]). assumption.
Qed.

Lemma LayerNorm_forward_mismatch (m : LayerNorm.t R) (x : Tensor R)
    (B T V C n c : nat) :
  shape x = [B; T; V; C] -> LayerNorm.normalized_shape m = [n; c] ->
  n <> V \/ c <> C ->
  LayerNorm.forward m x = Raise RuntimeError.
Proof.
  intros Hx Hn Hne. unfold LayerNorm.forward. rewrite Hx, Hn. simpl.
  destruct (Nat.eqb_spec V n) as [->|]; simpl.
  - destruct (Nat.eqb_spec C c) as [->|]; [|reflexivity].
    destruct Hne; contradiction.
  - reflexivity.
Qed.

End BlockFacts.

(** X9: in inference mode a block without attention fusion, on an input
    with the [c_in >= 1] channels of its first layer, returns [c2]
    channels and shortens the time axis by [2 * (Kt - 1)], the vertex and
    batch extents being kept. *)
Theorem X9_block_shortens_time {R : Type} {RS : Scalar R}
    (m : STConvBlock.t R) (x : Tensor R) (B T V : nat) :
  STConvBlock.well_formed_plain m V ->
  let t1 := STConvBlock.tmp_conv1 m in
  let g := STConvBlock.graph_conv m in
  let t2 := STConvBlock.tmp_conv2 m in
  let Kt := TemporalConvLayer.Kt t1 in
  TemporalConvLayer.supported (TemporalConvLayer.act_func t1) = true ->
  TemporalConvLayer.supported (TemporalConvLayer.act_func t2) = true ->
  GraphConvLayer.supported (GraphConvLayer.graph_conv_type g) = true ->
  1 <= GraphConvLayer.Ks g ->
  shape x = [B; TemporalConvLayer.c_in t1; T; V] ->
  1 <= Kt -> 2 * (Kt - 1) + 1 <= T -> 1 <= V ->
  1 <= TemporalConvLayer.c_out t1 -> 1 <= GraphConvLayer.c_out g ->
  1 <= TemporalConvLayer.c_out t2 ->
  1 <= TemporalConvLayer.c_in t1 ->
  exists y, STConvBlock.forward m None x = Ok y /\
    shape y = [B; TemporalConvLayer.c_out t2; T - 2 * (Kt - 1); V].
Proof.
  intros Hwf. cbv zeta. apply STConvBlock_forward_shape. exact Hwf.
Qed.

Lemma ex_temporal_well_formed (Kt c_in c_out n_vertex : nat) (act : string) :
  TemporalConvLayer.well_formed (ex_temporal Kt c_in c_out n_vertex act).
Proof.
  unfold TemporalConvLayer.well_formed, ex_temporal. simpl.
  destruct (TemporalConvLayer.gated act); repeat split.
Defined.

Lemma ex_graph_layer_well_formed (c_in c_out Ks : nat) :
  GraphConvLayer.well_formed (ex_graph_layer c_in c_out Ks) 2.
Proof.
  unfold GraphConvLayer.well_formed, ex_graph_layer. simpl.
  split; [repeat split|]. split; [reflexivity|]. split; [reflexivity|].
  split.
  - intros _. eexists. split; [reflexivity|]. repeat split.
  - intros H. discriminate H.
Defined.


Lemma ex_block_well_formed_plain :
  STConvBlock.well_formed_plain
    (ex_block 3 2 1 2 1 2 None None None None None) 2.
Proof.
  unfold STConvBlock.well_formed_plain, ex_block. simpl.
  split; [reflexivity|].
  split; [apply ex_temporal_well_formed|].
  split; [apply ex_graph_layer_well_formed|].
  split; [apply ex_temporal_well_formed|].
  repeat split.
Defined.

Lemma X9_block_shortens_time_witness :
  STConvBlock.well_formed_plain
    (ex_block 3 2 1 2 1 2 None None None None None) 2 /\
  shape (tab [1; 1; 6; 2] rnd1) = [1; 1; 6; 2] /\
  2 * (3 - 1) + 1 <= 6 /\
  1 <= TemporalConvLayer.c_in
         (STConvBlock.tmp_conv1
            (ex_block 3 2 1 2 1 2 None None None None None)) /\
  exists y,
    STConvBlock.forward (ex_block 3 2 1 2 1 2 None None None None None) None
      (tab [1; 1; 6; 2] rnd1) = Ok y /\
    shape y = [1; 2; 6 - 2 * (3 - 1); 2].
Proof.
  split; [exact ex_block_well_formed_plain|]. split; [reflexivity|].
  split; [lia|]. split; [simpl; lia|].
  apply (X9_block_shortens_time
           (ex_block 3 2 1 2 1 2 None None None None None)
           (tab [1; 1; 6; 2] rnd1) 1 6 2 ex_block_well_formed_plain);
    try reflexivity; simpl; lia.
Defined.



(** The view taken of the projected attention output. *)
Lemma attn_view_cases {R : Type} {RS : Scalar R}
    (attn_out : Tensor R) (B V E F : nat) :
  shape attn_out = [B; V; F] -> 1 <= B -> 1 <= V -> 3 <= E ->
  (F mod (E - 2) = 0 ->
   exists x1, STConvBlock.attn_view B E V attn_out = Ok x1 /\
     shape x1 = [B; F / (E - 2); E - 2; V] /\
     forall b c t v, b < B -> c < F / (E - 2) -> t < E - 2 -> v < V ->
       get x1 [b; c; t; v] = get attn_out [b; v; c * (E - 2) + t]) /\
  (F mod (E - 2) <> 0 ->
   STConvBlock.attn_view B E V attn_out = Raise RuntimeError).
Proof.
  intros Hs HB HV HE.
  set (e := E - 2). assert (He : 1 <= e) by (unfold e; lia).
  assert (Hp : permute [0; 2; 1] attn_out =
               Ok (tab [B; F; V] (fun idx =>
                     get attn_out
                       (map (fun j => nth (pos_of j [0; 2; 1]) idx 0)
                            (seq 0 3))))).
  { unfold permute. rewrite Hs. reflexivity. }
  assert (Hd : B * e * V <> 0) by nia.
  assert (Hltb : (E <? 2) = false) by (apply Nat.ltb_ge; lia).
  assert (Hd0 : (B * e * V =? 0) = false) by (apply Nat.eqb_neq; exact Hd).
  assert (Hn : numel [B; F; V] = B * F * V) by (simpl; lia).
  split.
  - intros Hm.
    apply Nat.Div0.div_exact in Hm. fold e in Hm.
    set (Cf := F / e) in *.
    assert (Hnum : B * F * V = Cf * (B * e * V)) by (rewrite Hm; nia).
    unfold STConvBlock.attn_view. rewrite Hp. cbn [bind].
    rewrite shape_tab, Hn. fold e. rewrite Hltb, Hd0, Hnum.
    rewrite Nat.Div0.mod_mul, Nat.div_mul by exact Hd.
    simpl orb. cbv iota. unfold reshape. rewrite shape_tab.
    assert (Hn2 : numel [B; Cf; e; V] = numel [B; F; V])
      by (rewrite Hn; simpl; rewrite Hm; nia).
    rewrite Hn2, Nat.eqb_refl.
    eexists. split; [reflexivity|]. split; [reflexivity|].
    intros b c t v Hb Hc Ht Hv.
    rewrite get_tab by in_range_tac.
    assert (Hf : c * e + t < F) by (rewrite Hm; nia).
    transitivity (get (tab [B; F; V] (fun idx =>
                     get attn_out
                       (map (fun j => nth (pos_of j [0; 2; 1]) idx 0)
                            (seq 0 3)))) [b; c * e + t; v]).
    + unfold get at 2. rewrite shape_tab. f_equal. simpl. rewrite Hm. nia.
    + rewrite get_tab by in_range_tac. reflexivity.
  - intros Hm. fold e in Hm.
    unfold STConvBlock.attn_view. rewrite Hp. cbn [bind].
    rewrite shape_tab, Hn. fold e. rewrite Hltb, Hd0.
    destruct (Nat.eqb_spec ((B * F * V) mod (B * e * V)) 0) as [Hz|Hz];
      [|reflexivity].
    exfalso. apply Hm.
    apply Nat.Div0.div_exact in Hz.
    set (k := B * F * V / (B * e * V)) in *.
    assert (HF : F = k * e) by nia.
    rewrite HF. apply Nat.Div0.mod_mul.
Qed.

(** X11: [attn_out.permute(0, 2, 1).view(batch_size, -1, embed_dim-2,
    num_nodes)].  For an attention output of [F] features per vertex, the
    view exists exactly when [embed_dim - 2] divides [F]; it then has
    [F / (embed_dim - 2)] channels and its element at channel [c], time
    [t] and vertex [v] is feature [c * (embed_dim - 2) + t] of vertex [v].
    Otherwise the view raises. *)
Theorem X11_attention_view {R : Type} {RS : Scalar R}
    (attn_out : Tensor R) (B V E F : nat) :
  shape attn_out = [B; V; F] -> 1 <= B -> 1 <= V -> 3 <= E ->
  (F mod (E - 2) = 0 ->
   exists x1, STConvBlock.attn_view B E V attn_out = Ok x1 /\
     shape x1 = [B; F / (E - 2); E - 2; V] /\
     forall b c t v, b < B -> c < F / (E - 2) -> t < E - 2 -> v < V ->
       get x1 [b; c; t; v] = get attn_out [b; v; c * (E - 2) + t]) /\
  (F mod (E - 2) <> 0 ->
   STConvBlock.attn_view B E V attn_out = Raise RuntimeError).
Proof. apply attn_view_cases. Qed.

Lemma X11_attention_view_witness :
  shape (tab [1; 2; 6] rnd1) = [1; 2; 6] /\ 3 <= 5 /\ 6 mod (5 - 2) = 0 /\
  exists x1, STConvBlock.attn_view 1 5 2 (tab [1; 2; 6] rnd1) = Ok x1 /\
    shape x1 = [1; 6 / (5 - 2); 5 - 2; 2] /\
    forall b c t v, b < 1 -> c < 6 / (5 - 2) -> t < 5 - 2 -> v < 2 ->
      get x1 [b; c; t; v] = get (tab [1; 2; 6] rnd1) [b; v; c * (5 - 2) + t].
Proof.
  split; [reflexivity|]. split; [lia|]. split; [reflexivity|].
  apply (proj1 (X11_attention_view (tab [1; 2; 6] rnd1) 1 2 5 6
                  eq_refl ltac:(lia) ltac:(lia) ltac:(lia))).
  reflexivity.
Defined.

(** X12: the block constructor indexes [channels] at 0, 1 and 2 and, for
    [use_attn = "STAGCN"], computes [144*(n_his - 2*(l+1))] from its
    keyword arguments [n_his] and [l], whose default is [None].  A channel
    list of fewer than three entries raises [IndexError]; with three
    entries, asking for attention while leaving [n_his] or [l] at its
    default raises [TypeError]. *)
Theorem X12_block_constructor_errors {R : Type} {RS : Scalar R}
    (Kt Ks n_vertex last_block_channel : nat) (channels : list nat)
    (act_func graph_conv_type : string) (gso : Tensor R) (use_bias : bool)
    (n_his l : option Z) (use_attn : option string)
    (nn_MultiheadAttention :
       nat -> nat -> MultiHeadSelfAttention.attention_fn R)
    (eps : R) (rnd : list nat -> R) :
  (length channels < 3 ->
   STConvBlock.init Kt Ks n_vertex last_block_channel channels act_func
     graph_conv_type gso use_bias n_his l use_attn nn_MultiheadAttention
     eps rnd = Raise IndexError) /\
  (3 <= length channels -> use_attn = Some "STAGCN"%string ->
   n_his = None \/ l = None ->
   STConvBlock.init Kt Ks n_vertex last_block_channel channels act_func
     graph_conv_type gso use_bias n_his l use_attn nn_MultiheadAttention
     eps rnd = Raise TypeError).
Proof.
  split.
  - intros Hlen. unfold STConvBlock.init, STConvBlock.channel,
      TemporalConvLayer.init, GraphConvLayer.init.
    destruct channels as [|c0 [|c1 [|c2 rest]]]; try reflexivity.
    simpl in Hlen. lia.
  - intros Hlen -> Hnone. unfold STConvBlock.init, STConvBlock.channel,
      TemporalConvLayer.init, GraphConvLayer.init.
    destruct channels as [|c0 [|c1 [|c2 rest]]]; try (simpl in Hlen; lia).
    cbn [nth_error bind STConvBlock.is_STAGCN].
    rewrite String.eqb_refl. unfold STConvBlock.init_attn.
    destruct Hnone as [-> | ->]; [reflexivity|].
    destruct n_his; reflexivity.
Qed.

Lemma X12_block_constructor_errors_witness :
  STConvBlock.init 3 2 2 1 [64; 16] "glu" "cheb_graph_conv" ex_gso true
    (Some 7%Z) (Some 0%Z) (Some "STAGCN"%string) ex_mha 0%Z rnd1
    = Raise IndexError /\
  STConvBlock.init 3 2 2 1 [64; 16; 64] "glu" "cheb_graph_conv" ex_gso true
    (Some 7%Z) None (Some "STAGCN"%string) ex_mha 0%Z rnd1
    = Raise TypeError.
Proof.
  split.
  - apply (proj1 (X12_block_constructor_errors 3 2 2 1 [64; 16] "glu"
                    "cheb_graph_conv" ex_gso true (Some 7%Z) (Some 0%Z)
                    (Some "STAGCN"%string) ex_mha 0%Z rnd1)).
    simpl. lia.
  - apply (proj2 (X12_block_constructor_errors 3 2 2 1 [64; 16; 64] "glu"
                    "cheb_graph_conv" ex_gso true (Some 7%Z) None
                    (Some "STAGCN"%string) ex_mha 0%Z rnd1)).
    + simpl. lia.
    + reflexivity.
    + right. reflexivity.
Defined.

(** X13: the graph shift operator fixes the vertex count.  On an input of
    [V] vertices, with a [n] by [n] operator, [n <> V] and neither equal
    to 1 (an extent that [torch.einsum] broadcasts), the first-order
    convolution raises, and so does the polynomial one of order
    [Ks >= 2]. *)
Theorem X13_vertex_count_mismatch {R : Type} {RS : Scalar R}
    (x : Tensor R) (B C T V n : nat) :
  shape x = [B; C; T; V] -> n <> V -> n <> 1 -> V <> 1 ->
  (forall g : GraphConv.t R,
     shape (GraphConv.gso g) = [n; n] ->
     GraphConv.forward g x = Raise RuntimeError) /\
  (forall g : ChebGraphConv.t R,
     shape (ChebGraphConv.gso g) = [n; n] -> 2 <= ChebGraphConv.Ks g ->
     ChebGraphConv.forward g x = Raise RuntimeError).
Proof.
  intros Hx Hn Hn1 HV1.
  destruct (permute_0231 x B C T V Hx) as (xp & Hxp & Hsxp & _).
  assert (Hb : bdim n V = None).
  { unfold bdim.
    destruct (Nat.eqb_spec n V); [contradiction|].
    destruct (Nat.eqb_spec n 1); [contradiction|].
    destruct (Nat.eqb_spec V 1); [contradiction|]. reflexivity. }
  assert (He : forall g, shape g = [n; n] ->
                 einsum_hi_btij g xp = Raise RuntimeError).
  { intros g Hg. unfold einsum_hi_btij. rewrite Hg, Hsxp, Hb. reflexivity. }
  split.
  - intros g Hg. unfold GraphConv.forward. rewrite Hxp. cbn [bind].
    rewrite (He _ Hg). reflexivity.
  - intros g Hg HK. unfold ChebGraphConv.forward. rewrite Hxp. cbn [bind].
    unfold ChebGraphConv.x_list_of.
    destruct (Z.ltb_spec (Z.of_nat (ChebGraphConv.Ks g) - 1) 0); [lia|].
    destruct (Z.eqb_spec (Z.of_nat (ChebGraphConv.Ks g) - 1) 0); [lia|].
    rewrite (He _ Hg). cbn [bind].
    destruct (Z.of_nat (ChebGraphConv.Ks g) - 1 =? 1)%Z; reflexivity.
Qed.

Lemma X13_vertex_count_mismatch_witness :
  shape (tab [1; 1; 2; 3] rnd1) = [1; 1; 2; 3] /\
  shape (GraphConv.gso (GraphConv.init 1 1 ex_gso true rnd1)) = [2; 2] /\
  GraphConv.forward (GraphConv.init 1 1 ex_gso true rnd1)
    (tab [1; 1; 2; 3] rnd1) = Raise RuntimeError /\
  ChebGraphConv.forward (ChebGraphConv.init 1 1 3 ex_gso true rnd1)
    (tab [1; 1; 2; 3] rnd1) = Raise RuntimeError.
Proof.
  split; [reflexivity|]. split; [reflexivity|].
  destruct (X13_vertex_count_mismatch (tab [1; 1; 2; 3] rnd1) 1 1 2 3 2
              eq_refl ltac:(lia) ltac:(lia) ltac:(lia)) as [Hg Hc].
  split.
  - apply Hg. reflexivity.
  - apply Hc; [reflexivity | simpl; lia].
Defined.

(** ** OutputBlock *)

Section OutputFacts.

Context {R : Type} {RS : Scalar R}.

Lemma OutputBlock_forward_extent (m : OutputBlock.t R) (x : Tensor R)
    (B T V : nat) :
  OutputBlock.well_formed m V ->
  TemporalConvLayer.supported
    (TemporalConvLayer.act_func (OutputBlock.tmp_conv1 m)) = true ->
  shape x = [B; TemporalConvLayer.c_in (OutputBlock.tmp_conv1 m); T; V] ->
  1 <= TemporalConvLayer.Kt (OutputBlock.tmp_conv1 m) ->
  TemporalConvLayer.Kt (OutputBlock.tmp_conv1 m) <= T ->
  1 <= V -> 1 <= TemporalConvLayer.c_out (OutputBlock.tmp_conv1 m) ->
  1 <= TemporalConvLayer.c_in (OutputBlock.tmp_conv1 m) ->
  exists y, OutputBlock.forward m x = Ok y /\
    shape y = [B; Linear.out_features (OutputBlock.fc2 m);
               T - (TemporalConvLayer.Kt (OutputBlock.tmp_conv1 m) - 1); V].
Proof.
  intros (Hw1 & Hln & Hf1 & Hf2) Hs1 Hx HK HT HV HC HI.
  set (t1 := OutputBlock.tmp_conv1 m) in *.
  set (Ko := TemporalConvLayer.Kt t1) in *.
  destruct (TemporalConvLayer_forward_shape t1 x B T V Hw1 Hs1 Hx)
    as (x1 & Hx1 & Hsx1); try assumption.
  fold Ko in Hsx1.
  destruct (permute_0231 x1 B (TemporalConvLayer.c_out t1) (T - (Ko - 1)) V
              Hsx1) as (xp & Hxp & Hsxp & _).
  destruct (LayerNorm_forward_shape (OutputBlock.tc1_ln m) xp B (T - (Ko - 1))
              V (TemporalConvLayer.c_out t1) Hsxp Hln) as (xn & Hxn & Hsxn).
  rewrite <- Hf1 in Hsxn.
  destruct (Linear_forward_shape (OutputBlock.fc1 m) xn B (T - (Ko - 1)) V
              Hsxn) as (h & Hh & Hsh).
  assert (Hsr : shape (tmap relu h)
                = [B; T - (Ko - 1); V; Linear.in_features (OutputBlock.fc2 m)])
    by (rewrite shape_tmap, Hsh, Hf2; reflexivity).
  destruct (Linear_forward_shape (OutputBlock.fc2 m) (tmap relu h) B
              (T - (Ko - 1)) V Hsr) as (o & Ho & Hso).
  destruct (permute_0312 o B (T - (Ko - 1)) V
              (Linear.out_features (OutputBlock.fc2 m)) Hso)
    as (y & Hy & Hsy & _).
  exists y. split; [|exact Hsy].
  unfold OutputBlock.forward. fold t1. rewrite Hx1. cbn [bind].
  rewrite Hxp. cbn [bind]. rewrite Hxn. cbn [bind]. rewrite Hh. cbn [bind].
  rewrite Ho. cbn [bind]. exact Hy.
Qed.

(** The trial run of the constructor, for 64 incoming channels and a
    kernel that fits 26 time steps. *)
Lemma OutputBlock_trial_stages (Ko c0 V : nat) (act : string)
    (rnd : list nat -> R) :
  1 <= Ko -> Ko <= 26 -> 1 <= c0 ->
  exists t1 a x_in x_conv,
    TemporalConvLayer.init Ko 64 c0 V act rnd = Ok t1 /\
    TemporalConvLayer.well_formed t1 /\
    TemporalConvLayer.Kt t1 = Ko /\ TemporalConvLayer.c_in t1 = 64 /\
    TemporalConvLayer.c_out t1 = c0 /\ TemporalConvLayer.act_func t1 = act /\
    Align.forward (TemporalConvLayer.align t1) (zeros [1; 64; 26; 4]) = Ok a /\
    slice_time (py_norm (Z.of_nat (TemporalConvLayer.Kt t1) - 1) (dim a 2))
      (dim a 2) a = Ok x_in /\
    CausalConv2d.forward (TemporalConvLayer.causal_conv t1)
      (zeros [1; 64; 26; 4]) = Ok x_conv.
Proof.
  intros HK1 HK2 Hc.
  destruct (TemporalConvLayer_init_well_formed Ko 64 c0 V act rnd)
    as (t1 & Ht1 & Hwf & HKt & Hci & Hco & Ha).
  assert (Hz : shape (zeros [1; 64; 26; 4] : Tensor R)
               = [1; TemporalConvLayer.c_in t1; 26; 4])
    by (rewrite Hci; reflexivity).
  destruct (TemporalConvLayer_x_in t1 (zeros [1; 64; 26; 4]) 1 26 4 Hwf Hz)
    as (a & x_in & Ea & _ & Ex & _); rewrite ?HKt, ?Hco; try lia.
  destruct (TemporalConvLayer_conv t1 (zeros [1; 64; 26; 4]) 1 26 4 Hwf Hz)
    as (x_conv & Ec & _); rewrite ?HKt, ?Hco; try lia.
  exists t1, a, x_in, x_conv. rewrite HKt in Ex.
  rewrite HKt. repeat (split; [assumption || reflexivity|]). assumption.
Qed.

End OutputFacts.

(** X14: an output block for 64 incoming channels, a temporal kernel
    [1 <= Ko <= 26], at least one hidden channel and a supported
    activation is constructed, and on every input of [T >= Ko] time steps
    over the [V >= 1] vertices it was built for, its forward pass returns
    [end_channel] channels and [T - (Ko - 1)] time steps. *)
Theorem X14_output_block_forward {R : Type} {RS : Scalar R}
    (Ko c0 c1 : nat) (rest : list nat) (end_channel V : nat) (act : string)
    (use_bias : bool) (eps : R) (rnd : list nat -> R) :
  1 <= Ko -> Ko <= 26 -> 1 <= c0 ->
  TemporalConvLayer.supported act = true ->
  exists m,
    OutputBlock.init Ko 64 (c0 :: c1 :: rest) end_channel V act use_bias eps
      rnd = Ok m /\
    forall (x : Tensor R) (B T : nat),
      shape x = [B; 64; T; V] -> Ko <= T -> 1 <= V ->
      exists y, OutputBlock.forward m x = Ok y /\
        shape y = [B; end_channel; T - (Ko - 1); V].
Proof.
  intros HK1 HK2 Hc Hact. unfold OutputBlock.init.
  cbn [STConvBlock.channel nth_error bind].
  destruct (TemporalConvLayer_init_well_formed Ko 64 c0 V act rnd)
    as (t1 & Ht1 & Hwf & HKt & Hci & Hco & Ha).
  rewrite Ht1. cbn [bind].
  destruct (TemporalConvLayer_forward_shape t1 (zeros [1; 64; 26; 4]) 1 26 4 Hwf)
    as (z & Hz & _); rewrite ?Ha, ?Hci, ?HKt, ?Hco; try assumption;
    try reflexivity; try lia.
  rewrite Hz. cbn [bind]. eexists. split; [reflexivity|].
  intros x B T Hx HT HV.
  match goal with |- exists y, OutputBlock.forward ?blk x = Ok y /\ _ =>
    destruct (OutputBlock_forward_extent blk x B T V) as (y & Hy & Hsy)
  end.
  - unfold OutputBlock.well_formed. split; [exact Hwf|].
    cbn. rewrite Hco. repeat split.
  - cbn [OutputBlock.tmp_conv1]. rewrite Ha. exact Hact.
  - cbn [OutputBlock.tmp_conv1]. rewrite Hci. exact Hx.
  - cbn [OutputBlock.tmp_conv1]. rewrite HKt. exact HK1.
  - cbn [OutputBlock.tmp_conv1]. rewrite HKt. exact HT.
  - exact HV.
  - cbn [OutputBlock.tmp_conv1]. rewrite Hco. exact Hc.
  - cbn [OutputBlock.tmp_conv1]. rewrite Hci. lia.
  - cbn [OutputBlock.tmp_conv1 OutputBlock.fc2 Linear.init
         Linear.out_features] in Hsy.
    rewrite HKt in Hsy. exists y. split; assumption.
Qed.

Lemma X14_output_block_forward_witness :
  TemporalConvLayer.supported "glu" = true /\
  exists m,
    OutputBlock.init 3 64 [128; 128] 1 2 "glu" true 0%Z rnd1 = Ok m /\
    forall (x : Tensor Z) (B T : nat),
      shape x = [B; 64; T; 2] -> 3 <= T -> 1 <= 2 ->
      exists y, OutputBlock.forward m x = Ok y /\
        shape y = [B; 1; T - (3 - 1); 2].
Proof.
  split; [reflexivity|].
  apply (X14_output_block_forward 3 128 128 [] 1 2 "glu" true 0%Z rnd1);
    try reflexivity; lia.
Defined.

(** X15: the output block's constructor runs its temporal layer, so it
    raises where the block of the ST layers raises only in [forward]: for
    64 incoming channels and [1 <= Ko <= 26], an activation name without
    a branch raises [NotImplementedError] at construction, and a channel
    list of one entry raises [IndexError] after the trial run. *)
Theorem X15_output_block_constructor_errors {R : Type} {RS : Scalar R}
    (Ko c0 : nat) (rest : list nat) (end_channel V : nat) (act : string)
    (use_bias : bool) (eps : R) (rnd : list nat -> R) :
  1 <= Ko -> Ko <= 26 -> 1 <= c0 ->
  (TemporalConvLayer.supported act = false ->
   OutputBlock.init Ko 64 (c0 :: rest) end_channel V act use_bias eps rnd
     = Raise NotImplementedError) /\
  (TemporalConvLayer.supported act = true ->
   OutputBlock.init Ko 64 [c0] end_channel V act use_bias eps rnd
     = Raise IndexError).
Proof.
  intros HK1 HK2 Hc.
  destruct (OutputBlock_trial_stages Ko c0 V act rnd HK1 HK2 Hc)
    as (t1 & a & x_in & x_conv & Ht1 & Hwf & HKt & Hci & Hco & Ha
        & Ea & Ex & Ec).
  split.
  - intros Hu. unfold OutputBlock.init.
    cbn [STConvBlock.channel nth_error bind]. rewrite Ht1. cbn [bind].
    rewrite <- Ha in Hu.
    destruct (TemporalConvLayer_forward_unsupported t1 (zeros [1; 64; 26; 4])
                Hu) as (_ & Hne).
    rewrite (Hne a x_in x_conv Ea Ex Ec). reflexivity.
  - intros Hs. unfold OutputBlock.init.
    cbn [STConvBlock.channel nth_error bind]. rewrite Ht1. cbn [bind].
    destruct (TemporalConvLayer_forward_shape t1 (zeros [1; 64; 26; 4]) 1 26 4
                Hwf) as (z & Hz & _); rewrite ?Ha, ?Hci, ?HKt, ?Hco;
      try assumption; try reflexivity; try lia.
    rewrite Hz. reflexivity.
Qed.

Lemma X15_output_block_constructor_errors_witness :
  TemporalConvLayer.supported "elu" = false /\
  OutputBlock.init 3 64 [128; 128] 1 2 "elu" true 0%Z rnd1
    = Raise NotImplementedError /\
  TemporalConvLayer.supported "glu" = true /\
  OutputBlock.init 3 64 [128] 1 2 "glu" true 0%Z rnd1 = Raise IndexError.
Proof.
  split; [reflexivity|]. split.
  - apply (proj1 (X15_output_block_constructor_errors 3 128 [128] 1 2 "elu"
                    true 0%Z rnd1 ltac:(lia) ltac:(lia) ltac:(lia))).
    reflexivity.
  - split; [reflexivity|].
    apply (proj2 (X15_output_block_constructor_errors 3 128 [] 1 2 "glu"
                    true 0%Z rnd1 ltac:(lia) ltac:(lia) ltac:(lia))).
    reflexivity.
Defined.

(** X16: the tokens handed to the attention layer are consecutive runs
    of the row-major elements of [concat]: for a concatenation of shape
    [[B; C; T; V]] the reshape never fails, and the element at channel
    [c], time [t], vertex [v], whose position within the sample is
    [q = (c*T + t)*V + v], is feature [q mod (C*T)] of token
    [q / (C*T)]. *)
Theorem X16_attention_token_layout {R : Type} {RS : Scalar R}
    (concat : Tensor R) (B C T V : nat) :
  shape concat = [B; C; T; V] ->
  exists tok, STConvBlock.attn_tokens concat = Ok tok /\
    shape tok = [B; V; C * T] /\
    forall b c t v, b < B -> c < C -> t < T -> v < V ->
      let q := (c * T + t) * V + v in
      get tok [b; q / (C * T); q mod (C * T)] = get concat [b; c; t; v].
Proof. apply attn_tokens_position. Qed.

Lemma X16_attention_token_layout_witness :
  shape ex_concat = [1; 144; 3; 2] /\
  exists tok, STConvBlock.attn_tokens ex_concat = Ok tok /\
    shape tok = [1; 2; 144 * 3] /\
    forall b c t v, b < 1 -> c < 144 -> t < 3 -> v < 2 ->
      let q := (c * 3 + t) * 2 + v in
      get tok [b; q / (144 * 3); q mod (144 * 3)] = get ex_concat [b; c; t; v].
Proof.
  split; [reflexivity|].
  apply (X16_attention_token_layout ex_concat 1 144 3 2). reflexivity.
Defined.

(** ** The attention branch of STConvBlock *)

Section AttentionFacts.

Context {R : Type} {RS : Scalar R}.

Lemma Linear_forward_tokens (m : Linear.t R) (x : Tensor R) (B V : nat) :
  shape x = [B; V; Linear.in_features m] ->
  exists y, Linear.forward m x = Ok y /\
    shape y = [B; V; Linear.out_features m].
Proof.
  intros Hx. unfold Linear.forward. rewrite Hx. cbn [rev app].
  rewrite Nat.eqb_refl. eexists. split; reflexivity.
Qed.

(** The attention branch for three channel groups over [E] time steps,
    with an attention layer that returns, on the tokens of this call, an
    output of their shape, and a projection from [(c0 + c1 + c2) * E] to
    [c2 * (E - 2)] features. *)
Lemma STConvBlock_fuse_shape (m : STConvBlock.t R) (a : MultiHeadSelfAttention.t R)
    (f : Linear.t R) (tmp1 graph1 x : Tensor R) (B c0 c1 c2 E V : nat) :
  STConvBlock.attn m = Some a -> STConvBlock.fcn m = Some f ->
  (forall q, shape q = [B; V; (c0 + c1 + c2) * E] ->
     exists o w,
       MultiHeadSelfAttention.attention_layer a q q q None None = Ok (o, w) /\
       shape o = shape q) ->
  Linear.in_features f = (c0 + c1 + c2) * E ->
  Linear.out_features f = c2 * (E - 2) ->
  shape tmp1 = [B; c0; E; V] -> shape graph1 = [B; c1; E; V] ->
  shape x = [B; c2; E - 2; V] ->
  1 <= B -> 1 <= V -> 3 <= E ->
  exists x1, STConvBlock.fuse m tmp1 graph1 x = Ok x1 /\
    shape x1 = [B; c2; E - 2; V].
Proof.
  intros Ha Hf Hatt Hin Hout S1 Sg Sx HB HV HE.
  unfold STConvBlock.fuse.
  destruct (pad_ok 0 0 1 1 x _ _ _ _ Sx) as (tmp2 & Ep & Sp & _).
  replace (1 + (E - 2) + 1) with E in Sp by lia.
  replace (0 + V + 0) with V in Sp by lia.
  rewrite Ep. cbn [bind]. unfold cat_channels. cbn [fold_left bind].
  destruct (cat1_ok tmp1 graph1 _ _ _ _ _ S1 Sg) as (c12 & Ec & Sc & _).
  rewrite Ec. cbn [bind].
  destruct (cat1_ok c12 tmp2 _ _ _ _ _ Sc Sp) as (concat & Ecc & Scc & _).
  rewrite Ecc. cbn [bind]. rewrite Scc.
  destruct (attn_tokens_position concat _ _ _ _ Scc) as (tok & Etok & Stok & _).
  rewrite Etok. cbn [bind]. rewrite Ha, Hf.
  unfold MultiHeadSelfAttention.forward.
  destruct (Hatt tok Stok) as (o & w & Eo & So). rewrite Eo. cbn [bind fst].
  rewrite Stok, <- Hin in So.
  destruct (Linear_forward_tokens f o B V So) as (p & Epr & Spr).
  rewrite Epr. cbn [bind]. rewrite Hout in Spr.
  assert (Hmod : (c2 * (E - 2)) mod (E - 2) = 0) by apply Nat.Div0.mod_mul.
  destruct (attn_view_cases p B V E (c2 * (E - 2)) Spr HB HV HE) as (Hv & _).
  destruct (Hv Hmod) as (x1 & Ex1 & Sx1 & _).
  rewrite Nat.div_mul in Sx1 by lia.
  exists x1. split; assumption.
Qed.

End AttentionFacts.

(** X17: a block constructed with [use_attn = "STAGCN"], temporal kernel
    3 and the channels [[64; 16; 64]] for the history length [n_his] and
    the index [l] runs on inputs of [n_his - 2*l] time steps with at
    least one channel.  The concatenation has 144 channels over
    [h = n_his - 2*(l+1)] steps, so the tokens have the [144*h] features
    the attention layer was built for; provided that layer returns, on a
    batch of [V] tokens with [144*h] features, an output of the same
    shape, the projection returns [64 * (h - 2)] features and the block
    returns 64 channels over [h - 2] steps. *)
Theorem X17_attention_block_forward {R : Type} {RS : Scalar R}
    (Ks V last_block_channel : nat) (act type : string) (gso : Tensor R)
    (use_bias : bool) (n_his l : Z) (h : nat)
    (nn_MultiheadAttention :
       nat -> nat -> MultiHeadSelfAttention.attention_fn R)
    (eps : R) (rnd : list nat -> R) :
  shape gso = [V; V] -> 1 <= V -> 1 <= last_block_channel ->
  TemporalConvLayer.supported act = true ->
  GraphConvLayer.supported type = true -> 1 <= Ks ->
  (n_his - 2 * (l + 1))%Z = Z.of_nat h -> 3 <= h ->
  (forall (q : Tensor R) (B : nat),
     1 <= B -> shape q = [B; V; 144 * h] ->
     exists o w,
       nn_MultiheadAttention (144 * h) 1 q q q None None = Ok (o, w) /\
       shape o = shape q) ->
  exists m,
    STConvBlock.init 3 Ks V last_block_channel [64; 16; 64] act type gso
      use_bias (Some n_his) (Some l) (Some "STAGCN"%string)
      nn_MultiheadAttention eps rnd = Ok m /\
    forall (x : Tensor R) (B : nat),
      1 <= B -> shape x = [B; last_block_channel; h + 2; V] ->
      exists y, STConvBlock.forward m None x = Ok y /\
        shape y = [B; 64; h - 2; V].
Proof.
  intros Hg HV Hlbc Hact Htype HKs Hh Hh3 Hatt.
  destruct (TemporalConvLayer_init_well_formed 3 last_block_channel 64 V act
              rnd) as (t1 & Ht1 & Hw1 & HK1 & Hi1 & Ho1 & Ha1).
  destruct (GraphConvLayer_init_well_formed type 64 16 Ks V gso use_bias rnd Hg)
    as (g & Hgi & Hwg & Hgt & Hgci & Hgco & HgK).
  destruct (TemporalConvLayer_init_well_formed 3 16 64 V act rnd)
    as (t2 & Ht2 & Hw2 & HK2 & Hi2 & Ho2 & Ha2).
  unfold STConvBlock.init. cbn [STConvBlock.channel nth_error bind].
  rewrite Ht1. cbn [bind]. rewrite Hgi. cbn [bind]. rewrite Ht2. cbn [bind].
  cbn [STConvBlock.is_STAGCN]. rewrite String.eqb_refl.
  unfold STConvBlock.init_attn. cbv zeta. rewrite Hh.
  destruct (Z.leb_spec (Z.of_nat h) 0); [lia|].
  destruct (Z.ltb_spec (Z.of_nat h - 2) 0); [lia|].
  cbn [bind fst snd]. rewrite Nat2Z.id.
  replace (Z.to_nat (Z.of_nat h - 2)) with (h - 2) by lia.
  eexists. split; [reflexivity|].
  intros x B HB Hx.
  match goal with |- exists y, STConvBlock.forward ?blk None x = Ok y /\ _ =>
    set (m := blk) end.
  assert (Hwf : STConvBlock.well_formed_layers m V).
  { unfold STConvBlock.well_formed_layers, m. cbn.
    rewrite Hgci, Ho1, Hi2, Hgco, HK2, HK1.
    repeat (split; [assumption || reflexivity|]). reflexivity. }
  pose proof (STConvBlock_stages m x B (h + 2) V Hwf) as Hst.
  cbv zeta in Hst.
  change (STConvBlock.tmp_conv1 m) with t1 in Hst.
  change (STConvBlock.tmp_conv2 m) with t2 in Hst.
  change (STConvBlock.graph_conv m) with g in Hst.
  rewrite Ha1, Ha2, Hgt, HgK, Hi1, HK1, Ho1, Hgco, Ho2 in Hst.
  destruct Hst as (tmp1 & graph1 & x2 & E1 & S1 & Eg & Sg & E2 & S2);
    try assumption; try lia.
  replace (h + 2 - (3 - 1)) with h in S1, Sg by lia.
  replace (h + 2 - 2 * (3 - 1)) with (h - 2) in S2 by lia.
  assert (Sr : shape (tmap relu graph1) = [B; 16; h; V])
    by (rewrite shape_tmap; exact Sg).
  destruct (STConvBlock_fuse_shape m
              (MultiHeadSelfAttention.init (144 * h) 1 nn_MultiheadAttention)
              (Linear.init (144 * h) (64 * (h - 2)) true rnd)
              tmp1 (tmap relu graph1) x2 B 64 16 64 h V)
    as (x1 & Ex1 & Sx1); try assumption; try reflexivity.
  { intros q Sq. apply (Hatt q B HB). exact Sq. }
  destruct (permute_0231 x1 B 64 (h - 2) V Sx1) as (xp & Exp & Sxp & _).
  destruct (LayerNorm_forward_shape (STConvBlock.tc2_ln m) xp B (h - 2) V 64
              Sxp) as (xn & Exn & Sxn); [reflexivity|].
  destruct (permute_0312 xn B (h - 2) V 64 Sxn) as (y & Ey & Sy & _).
  exists y. split; [|exact Sy].
  unfold STConvBlock.forward.
  change (STConvBlock.tmp_conv1 m) with t1.
  change (STConvBlock.tmp_conv2 m) with t2.
  change (STConvBlock.graph_conv m) with g.
  rewrite E1. cbn [bind]. rewrite Eg. cbn [bind]. rewrite E2. cbn [bind].
  change (STConvBlock.is_STAGCN (STConvBlock.use_attn m))
    with (String.eqb "STAGCN" "STAGCN").
  rewrite String.eqb_refl, Ex1. cbn [bind]. rewrite Exp. cbn [bind].
  rewrite Exn. cbn [bind]. rewrite Ey. reflexivity.
Qed.

Lemma X17_attention_block_forward_witness :
  shape ex_gso = [2; 2] /\
  (7 - 2 * (0 + 1))%Z = Z.of_nat 5 /\
  (forall (q : Tensor Z) (B : nat),
     1 <= B -> shape q = [B; 2; 144 * 5] ->
     exists o w,
       ex_attention (144 * 5) 1 q q q None None = Ok (o, w) /\
       shape o = shape q) /\
  exists m,
    STConvBlock.init 3 2 2 1 [64; 16; 64] "glu" "cheb_graph_conv" ex_gso true
      (Some 7%Z) (Some 0%Z) (Some "STAGCN"%string) ex_attention 0%Z rnd1
      = Ok m /\
    forall (x : Tensor Z) (B : nat),
      1 <= B -> shape x = [B; 1; 5 + 2; 2] ->
      exists y, STConvBlock.forward m None x = Ok y /\
        shape y = [B; 64; 5 - 2; 2].
Proof.
  assert (Hatt : forall (q : Tensor Z) (B : nat),
            1 <= B -> shape q = [B; 2; 144 * 5] ->
            exists o w,
              ex_attention (144 * 5) 1 q q q None None = Ok (o, w) /\
              shape o = shape q).
  { intros q B HB Sq. exists q, (zeros [B; 2; 2]). split; [|reflexivity].
    unfold ex_attention. rewrite Sq, Nat.eqb_refl. reflexivity. }
  split; [reflexivity|]. split; [reflexivity|]. split; [exact Hatt|].
  apply (X17_attention_block_forward 2 2 1 "glu" "cheb_graph_conv" ex_gso true
           7%Z 0%Z 5 ex_attention 0%Z rnd1); try reflexivity; try lia.
  exact Hatt.
Defined.

(** ** The window of the temporal layer *)

Section WindowFacts.

Context {R : Type} {RS : Scalar R}.

(** A convolution element reads its input only under the kernel. *)
Lemma Conv2d_elem_ext (m : Conv2d.t R) (x x' : Tensor R) (C b o i j : nat) :
  (forall c p q, c < C -> p < fst (Conv2d.kernel_size m) ->
     q < snd (Conv2d.kernel_size m) ->
     get x [b; c; i * fst (Conv2d.stride m) + p * fst (Conv2d.dilation m);
            j * snd (Conv2d.stride m) + q * snd (Conv2d.dilation m)] =
     get x' [b; c; i * fst (Conv2d.stride m) + p * fst (Conv2d.dilation m);
             j * snd (Conv2d.stride m) + q * snd (Conv2d.dilation m)]) ->
  Conv2d.elem m x C b o i j = Conv2d.elem m x' C b o i j.
Proof.
  intros H. unfold Conv2d.elem.
  assert (Hs : sumn C (fun c =>
                 sumn (fst (Conv2d.kernel_size m)) (fun p =>
                   sumn (snd (Conv2d.kernel_size m)) (fun q =>
                     mul (get x [b; c;
                            i * fst (Conv2d.stride m)
                            + p * fst (Conv2d.dilation m);
                            j * snd (Conv2d.stride m)
                            + q * snd (Conv2d.dilation m)])
                         (get (Conv2d.weight m) [o; c; p; q])))) =
               sumn C (fun c =>
                 sumn (fst (Conv2d.kernel_size m)) (fun p =>
                   sumn (snd (Conv2d.kernel_size m)) (fun q =>
                     mul (get x' [b; c;
                            i * fst (Conv2d.stride m)
                            + p * fst (Conv2d.dilation m);
                            j * snd (Conv2d.stride m)
                            + q * snd (Conv2d.dilation m)])
                         (get (Conv2d.weight m) [o; c; p; q]))))).
  { apply sumn_ext. intros c Hc. apply sumn_ext. intros p Hp.
    apply sumn_ext. intros q Hq. rewrite (H c p q Hc Hp Hq). reflexivity. }
  rewrite Hs. reflexivity.
Qed.

(** The aligned input at one position reads the input at that position. *)
Lemma Align_forward_local (m : Align.t R) (x x' a a' : Tensor R)
    (B T V b t v : nat) :
  Align.well_formed m ->
  shape x = [B; Align.c_in m; T; V] -> shape x' = [B; Align.c_in m; T; V] ->
  1 <= Align.c_out m ->
  Align.forward m x = Ok a -> Align.forward m x' = Ok a' ->
  b < B -> t < T -> v < V ->
  (forall c, c < Align.c_in m -> get x [b; c; t; v] = get x' [b; c; t; v]) ->
  forall c, c < Align.c_out m -> get a [b; c; t; v] = get a' [b; c; t; v].
Proof.
  intros Hwf Hx Hx' Hco Ha Ha' Hb Ht Hv Hagree c Hc.
  destruct (Nat.lt_trichotomy (Align.c_in m) (Align.c_out m))
    as [Hlt | [Heq | Hgt]].
  - destruct (Align_forward_pad m x B (Align.c_in m) T V Hx Hlt)
      as (z & Hz & _ & Hg).
    destruct (Align_forward_pad m x' B (Align.c_in m) T V Hx' Hlt)
      as (z' & Hz' & _ & Hg').
    rewrite Ha in Hz. injection Hz as <-.
    rewrite Ha' in Hz'. injection Hz' as <-.
    rewrite Hg, Hg' by (try assumption; lia).
    destruct (Nat.ltb_spec c (Align.c_in m)); [|reflexivity].
    apply Hagree. assumption.
  - rewrite Align_forward_same in Ha, Ha' by exact Heq.
    injection Ha as <-. injection Ha' as <-.
    apply Hagree. lia.
  - destruct (Align_forward_proj m x B T V Hwf Hx Hgt Hco)
      as (z & Hz & _ & Hg); try lia.
    destruct (Align_forward_proj m x' B T V Hwf Hx' Hgt Hco)
      as (z' & Hz' & _ & Hg'); try lia.
    rewrite Ha in Hz. injection Hz as <-.
    rewrite Ha' in Hz'. injection Hz' as <-.
    rewrite Hg, Hg' by assumption.
    destruct Hwf as (_ & _ & Hk & Hs & Hd).
    apply Conv2d_elem_ext. rewrite Hk, Hs, Hd. cbn [fst snd].
    intros c' p q Hc' Hp Hq.
    replace (t * 1 + p * 1) with t by lia.
    replace (v * 1 + q * 1) with v by lia.
    apply Hagree. exact Hc'.
Qed.

End WindowFacts.

(** X18: the temporal layer is local.  On inputs with its [c_in >= 1]
    channels, its output at time [t] and vertex [v] of a sample is a
    function of the input of that sample at vertex [v] over the times
    [t .. t + Kt - 1]: two inputs that agree there give the same output
    at [(t, v)], whatever they hold elsewhere. *)
Theorem X18_temporal_layer_window {R : Type} {RS : Scalar R}
    (m : TemporalConvLayer.t R) (x x' : Tensor R) (B T V b t v : nat) :
  TemporalConvLayer.well_formed m ->
  TemporalConvLayer.supported (TemporalConvLayer.act_func m) = true ->
  shape x = [B; TemporalConvLayer.c_in m; T; V] ->
  shape x' = [B; TemporalConvLayer.c_in m; T; V] ->
  1 <= TemporalConvLayer.Kt m -> TemporalConvLayer.Kt m <= T ->
  1 <= V -> 1 <= TemporalConvLayer.c_out m ->
  1 <= TemporalConvLayer.c_in m ->
  b < B -> t < T - (TemporalConvLayer.Kt m - 1) -> v < V ->
  (forall c p, c < TemporalConvLayer.c_in m -> p < TemporalConvLayer.Kt m ->
     get x [b; c; t + p; v] = get x' [b; c; t + p; v]) ->
  exists y y',
    TemporalConvLayer.forward m x = Ok y /\
    TemporalConvLayer.forward m x' = Ok y' /\
    forall c, c < TemporalConvLayer.c_out m ->
      get y [b; c; t; v] = get y' [b; c; t; v].
Proof.
  intros Hwf Hsup Hx Hx' HK HT HV HC HI Hb Ht Hv Hagree.
  set (Kt := TemporalConvLayer.Kt m) in *.
  destruct (TemporalConvLayer_conv m x B T V Hwf Hx HK HT HV HC HI)
    as (cv & Ecv & _ & Gcv).
  destruct (TemporalConvLayer_conv m x' B T V Hwf Hx' HK HT HV HC HI)
    as (cv' & Ecv' & _ & Gcv').
  assert (Hconv : forall o,
            o < (if TemporalConvLayer.gated (TemporalConvLayer.act_func m)
                 then 2 * TemporalConvLayer.c_out m
                 else TemporalConvLayer.c_out m) ->
            get cv [b; o; t; v] = get cv' [b; o; t; v]).
  { intros o Ho. rewrite Gcv, Gcv' by assumption.
    destruct Hwf as (_ & _ & _ & _ & _ & _ & Hk & Hs & Hd).
    apply Conv2d_elem_ext. rewrite Hk, Hs, Hd. cbn [fst snd].
    intros c p q Hc Hp Hq.
    replace (t * 1 + p * 1) with (t + p) by lia.
    replace (v * 1 + q * 1) with v by lia.
    apply Hagree; assumption. }
  assert (Halign : forall a a',
            Align.forward (TemporalConvLayer.align m) x = Ok a ->
            Align.forward (TemporalConvLayer.align m) x' = Ok a' ->
            forall c, c < TemporalConvLayer.c_out m ->
              get a [b; c; Kt - 1 + t; v] = get a' [b; c; Kt - 1 + t; v]).
  { intros a a' Ea Ea' c Hc.
    destruct Hwf as (Hwa & Hai & Hao & _).
    apply (Align_forward_local (TemporalConvLayer.align m) x x' a a' B T V
             b (Kt - 1 + t) v Hwa); rewrite ?Hai, ?Hao; try assumption;
      try lia.
    intros c' Hc'. replace (Kt - 1 + t) with (t + (Kt - 1)) by lia.
    apply Hagree; [exact Hc' | fold Kt; lia]. }
  destruct (supported_cases _ Hsup) as [Hg | (Hg & f & Hf)].
  - destruct (TemporalConvLayer_forward_gated m x B T V Hwf Hx HK HT HV HC HI
                Hg)
      as (a & xc & y & Ea & Exc & _ & Ey & _ & Gy).
    destruct (TemporalConvLayer_forward_gated m x' B T V Hwf Hx' HK HT HV HC HI
                Hg)
      as (a' & xc' & y' & Ea' & Exc' & _ & Ey' & _ & Gy').
    rewrite Ecv in Exc. injection Exc as <-.
    rewrite Ecv' in Exc'. injection Exc' as <-.
    exists y, y'. split; [exact Ey|]. split; [exact Ey'|].
    intros c Hc. rewrite Hg in Hconv.
    pose proof (Gy b c t v Hb Hc Ht Hv) as E1.
    pose proof (Gy' b c t v Hb Hc Ht Hv) as E2.
    cbv zeta in E1, E2. rewrite E1, E2. fold Kt.
    rewrite (Hconv c) by lia.
    rewrite (Hconv (TemporalConvLayer.c_out m + c)) by lia.
    rewrite (Halign a a' Ea Ea' c Hc). reflexivity.
  - destruct (TemporalConvLayer_forward_plain m x B T V f Hwf Hx HK HT HV HC
                HI Hg Hf) as (a & xc & y & Ea & Exc & _ & Ey & _ & Gy).
    destruct (TemporalConvLayer_forward_plain m x' B T V f Hwf Hx' HK HT HV HC
                HI Hg Hf) as (a' & xc' & y' & Ea' & Exc' & _ & Ey' & _ & Gy').
    rewrite Ecv in Exc. injection Exc as <-.
    rewrite Ecv' in Exc'. injection Exc' as <-.
    exists y, y'. split; [exact Ey|]. split; [exact Ey'|].
    intros c Hc. rewrite Hg in Hconv.
    rewrite (Gy b c t v Hb Hc Ht Hv), (Gy' b c t v Hb Hc Ht Hv). fold Kt.
    rewrite (Hconv c) by lia.
    rewrite (Halign a a' Ea Ea' c Hc). reflexivity.
Qed.

Lemma X18_temporal_layer_window_witness :
  shape ex_x = [1; 1; 4; 2] /\ shape ex_x_window = [1; 1; 4; 2] /\
  ex_x <> ex_x_window /\
  (forall c p, c < 1 -> p < 2 ->
     get ex_x [0; c; 0 + p; 0] = get ex_x_window [0; c; 0 + p; 0]) /\
  exists y y',
    TemporalConvLayer.forward (ex_temporal 2 1 1 2 "glu") ex_x = Ok y /\
    TemporalConvLayer.forward (ex_temporal 2 1 1 2 "glu") ex_x_window = Ok y' /\
    forall c, c < 1 -> get y [0; c; 0; 0] = get y' [0; c; 0; 0].
Proof.
  assert (Hagree : forall c p, c < 1 -> p < 2 ->
            get ex_x [0; c; 0 + p; 0] = get ex_x_window [0; c; 0 + p; 0]).
  { intros c p Hc Hp.
    destruct c as [|c]; [|lia].
    destruct p as [|[|p]]; [reflexivity | reflexivity | lia]. }
  split; [reflexivity|]. split; [reflexivity|].
  split; [intros H; discriminate H|].
  split; [exact Hagree|].
  apply (X18_temporal_layer_window (ex_temporal 2 1 1 2 "glu") ex_x
           ex_x_window 1 4 2 0 0 0 (ex_temporal_well_formed 2 1 1 2 "glu"));
    try reflexivity; try (simpl; lia).
  exact Hagree.
Defined.



(** X20: the vertex count [n_vertex] given to the block constructor is
    used by the layer normalisation only.  A block built for [n_vertex]
    vertices on an operator of [V <> n_vertex] vertices is constructed,
    its three layers run on an input of [V] vertices (with the
    [last_block_channel >= 1] channels of the first layer), and the
    forward pass raises [RuntimeError] in [tc2_ln]. *)
Theorem X20_block_vertex_count_checked_by_norm {R : Type} {RS : Scalar R}
    (Kt Ks n_vertex V last_block_channel c0 c1 c2 : nat) (rest : list nat)
    (act type : string) (gso : Tensor R) (use_bias : bool)
    (n_his l : option Z)
    (nn_MultiheadAttention :
       nat -> nat -> MultiHeadSelfAttention.attention_fn R)
    (eps : R) (rnd : list nat -> R) (x : Tensor R) (B T : nat) :
  shape gso = [V; V] -> n_vertex <> V ->
  TemporalConvLayer.supported act = true ->
  GraphConvLayer.supported type = true -> 1 <= Ks ->
  shape x = [B; last_block_channel; T; V] ->
  1 <= Kt -> 2 * (Kt - 1) + 1 <= T -> 1 <= V ->
  1 <= c0 -> 1 <= c1 -> 1 <= c2 -> 1 <= last_block_channel ->
  exists m tmp1 graph1 x2,
    STConvBlock.init Kt Ks n_vertex last_block_channel (c0 :: c1 :: c2 :: rest)
      act type gso use_bias n_his l None nn_MultiheadAttention eps rnd
      = Ok m /\
    TemporalConvLayer.forward (STConvBlock.tmp_conv1 m) x = Ok tmp1 /\
    GraphConvLayer.forward (STConvBlock.graph_conv m) tmp1 = Ok graph1 /\
    TemporalConvLayer.forward (STConvBlock.tmp_conv2 m) (tmap relu graph1)
      = Ok x2 /\
    STConvBlock.forward m None x = Raise RuntimeError.
Proof.
  intros Hg Hne Hact Htype HKs Hx HK HT HV H0 H1 H2 H3.
  destruct (TemporalConvLayer_init_well_formed Kt last_block_channel c0
              n_vertex act rnd) as (t1 & Ht1 & Hw1 & HK1 & Hi1 & Ho1 & Ha1).
  destruct (GraphConvLayer_init_well_formed type c0 c1 Ks V gso use_bias rnd Hg)
    as (g & Hgi & Hwg & Hgt & Hgci & Hgco & HgK).
  destruct (TemporalConvLayer_init_well_formed Kt c1 c2 n_vertex act rnd)
    as (t2 & Ht2 & Hw2 & HK2 & Hi2 & Ho2 & Ha2).
  unfold STConvBlock.init. cbn [STConvBlock.channel nth_error bind].
  rewrite Ht1. cbn [bind]. rewrite Hgi. cbn [bind]. rewrite Ht2. cbn [bind].
  cbn [STConvBlock.is_STAGCN bind fst snd].
  match goal with |- exists m tmp1 graph1 x2, Ok ?blk = Ok m /\ _ =>
    set (m := blk) end.
  assert (Hwf : STConvBlock.well_formed_layers m V).
  { unfold STConvBlock.well_formed_layers, m. cbn.
    rewrite Hgci, Ho1, Hi2, Hgco, HK2, HK1.
    repeat (split; [assumption || reflexivity|]). reflexivity. }
  pose proof (STConvBlock_stages m x B T V Hwf) as Hst.
  cbv zeta in Hst.
  change (STConvBlock.tmp_conv1 m) with t1 in Hst.
  change (STConvBlock.tmp_conv2 m) with t2 in Hst.
  change (STConvBlock.graph_conv m) with g in Hst.
  rewrite Ha1, Ha2, Hgt, HgK, Hi1, HK1, Ho1, Hgco, Ho2 in Hst.
  destruct Hst as (tmp1 & graph1 & x2 & E1 & S1 & Eg & Sg & E2 & S2);
    try assumption.
  exists m, tmp1, graph1, x2.
  split; [reflexivity|]. split; [exact E1|]. split; [exact Eg|].
  split; [exact E2|].
  destruct (permute_0231 x2 B c2 (T - 2 * (Kt - 1)) V S2)
    as (xp & Exp & Sxp & _).
  unfold STConvBlock.forward.
  change (STConvBlock.tmp_conv1 m) with t1.
  change (STConvBlock.tmp_conv2 m) with t2.
  change (STConvBlock.graph_conv m) with g.
  rewrite E1. cbn [bind]. rewrite Eg. cbn [bind]. rewrite E2. cbn [bind].
  change (STConvBlock.is_STAGCN (STConvBlock.use_attn m)) with false.
  cbn [bind]. rewrite Exp. cbn [bind].
  rewrite (LayerNorm_forward_mismatch (STConvBlock.tc2_ln m) xp B
             (T - 2 * (Kt - 1)) V c2 n_vertex c2 Sxp eq_refl)
    by (left; exact Hne).
  reflexivity.
Qed.

Lemma X20_block_vertex_count_checked_by_norm_witness :
  shape ex_gso = [2; 2] /\ 3 <> 2 /\
  exists m tmp1 graph1 x2,
    STConvBlock.init 3 2 3 1 [2; 1; 2] "glu" "cheb_graph_conv" ex_gso true
      None None None ex_mha 0%Z rnd1 = Ok m /\
    TemporalConvLayer.forward (STConvBlock.tmp_conv1 m)
      (tab [1; 1; 6; 2] rnd1) = Ok tmp1 /\
    GraphConvLayer.forward (STConvBlock.graph_conv m) tmp1 = Ok graph1 /\
    TemporalConvLayer.forward (STConvBlock.tmp_conv2 m) (tmap relu graph1)
      = Ok x2 /\
    STConvBlock.forward m None (tab [1; 1; 6; 2] rnd1) = Raise RuntimeError.
Proof.
  split; [reflexivity|]. split; [lia|].
  apply (X20_block_vertex_count_checked_by_norm 3 2 3 2 1 2 1 2 [] "glu"
           "cheb_graph_conv" ex_gso true None None ex_mha 0%Z rnd1
           (tab [1; 1; 6; 2] rnd1) 1 6); try reflexivity; simpl; lia.
Defined.
